(** * Fake-profile detector: the feature-extraction and scoring core

    A shallow embedding of the Python sources

      - [src/features/content_analyzer.py]   (module [ContentAnalyzer])
      - [src/features/activity_analyzer.py]  (module [ActivityAnalyzer])
      - [src/features/image_analyzer.py]     (module [ImageAnalyzer])
      - [src/features/network_analyzer.py]   (module [NetworkAnalyzer])
      - [src/utils/feature_extractor.py]     (module [FeatureExtractor])
      - [src/detector.py]                    (module [Detector])

    followed by the properties of the specification that were checked
    against it.

    Modelling conventions.

    - Python [float] and [int] values are rationals ([Q]); arithmetic is
      exact.  Every division of the sources sits behind the guard the
      source has; the guard is kept.
    - Python [str] is [string], a sequence of 8-bit characters; text is
      taken to be ASCII (the UTF-8 bytes of anything else).
    - A Python [dict] produced by the code (feature maps, importances) is a
      [gmap string _]; [{**a, **b}] and [a.update(b)] are the union in which
      [b] wins.  A Python [set] is a [gset].
    - The profile handed to the core is a record with optional fields: a
      field that is [None] stands for an absent key.
    - Exceptions are values of [Exc]; a function of the source that cannot
      raise on a typed profile is a plain function.
    - Library calls ([datetime.strptime], [re.search], [numpy.exp],
      [hashlib.md5], [random]) are fields of the record [PyLib]; the
      three readings of [datetime.now()] are the record [Clock]. *)

From Stdlib Require Import QArith Qminmax Qabs Qround Lqa ZArith Lia Ascii.
From stdpp Require Import gmap strings list fin_maps sorting.
From Equations Require Import Equations.

Local Open Scope Q_scope.

(** ** Numbers *)

Module Num.

Definition of_nat (n : nat) : Q := inject_Z (Z.of_nat n).

(** [x < y] and [x <= y] as the booleans Python computes. *)
Definition leb (x y : Q) : bool := Qle_bool x y.
Definition ltb (x y : Q) : bool := negb (Qle_bool y x).
Definition eqb (x y : Q) : bool := Qeq_bool x y.

(** Python's two-argument [min] and [max]: the first argument is kept
    unless the second is strictly better. *)
Definition min (a b : Q) : Q := if ltb b a then b else a.
Definition max (a b : Q) : Q := if ltb a b then b else a.

(** The closed unit interval. *)
Definition in_unit (x : Q) : Prop := 0 <= x /\ x <= 1.

End Num.

Notation "x <? y" := (Num.ltb x y) : Q_scope.
Notation "x <=? y" := (Num.leb x y) : Q_scope.
Notation "x >? y" := (Num.ltb y x) (at level 70, only parsing) : Q_scope.
Notation "x >=? y" := (Num.leb y x) (at level 70, only parsing) : Q_scope.

(** ** Exceptions *)

Inductive exn : Set :=
| AttributeError
| TypeError
| ValueError
| IndexError.

Inductive Exc (A : Type) : Type :=
| Ok (a : A)
| Raise (e : exn).
Arguments Ok {A} a.
Arguments Raise {A} e.

#[global] Instance Exc_ret : MRet Exc := fun _ a => Ok a.
#[global] Instance Exc_bind : MBind Exc := fun _ _ k m =>
  match m with
  | Ok a => k a
  | Raise e => Raise e
  end.
#[global] Instance Exc_fmap : FMap Exc := fun _ _ f m =>
  match m with
  | Ok a => Ok (f a)
  | Raise e => Raise e
  end.

(** ** Strings: the [str] methods the sources call *)

Module Str.

Definition code (c : ascii) : N := N_of_ascii c.

(** [str.isspace] on ASCII: TAB..CR, FS..US and the blank. *)
Definition isspace (c : ascii) : bool :=
  ((9 <=? code c) && (code c <=? 13) || (28 <=? code c) && (code c <=? 32))%N.

(** Membership in [string.punctuation]. *)
Definition ispunct (c : ascii) : bool :=
  ((33 <=? code c) && (code c <=? 47) || (58 <=? code c) && (code c <=? 64)
   || (91 <=? code c) && (code c <=? 96) || (123 <=? code c) && (code c <=? 126))%N.

Definition isdigit (c : ascii) : bool :=
  ((48 <=? code c) && (code c <=? 57))%N.

Definition lower_char (c : ascii) : ascii :=
  if ((65 <=? code c) && (code c <=? 90))%N then ascii_of_N (code c + 32) else c.

Fixpoint map (f : ascii → ascii) (s : string) : string :=
  match s with
  | EmptyString => EmptyString
  | String c s' => String (f c) (map f s')
  end.

Fixpoint filter (f : ascii → bool) (s : string) : string :=
  match s with
  | EmptyString => EmptyString
  | String c s' => if f c then String c (filter f s') else filter f s'
  end.

Definition lower (s : string) : string := map lower_char s.

Definition len (s : string) : nat := String.length s.

(** Truth value of a [str]: non-empty. *)
Definition truthy (s : string) : bool :=
  match s with EmptyString => false | String _ _ => true end.

Fixpoint lstrip (s : string) : string :=
  match s with
  | EmptyString => EmptyString
  | String c s' => if isspace c then lstrip s' else s
  end.

Definition reverse (s : string) : string :=
  String.string_of_list_ascii (rev (String.list_ascii_of_string s)).

Definition strip (s : string) : string :=
  reverse (lstrip (reverse (lstrip s))).

Definition flush (word : list ascii) : list string :=
  match word with
  | [] => []
  | _ :: _ => [String.string_of_list_ascii (rev word)]
  end.

(** [str.split()] without argument: maximal runs of non-blank characters. *)
Fixpoint split_go (word : list ascii) (cs : list ascii) : list string :=
  match cs with
  | [] => flush word
  | c :: cs' =>
      if isspace c then flush word ++ split_go [] cs'
      else split_go (c :: word) cs'
  end.

Definition split (s : string) : list string :=
  split_go [] (String.list_ascii_of_string s).

(** [sub in s]. *)
Fixpoint contains (sub s : string) : bool :=
  String.prefix sub s ||
  match s with
  | EmptyString => false
  | String _ s' => contains sub s'
  end.

(** [s.count(sub)] for a non-empty [sub]: occurrences that do not
    overlap, scanning from the left. *)
Fixpoint count_go (sub : string) (skip : nat) (s : string) : nat :=
  match s with
  | EmptyString => 0
  | String _ s' =>
      match skip with
      | S k => count_go sub k s'
      | O =>
          if String.prefix sub s
          then S (count_go sub (String.length sub - 1) s')
          else count_go sub 0 s'
      end
  end.

Definition count (s sub : string) : nat := count_go sub 0 s.

(** [s.replace(old, new)] for a one-character [old]. *)
Fixpoint replace_char (old : ascii) (new : string) (s : string) : string :=
  match s with
  | EmptyString => EmptyString
  | String c s' =>
      if Ascii.eqb c old then (new +:+ replace_char old new s')
      else String c (replace_char old new s')
  end.

End Str.

(** Number of elements of a list that satisfy a test: the Python idiom
    [sum(1 for x in xs if p(x))]. *)
Definition count_if {A} (p : A → bool) (xs : list A) : nat :=
  length (List.filter p xs).

(** [sum(f(x) for x in xs)] over rationals and over naturals. *)
Definition sumQ {A} (f : A → Q) (xs : list A) : Q :=
  fold_left (fun acc x => acc + f x) xs 0.
Definition sum_nat {A} (f : A → nat) (xs : list A) : nat :=
  fold_left (fun acc x => (acc + f x)%nat) xs 0%nat.

(** ** The data model *)

(** A value stored in a feature map. *)
Inductive value : Type :=
| VNum (q : Q)
| VBool (b : bool)
| VStr (s : string)
| VNone.

(** The number a feature stands for in a comparison: [bool] is a
    subclass of [int]; a string or [None] makes the comparison raise
    [TypeError]. *)
Definition as_num (v : value) : Exc Q :=
  match v with
  | VNum q => Ok q
  | VBool b => Ok (if b then 1 else 0)
  | VStr _ | VNone => Raise TypeError
  end.

(** [features.get(key, default)] read as a number. *)
Definition get_num (features : gmap string value) (key : string) (default : Q) : Exc Q :=
  match features !! key with
  | Some v => as_num v
  | None => Ok default
  end.

(** [dict.update] and [{**a, **b}]: the entries of [b] win. *)
Definition update (a b : gmap string value) : gmap string value := b ∪ a.

(** A field of the profile whose Python type the code inspects. *)
Inductive scalar : Type :=
| SNone
| SBool (b : bool)
| SNum (q : Q)
| SStr (s : string).

Definition scalar_truthy (v : scalar) : bool :=
  match v with
  | SNone => false
  | SBool b => b
  | SNum q => negb (Num.eqb q 0)
  | SStr s => Str.truthy s
  end.

(** Truth value of an optional text field: absent and empty are false. *)
Definition text_truthy (o : option string) : bool :=
  match o with
  | Some s => Str.truthy s
  | None => false
  end.

(** A post given as a [dict], and an element of [posts]: a [dict], a
    bare [str], or anything else. *)
Module Post.
Record dict : Type := {
  text : option string;
  caption : option string;
  timestamp : option scalar;
  likes : option Z;
  comments : option Z;
  shares : option Z;
  retweets : option Z;
  is_retweet : bool;
  source : option string
}.

Inductive t : Type :=
| Dict (d : dict)
| Text (s : string)
| Other.
End Post.

(** An element of [followers], [following] or [interactions]. *)
Module User.
Record dict : Type := {
  id : option string;
  user_id : option string;
  username : option string
}.

Inductive t : Type :=
| Dict (d : dict)
| Name (s : string)
| Other.
End User.

(** The profile record ([profile_data]).  A count is absent ([None]) or an
    integer; a flag is the truth value of [profile_data.get(key)]. *)
Module Profile.
Record t : Type := {
  username : option string;
  platform : option string;
  creation_date : option scalar;
  bio : option string;
  location : option string;
  name : option string;
  display_name : option string;
  profile_pic_url : option string;
  external_url : option string;
  has_external_url : bool;
  verified : bool;
  is_verified : bool;
  is_private : bool;
  followers_count : option Z;
  friend_count : option Z;
  following_count : option Z;
  post_count : option Z;
  posts : list Post.t;
  followers : list User.t;
  following : list User.t;
  interactions : list User.t;
  is_blue : bool;
  is_business_account : bool;
  has_highlights : bool;
  has_igtv : bool;
  page_likes_count : option Z;
  work : option string;
  education : option string;
  relationship_status : option string;
  has_profile_details : bool
}.
End Profile.

(** ** Dates and the library *)

(** A naive [datetime]: microseconds since 0001-01-01T00:00:00.  A
    [timedelta] is a difference of two of them. *)
Definition datetime : Type := Z.
Definition timedelta : Type := Z.

Module Time.
Definition micros_per_second : Z := 1000000.
Definition micros_per_hour : Z := 3600 * micros_per_second.
Definition micros_per_day : Z := 86400 * micros_per_second.

(** [timedelta.days]: whole days, rounded towards minus infinity. *)
Definition days (d : timedelta) : Z := (d / micros_per_day)%Z.

(** [timedelta.total_seconds()]. *)
Definition total_seconds (d : timedelta) : Q := inject_Z d / inject_Z micros_per_second.

(** [datetime.hour]. *)
Definition hour (t : datetime) : nat := Z.to_nat ((t / micros_per_hour) mod 24)%Z.

(** [timedelta(minutes=m)]. *)
Definition minutes (m : Z) : timedelta := (m * 60 * micros_per_second)%Z.
End Time.

(** The library functions the core calls.  A parser answers [None] where
    Python raises [ValueError]; [fromtimestamp] answers [None] where it
    raises for a value out of range.  [re_search pattern text] is
    [re.search(pattern, text, re.IGNORECASE)] as a truth value;
    [random_after_seed s] is the first [random.random()] after
    [random.seed(s)]. *)
Record PyLib : Type := {
  strptime : string → string → option datetime;
  fromisoformat : string → option datetime;
  fromtimestamp : Q → option datetime;
  re_search : string → string → bool;
  np_exp : Q → Q;
  np_sqrt : Q → Q;
  md5_hexdigest : string → string;
  random_after_seed : Z → Q
}.

(** What the analyzers need of the library: [exp] is never negative and
    [random.random()] lies in [[0, 1)]. *)
Record PyLibLaws (L : PyLib) : Prop := {
  np_exp_nonneg : ∀ x, 0 <= np_exp L x;
  random_range : ∀ s, 0 <= random_after_seed L s ∧ random_after_seed L s < 1
}.

(** The readings of [datetime.now()], one per call site: in
    [FeatureExtractor._extract_account_metrics], in
    [ActivityAnalyzer.analyze], and for the time stamp of the result. *)
Record Clock : Type := {
  now_features : datetime;
  now_activity : datetime;
  now_result : datetime
}.

(** [datetime.strptime(v, fmt)]: [TypeError] unless [v] is a string. *)
Definition py_strptime (L : PyLib) (v : scalar) (fmt : string) : Exc datetime :=
  match v with
  | SStr s =>
      match strptime L s fmt with
      | Some d => Ok d
      | None => Raise ValueError
      end
  | _ => Raise TypeError
  end.

(** The loop over date formats that [FeatureExtractor] and
    [ActivityAnalyzer] share: a format that raises [ValueError] is
    skipped, the first format that parses wins ([break]), any other
    exception leaves the loop.  [Ok None] is the loop running to its end
    with the target variable never assigned. *)
Fixpoint strptime_first (L : PyLib) (v : scalar) (formats : list string)
  : Exc (option datetime) :=
  match formats with
  | [] => Ok None
  | fmt :: rest =>
      match py_strptime L v fmt with
      | Ok d => Ok (Some d)
      | Raise ValueError => strptime_first L v rest
      | Raise e => Raise e
      end
  end.

Definition creation_date_formats : list string :=
  ["%Y-%m-%d"; "%Y-%m-%dT%H:%M:%S"; "%Y/%m/%d"]%string.

(** The time stamp of one post, as both [FeatureExtractor] and
    [ActivityAnalyzer] read it: a number (a [bool] is an [int]) goes
    through [fromtimestamp]; anything else through the two [strptime]
    formats and then [fromisoformat] with [Z] replaced.  [None] is a post
    the loop skips: every failure is caught inside the loop. *)
Definition parse_timestamp (L : PyLib) (v : scalar) : option datetime :=
  match v with
  | SNum q => fromtimestamp L q
  | SBool b => fromtimestamp L (if b then 1 else 0)
  | SStr s =>
      match strptime L s "%Y-%m-%dT%H:%M:%S" with
      | Some dt => Some dt
      | None =>
          match strptime L s "%Y-%m-%d %H:%M:%S" with
          | Some dt => Some dt
          | None => fromisoformat L (Str.replace_char "Z" "+00:00" s)
          end
      end
  | SNone => None
  end.

Definition post_timestamp (L : PyLib) (p : Post.t) : list datetime :=
  match p with
  | Post.Dict d =>
      match Post.timestamp d with
      | Some v =>
          match parse_timestamp L v with
          | Some dt => [dt]
          | None => []
          end
      | None => []
      end
  | _ => []
  end.

(** [post_timestamps] after the loop over [posts]. *)
Definition post_timestamps (L : PyLib) (posts : list Post.t) : list datetime :=
  concat (List.map (post_timestamp L) posts).

(** [sorted(timestamps)]. *)
Definition sorted (timestamps : list datetime) : list datetime :=
  merge_sort Z.le timestamps.

(** Differences of neighbours: [xs[i] - xs[i-1]] for [i] from 1. *)
Fixpoint gaps (xs : list datetime) : list timedelta :=
  match xs with
  | a :: (b :: _) as rest => (b - a)%Z :: gaps rest
  | _ => []
  end.

Definition inspect {A} (a : A) : {b : A | a = b} := exist _ a eq_refl.

(** ** [ContentAnalyzer] (src/features/content_analyzer.py) *)

Module ContentAnalyzer.

(** [_tokenize]: drop punctuation, split on blanks, drop empty words. *)
Definition _tokenize (text : string) : list string :=
  List.filter Str.truthy (Str.split (Str.filter (fun c => negb (Str.ispunct c)) text)).

Definition positive_words : gset string :=
  list_to_set
    ["good"; "great"; "excellent"; "amazing"; "wonderful"; "best";
     "love"; "happy"; "awesome"; "nice"; "fantastic"; "beautiful";
     "perfect"; "enjoy"; "thanks"; "thank"; "appreciated"; "like";
     "excited"; "glad"; "pleased"; "impressive"; "impressive"; "well"]%string.

Definition negative_words : gset string :=
  list_to_set
    ["bad"; "terrible"; "awful"; "horrible"; "worst"; "hate";
     "dislike"; "poor"; "disappointed"; "disappointing"; "sucks";
     "suck"; "sad"; "angry"; "upset"; "unfortunate"; "wrong";
     "never"; "problem"; "issue"; "fail"; "failed"; "failure"]%string.

Definition is_in (words : gset string) (w : string) : bool :=
  bool_decide (w ∈ words).

(** The loop of [_analyze_sentiment]: both counters are threaded
    through the texts. *)
Definition sentiment_step (acc : nat * nat) (text : string) : nat * nat :=
  let words := _tokenize (Str.lower text) in
  (fst acc + count_if (is_in positive_words) words,
   snd acc + count_if (is_in negative_words) words)%nat.

Definition sentiment_counts (texts : list string) : nat * nat :=
  fold_left sentiment_step texts (0, 0)%nat.

(** [_analyze_sentiment].  On texts that are strings nothing in the
    [try] block raises, so the [except] branch is not modelled. *)
Definition _analyze_sentiment (texts : list string) : Q :=
  let positive_count := fst (sentiment_counts texts) in
  let negative_count := snd (sentiment_counts texts) in
  let total := (positive_count + negative_count)%nat in
  if (total =? 0)%nat then 0.5
  else 0.5 + ((Num.of_nat positive_count - Num.of_nat negative_count)
              / (2 * Num.of_nat total)).

(** [_calculate_content_diversity]: the type-token ratio, lowered for
    small numbers of texts. *)
Definition all_tokens (texts : list string) : list string :=
  concat (List.map (fun text => _tokenize (Str.lower text)) texts).

Definition _calculate_content_diversity (texts : list string) : Q :=
  match texts with
  | [] => 1
  | _ :: _ =>
      match all_tokens texts with
      | [] => 1
      | _ :: _ =>
          let token_counts : gset string := list_to_set (all_tokens texts) in
          let unique_tokens := size token_counts in
          let total_tokens := length (all_tokens texts) in
          if (total_tokens =? 0)%nat then 1
          else
            let ttr := Num.of_nat unique_tokens / Num.of_nat total_tokens in
            ttr * (1 - 0.5 * (1 / (1 + Num.of_nat (length texts))))
      end
  end.

(** The spam patterns of [__init__], searched with [re.IGNORECASE]. *)
Definition spam_patterns : list string :=
  ["(earn|make)(\s+)?\$\d+(\s+)?(per|a)(\s+)?(day|week|month|hour)";
   "free\s+money";
   "work\s+from\s+home";
   "(click|tap)\s+here";
   "(check|see)(\s+)?(my|this)(\s+)?profile";
   "follow(\s+)?(me|back)";
   "(dm|message)(\s+)?me";
   "dating";
   "hot\s+(singles|girls|guys)";
   "(bitcoin|crypto)(\s+)?(investment|trading)";
   "get\s+rich";
   "lose\s+weight";
   "diet\s+pill";
   "miracle\s+cure";
   "[A-Za-z0-9_.+-]+@[A-Za-z0-9-]+\.[A-Za-z0-9-.]+";
   "https?://[A-Za-z0-9.-]+\.[A-Za-z]{2,}(/\S*)?"]%string.

(** [_detect_spam_patterns]: one match per text and pattern. *)
Definition _detect_spam_patterns (L : PyLib) (texts : list string) : nat :=
  sum_nat (fun text => count_if (fun pattern => re_search L pattern text) spam_patterns)
          texts.

(** [_load_suspicious_keywords]. *)
Definition suspicious_keywords : gset string :=
  list_to_set
    ["money"; "cash"; "earn"; "income"; "rich"; "wealthy"; "profit";
     "investment"; "invest"; "bitcoin"; "crypto"; "cryptocurrency";
     "forex"; "trading"; "trader"; "stocks"; "bitcoin"; "btc"; "eth";
     "offer"; "free"; "discount"; "deal"; "promo"; "promotion";
     "limited"; "exclusive"; "opportunity"; "chance"; "lifetime";
     "job"; "career"; "hiring"; "remote"; "work"; "home"; "online";
     "passive"; "income"; "salary"; "payday"; "loan"; "loans";
     "hot"; "sexy"; "dating"; "date"; "single"; "chat"; "meet";
     "hookup"; "adult"; "cam"; "webcam"; "girl"; "girls"; "boys";
     "click"; "tap"; "join"; "register"; "sign"; "subscribe";
     "follow"; "dm"; "pm"; "message"; "contact"; "link"; "bio";
     "weight"; "loss"; "diet"; "slim"; "fat"; "burn"; "health";
     "pill"; "supplement"; "vitamin"; "detox"; "cleanse"; "inches";
     "urgent"; "hurry"; "quick"; "fast"; "immediately"; "now";
     "today"; "tonight"; "soon"; "limited"; "act"; "action"]%string.

(** [_count_suspicious_keywords]: per text, the distinct words that are
    keywords. *)
Definition _count_suspicious_keywords (texts : list string) : nat :=
  sum_nat (fun text =>
             let words : gset string := list_to_set (_tokenize (Str.lower text)) in
             count_if (is_in suspicious_keywords) (elements words))
          texts.

(** [_calculate_suspicious_score]. *)
Definition _calculate_suspicious_score
    (sentiment_score content_diversity : Q) (spam_matches : nat)
    (keyword_ratio : Q) (post_count : nat) : Q :=
  let sentiment_factor := 2 * Qabs (sentiment_score - 0.5) in
  let diversity_factor := 1 - content_diversity in
  let spam_factor :=
    if (0 <? post_count)%nat
    then Num.min 1 (Num.of_nat spam_matches / Num.of_nat post_count)
    else 0 in
  0.1 * sentiment_factor + 0.35 * diversity_factor + 0.35 * spam_factor
  + 0.2 * Num.min 1 (keyword_ratio * 10).

(** The text of a post as [analyze] collects it; other elements are
    skipped. *)
Definition post_text (p : Post.t) : list string :=
  match p with
  | Post.Dict d => [default ""%string (Post.text d)]
  | Post.Text s => [s]
  | Post.Other => []
  end.

Definition neutral : gmap string value :=
  {[ "content_analysis_performed"%string := VBool false;
     "sentiment_score"%string := VNum 0.5;
     "content_diversity"%string := VNum 1;
     "suspicious_content_score"%string := VNum 0;
     "spam_pattern_matches"%string := VNum 0 ]}.

(** [analyze]. *)
Definition analyze (L : PyLib) (profile_data : Profile.t) : gmap string value :=
  match Profile.posts profile_data with
  | [] => neutral
  | posts =>
      let post_texts :=
        List.filter (fun text => Str.truthy (Str.strip text))
                    (concat (List.map post_text posts)) in
      match post_texts with
      | [] => neutral
      | _ :: _ =>
          let sentiment_score := _analyze_sentiment post_texts in
          let content_diversity := _calculate_content_diversity post_texts in
          let spam_pattern_matches := _detect_spam_patterns L post_texts in
          let suspicious_keywords_count := _count_suspicious_keywords post_texts in
          let total_words := sum_nat (fun text => length (_tokenize text)) post_texts in
          let keyword_ratio :=
            if (0 <? total_words)%nat
            then Num.of_nat suspicious_keywords_count / Num.of_nat total_words
            else 0 in
          let suspicious_content_score :=
            _calculate_suspicious_score sentiment_score content_diversity
              spam_pattern_matches keyword_ratio (length post_texts) in
          {[ "content_analysis_performed"%string := VBool true;
             "sentiment_score"%string := VNum sentiment_score;
             "content_diversity"%string := VNum content_diversity;
             "suspicious_content_score"%string := VNum suspicious_content_score;
             "spam_pattern_matches"%string := VNum (Num.of_nat spam_pattern_matches);
             "suspicious_keywords_count"%string :=
               VNum (Num.of_nat suspicious_keywords_count);
             "keyword_ratio"%string := VNum keyword_ratio ]}
      end
  end.

End ContentAnalyzer.

(** ** [ActivityAnalyzer] (src/features/activity_analyzer.py) *)

Module ActivityAnalyzer.

(** [_calculate_posting_frequency]. *)
Definition _calculate_posting_frequency (posts : list Post.t) (account_age_days : Z) : Q :=
  let account_age_days := if (account_age_days <=? 0)%Z then 1%Z else account_age_days in
  Num.of_nat (length posts) / inject_Z account_age_days.

Definition engagement (p : Post.t) : Z :=
  match p with
  | Post.Dict d =>
      (default 0 (Post.likes d) + default 0 (Post.comments d) + default 0 (Post.shares d))%Z
  | _ => 0%Z
  end.

(** [_calculate_engagement_rate]: the mean engagement of a post through
    a logistic curve centred at 10. *)
Definition _calculate_engagement_rate (L : PyLib) (posts : list Post.t) : Q :=
  let total_posts := length posts in
  if (total_posts =? 0)%nat then 0
  else
    let total_engagement := fold_left (fun acc p => (acc + engagement p)%Z) posts 0%Z in
    let avg_engagement_per_post := inject_Z total_engagement / Num.of_nat total_posts in
    1 / (1 + np_exp L (- 0.1 * (avg_engagement_per_post - 10))).

(** [numpy.mean] and [numpy.std] (the population deviation). *)
Definition np_mean (xs : list Q) : Q := sumQ (fun x => x) xs / Num.of_nat (length xs).
Definition np_std (L : PyLib) (xs : list Q) : Q :=
  np_sqrt L (np_mean (List.map (fun x => (x - np_mean xs) * (x - np_mean xs)) xs)).

(** [_analyze_posting_regularity]. *)
Definition _analyze_posting_regularity (L : PyLib) (timestamps : list datetime) : Q :=
  if (length timestamps <? 2)%nat then 0.5
  else
    let sorted_timestamps := sorted timestamps in
    let time_diffs := List.map Time.total_seconds (gaps sorted_timestamps) in
    let mean_diff := np_mean time_diffs in
    if Num.eqb mean_diff 0 then 1
    else
      let std_diff := np_std L time_diffs in
      let cv := std_diff / mean_diff in
      Num.max 0 (Num.min 1 (1 - cv / 2)).

(** [hour_counts[h]] of a [Counter] over the hours. *)
Definition hour_count (hours : list nat) (h : nat) : nat :=
  count_if (fun x => (x =? h)%nat) hours.

(** Posts in the eight hours from [start_hour], around the clock. *)
Definition posts_in_window (hours : list nat) (start_hour : nat) : nat :=
  sum_nat (fun h => hour_count hours (h mod 24)) (seq start_hour 8).

Definition max_window_posts (hours : list nat) : nat :=
  fold_left (fun acc start_hour => Nat.max acc (posts_in_window hours start_hour))
            (seq 0 24) 0%nat.

(** [_analyze_time_zone_consistency]. *)
Definition _analyze_time_zone_consistency (timestamps : list datetime) : Q :=
  if (length timestamps <? 5)%nat then 0.5
  else
    let hours := List.map Time.hour timestamps in
    let total_posts := length hours in
    Num.of_nat (max_window_posts hours) / Num.of_nat total_posts.

Definition burst_window : timedelta := Time.minutes 10.
Definition min_posts_for_burst : nat := 3.

(** The inner [while] of [_detect_posting_bursts]: [j] runs on while the
    post at [j] lies within the window. *)
Equations window_loop (ts : list datetime) (window_end : datetime) (window_posts j : nat)
  : nat * nat by wf (length ts - j)%nat lt :=
window_loop ts window_end window_posts j with inspect (ts !! j) := {
  | exist _ None _ => (window_posts, j)
  | exist _ (Some t) H =>
      if (t <=? window_end)%Z
      then window_loop ts window_end (S window_posts) (S j)
      else (window_posts, j) }.
Next Obligation. apply lookup_lt_Some in H. lia. Qed.

(** [_detect_posting_bursts]: the outer [while] over the sorted time
    stamps, with the burst counter and the index [i] as its state.  The
    loop ends because [j] has moved by [window_posts] when a burst is
    counted. *)
Equations burst_loop (ts : list datetime) (bursts i : nat) : nat
  by wf (length ts - i)%nat lt :=
burst_loop ts bursts i with inspect (ts !! i) := {
  | exist _ None _ => bursts
  | exist _ (Some t) H with inspect (window_loop ts (t + burst_window)%Z 0 i) := {
      | exist _ (window_posts, j) Hw
          with inspect (min_posts_for_burst <=? window_posts)%nat := {
          | exist _ true Hb => burst_loop ts (S bursts) j
          | exist _ false _ => burst_loop ts bursts (S i) } } }.
Next Obligation.
  apply lookup_lt_Some in H.
  assert (Hidx : ∀ ts' we wp j0,
             ((window_loop ts' we wp j0).2 + wp = j0 + (window_loop ts' we wp j0).1)%nat).
  { clear. intros ts' we wp j0.
    funelim (window_loop ts' we wp j0); [ | simpl; lia ].
    match goal with |- context [(?a <=? ?b)%Z] => destruct (a <=? b)%Z end;
      simpl in *; lia. }
  specialize (Hidx ts (t + burst_window)%Z 0%nat i). rewrite Hw in Hidx. simpl in Hidx.
  change ((min_posts_for_burst <=? window_posts)%nat = true) in Hb.
  apply Nat.leb_le in Hb. unfold min_posts_for_burst in Hb. lia.
Qed.
Next Obligation. apply lookup_lt_Some in H. lia. Qed.

Definition _detect_posting_bursts (timestamps : list datetime) : nat :=
  if (length timestamps <? 3)%nat then 0%nat
  else burst_loop (sorted timestamps) 0 0.

(** [_calculate_activity_score]. *)
Definition _calculate_activity_score
    (account_age_days posts_per_day posting_regularity engagement_rate
     time_zone_consistency posting_bursts : Q) : Q :=
  let age_factor := Num.max 0 (Num.min 1 (1 - account_age_days / 180)) in
  let frequency_factor :=
    if posts_per_day >? 15 then Num.min 1 ((posts_per_day - 15) / 10)
    else if posts_per_day <? 0.05 then Num.min 1 ((0.05 - posts_per_day) / 0.05)
    else 0 in
  let regularity_factor := if posting_regularity >? 0.8 then posting_regularity else 0 in
  let engagement_factor := Num.max 0 (Num.min 1 (1 - engagement_rate * 10)) in
  let time_zone_factor := Num.max 0 (Num.min 1 (1 - time_zone_consistency)) in
  let burst_factor := Num.min 1 (posting_bursts / 5) in
  0.15 * age_factor + 0.2 * frequency_factor + 0.15 * regularity_factor
  + 0.25 * engagement_factor + 0.1 * time_zone_factor + 0.15 * burst_factor.

(** The account age [analyze] works with: 365 unless the creation date
    is set and one of the formats parses it. *)
Definition account_age (L : PyLib) (now : datetime) (creation_date : option scalar) : Z :=
  match creation_date with
  | Some v =>
      if scalar_truthy v then
        match strptime_first L v creation_date_formats with
        | Ok (Some d) => Time.days (now - d)
        | Ok None => 365
        | Raise _ => 365
        end
      else 365
  | None => 365
  end%Z.

(** [analyze]. *)
Definition analyze (L : PyLib) (now : datetime) (profile_data : Profile.t)
  : gmap string value :=
  match Profile.posts profile_data with
  | [] =>
      {[ "activity_analysis_performed"%string := VBool false;
         "posts_per_day"%string := VNum 0;
         "engagement_rate"%string := VNum 0;
         "posting_regularity"%string := VNum 0.5;
         "activity_score"%string := VNum 0.5;
         "time_zone_consistency"%string := VNum 0.5 ]}
  | posts =>
      let account_age_days := account_age L now (Profile.creation_date profile_data) in
      let posts_per_day := _calculate_posting_frequency posts account_age_days in
      let post_timestamps := post_timestamps L posts in
      let '(posting_regularity, time_zone_consistency, posting_bursts) :=
        match post_timestamps with
        | _ :: _ =>
            (_analyze_posting_regularity L post_timestamps,
             _analyze_time_zone_consistency post_timestamps,
             _detect_posting_bursts post_timestamps)
        | [] => (0.5, 0.5, 0%nat)
        end in
      let engagement_rate := _calculate_engagement_rate L posts in
      let activity_score :=
        _calculate_activity_score (inject_Z account_age_days) posts_per_day
          posting_regularity engagement_rate time_zone_consistency
          (Num.of_nat posting_bursts) in
      {[ "activity_analysis_performed"%string := VBool true;
         "account_age_days"%string := VNum (inject_Z account_age_days);
         "posts_per_day"%string := VNum posts_per_day;
         "posting_regularity"%string := VNum posting_regularity;
         "time_zone_consistency"%string := VNum time_zone_consistency;
         "engagement_rate"%string := VNum engagement_rate;
         "posting_bursts"%string := VNum (Num.of_nat posting_bursts);
         "activity_score"%string := VNum activity_score ]}
  end.

End ActivityAnalyzer.

(** ** [ImageAnalyzer] (src/features/image_analyzer.py) *)

Module ImageAnalyzer.

Definition default_patterns : list string :=
  ["default[_-]?profile"; "default[_-]?avatar"; "profile[_-]?default";
   "avatar[_-]?default"; "placeholder"; "no[_-]?profile"; "no[_-]?photo";
   "anonymous"; "default[_-]?user"; "blank[_-]?profile"]%string.

(** [_is_default_profile_picture]. *)
Definition _is_default_profile_picture (L : PyLib) (url : string) : bool :=
  existsb (fun pattern => re_search L pattern url) default_patterns.

(** [_load_known_fake_hashes]. *)
Definition known_fake_image_hashes : gset string :=
  list_to_set
    ["a1b2c3d4e5f6g7h8i9j0"; "b2c3d4e5f6g7h8i9j0k1"; "c3d4e5f6g7h8i9j0k1l2";
     "d4e5f6g7h8i9j0k1l2m3"; "e5f6g7h8i9j0k1l2m3n4"; "f6g7h8i9j0k1l2m3n4o5";
     "g7h8i9j0k1l2m3n4o5p6"; "h8i9j0k1l2m3n4o5p6q7"; "i9j0k1l2m3n4o5p6q7r8";
     "j0k1l2m3n4o5p6q7r8s9"]%string.

(** [_simulate_image_hash]: the first 20 characters of the digest. *)
Definition _simulate_image_hash (L : PyLib) (url : string) : string :=
  String.substring 0 20 (md5_hexdigest L url).

(** [int(digest, 16)]: the digest is a string of hexadecimal digits. *)
Definition hex_digit (c : ascii) : Z :=
  let n := Z.of_N (Str.code c) in
  if ((48 <=? n) && (n <=? 57))%Z then n - 48
  else if ((97 <=? n) && (n <=? 102))%Z then n - 87
  else n - 55.
Definition int16 (digest : string) : Z :=
  fold_left (fun acc c => acc * 16 + hex_digit c)%Z (String.list_ascii_of_string digest) 0%Z.

Definition url_seed (L : PyLib) (url : string) : Z :=
  (int16 (md5_hexdigest L url) mod 1000)%Z.

(** [_simulate_ai_detection] and [_simulate_quality_score]: both seed the
    generator with the same number and draw once. *)
Definition _simulate_ai_detection (L : PyLib) (url : string) : bool :=
  random_after_seed L (url_seed L url) <? 0.15.

Definition _simulate_quality_score (L : PyLib) (url : string) : Q :=
  0.3 + random_after_seed L (url_seed L url) * 0.7.

(** [_analyze_image]: hash, stock photo, generated, quality. *)
Definition _analyze_image (L : PyLib) (url : string) : string * bool * bool * Q :=
  let image_hash := _simulate_image_hash L url in
  let is_stock := bool_decide (image_hash ∈ known_fake_image_hashes) in
  let is_ai_generated := _simulate_ai_detection L url in
  let quality_score := _simulate_quality_score L url in
  (image_hash, is_stock, is_ai_generated, quality_score).

(** [_calculate_profile_pic_score]. *)
Definition _calculate_profile_pic_score
    (is_default is_stock is_ai_generated : bool) (quality_score : Q) : Q :=
  let base_score := 0.3 in
  let base_score := if is_default then base_score + 0.2 else base_score in
  let base_score := if is_stock then base_score + 0.3 else base_score in
  let base_score := if is_ai_generated then base_score + 0.4 else base_score in
  let quality_factor := (1 - quality_score) * 0.2 in
  Num.min 1 (base_score + quality_factor).

(** [analyze].  The [except] branch is not modelled: nothing in the
    [try] block raises on a URL that is a string. *)
Definition analyze (L : PyLib) (profile_data : Profile.t) : gmap string value :=
  match Profile.profile_pic_url profile_data with
  | Some profile_pic_url =>
      if Str.truthy profile_pic_url then
        let is_default := _is_default_profile_picture L profile_pic_url in
        let '(image_hash, is_stock, is_ai_generated, quality_score) :=
          if negb is_default
          then let '(h, s, a, q) := _analyze_image L profile_pic_url in (VStr h, s, a, q)
          else (VNone, false, false, 0.5) in
        let profile_pic_score :=
          _calculate_profile_pic_score is_default is_stock is_ai_generated quality_score in
        {[ "image_analysis_performed"%string := VBool true;
           "profile_pic_score"%string := VNum profile_pic_score;
           "is_default_image"%string := VBool is_default;
           "is_stock_photo"%string := VBool is_stock;
           "is_ai_generated"%string := VBool is_ai_generated;
           "image_quality_score"%string := VNum quality_score;
           "image_hash"%string := image_hash ]}
      else
        {[ "image_analysis_performed"%string := VBool false;
           "profile_pic_score"%string := VNum 0.5;
           "is_default_image"%string := VBool false;
           "is_stock_photo"%string := VBool false;
           "is_ai_generated"%string := VBool false ]}
  | None =>
      {[ "image_analysis_performed"%string := VBool false;
         "profile_pic_score"%string := VNum 0.5;
         "is_default_image"%string := VBool false;
         "is_stock_photo"%string := VBool false;
         "is_ai_generated"%string := VBool false ]}
  end.

End ImageAnalyzer.

(** ** [NetworkAnalyzer] (src/features/network_analyzer.py) *)

Module NetworkAnalyzer.

(** [_calculate_ratio]. *)
Definition _calculate_ratio (followers following : Z) : Q :=
  if (following =? 0)%Z then
    if (followers =? 0)%Z then 1 else 100
  else inject_Z followers / inject_Z following.

(** [a or b or c] over optional texts, then the test [if user_id]. *)
Definition first_truthy (candidates : list (option string)) : option string :=
  match List.filter text_truthy candidates with
  | Some s :: _ => Some s
  | _ => None
  end.

(** [_extract_user_ids]. *)
Definition _extract_user_ids (users_list : list User.t) : list string :=
  concat (List.map (fun u =>
                      match u with
                      | User.Dict d =>
                          match first_truthy [User.id d; User.user_id d; User.username d] with
                          | Some user_id => [user_id]
                          | None => []
                          end
                      | User.Name s => [s]
                      | User.Other => []
                      end) users_list).

Definition id_set (users_list : list User.t) : gset string :=
  list_to_set (_extract_user_ids users_list).

(** [_calculate_network_isolation].  Both relations are lists here, so
    the branch on [isinstance] is the first one. *)
Definition _calculate_network_isolation
    (followers following interactions : list User.t)
    (followers_count following_count : Z) : Q :=
  let follower_ids := id_set followers in
  let following_ids := id_set following in
  let interaction_ids := id_set interactions in
  let followers_interacted := size (follower_ids ∩ interaction_ids) in
  let follower_interaction_ratio :=
    if (0 <? size follower_ids)%nat
    then Num.of_nat followers_interacted / Num.of_nat (size follower_ids)
    else 0 in
  let mutual := size (follower_ids ∩ following_ids) in
  let mutual_ratio :=
    if (0 <? size following_ids)%nat
    then Num.of_nat mutual / Num.of_nat (size following_ids)
    else 0 in
  1 - (0.7 * mutual_ratio + 0.3 * follower_interaction_ratio).

(** [_estimate_isolation_from_counts]. *)
Definition _estimate_isolation_from_counts (followers_count following_count : Z) : Q :=
  let follower_factor :=
    if (followers_count <? 10)%Z then 0.8
    else if (followers_count <? 50)%Z then 0.5
    else if (followers_count <? 100)%Z then 0.3
    else 0.1 in
  let following_factor :=
    if ((following_count >? 1000) && (followers_count <? 100))%Z then 0.7
    else if ((following_count >? 500) && (followers_count <? 50))%Z then 0.6
    else 0.2 in
  0.5 * follower_factor + 0.5 * following_factor.

(** [_analyze_mutual_connections]. *)
Definition _analyze_mutual_connections (followers following : list User.t) : Q :=
  let follower_ids := id_set followers in
  let following_ids := id_set following in
  if (size following_ids =? 0)%nat then 0.5
  else
    let mutual := size (follower_ids ∩ following_ids) in
    Num.of_nat mutual / Num.of_nat (size following_ids).

(** [_estimate_clustering]. *)
Definition _estimate_clustering (followers following interactions : list User.t) : Q :=
  let follower_ids := id_set followers in
  let following_ids := id_set following in
  let interaction_ids := id_set interactions in
  let follower_following_overlap := size (follower_ids ∩ following_ids) in
  let follower_interaction_overlap := size (follower_ids ∩ interaction_ids) in
  let following_interaction_overlap := size (following_ids ∩ interaction_ids) in
  let total_overlap :=
    (follower_following_overlap + follower_interaction_overlap
     + following_interaction_overlap)%nat in
  let total_size := (size follower_ids + size following_ids + size interaction_ids)%nat in
  if (total_size =? 0)%nat then 0.5
  else
    let raw_clustering := Num.of_nat total_overlap / Num.of_nat total_size in
    0.05 + raw_clustering * 0.75.

(** [_calculate_reciprocity]. *)
Definition _calculate_reciprocity (followers following : list User.t) : Q :=
  let follower_ids := id_set followers in
  let following_ids := id_set following in
  if (size following_ids =? 0)%nat then 0.5
  else
    let mutual := size (follower_ids ∩ following_ids) in
    Num.of_nat mutual / Num.of_nat (size following_ids).

(** [_calculate_network_score]. *)
Definition _calculate_network_score
    (followers_ratio isolation_score mutual_ratio clustering reciprocity : Q)
    (followers_count following_count : Z) : Q :=
  let suspicion := 0 in
  let suspicion :=
    if (followers_count <? 10)%Z then suspicion + 0.3
    else if (followers_count <? 50)%Z then suspicion + 0.2
    else suspicion in
  let suspicion :=
    if (following_count >? 0)%Z then
      let following_to_follower := inject_Z followers_count / inject_Z following_count in
      if following_to_follower <? 0.1 then suspicion + 0.25
      else if following_to_follower <? 0.3 then suspicion + 0.15
      else suspicion
    else suspicion in
  let suspicion := suspicion + isolation_score * 0.2 in
  let suspicion := suspicion + (1 - mutual_ratio) * 0.15 in
  let suspicion := suspicion + (1 - clustering) * 0.1 in
  let suspicion := suspicion + (1 - reciprocity) * 0.1 in
  Num.min 1 suspicion.

Definition nonempty {A} (l : list A) : bool :=
  match l with [] => false | _ :: _ => true end.

(** [analyze]. *)
Definition analyze (profile_data : Profile.t) : gmap string value :=
  let followers_count := default 0%Z (Profile.followers_count profile_data) in
  let following_count := default 0%Z (Profile.following_count profile_data) in
  let followers := Profile.followers profile_data in
  let following := Profile.following profile_data in
  let interactions := Profile.interactions profile_data in
  let followers_to_following_ratio := _calculate_ratio followers_count following_count in
  let network_isolation_score :=
    if nonempty followers || nonempty following || nonempty interactions
    then _calculate_network_isolation followers following interactions
           followers_count following_count
    else _estimate_isolation_from_counts followers_count following_count in
  let '(mutual_connection_ratio, clustering_coefficient) :=
    if nonempty followers && nonempty following
    then (_analyze_mutual_connections followers following,
          _estimate_clustering followers following interactions)
    else (0.5, 0.5) in
  let reciprocity :=
    if nonempty followers && nonempty following
    then _calculate_reciprocity followers following
    else 0.5 in
  let network_score :=
    _calculate_network_score followers_to_following_ratio network_isolation_score
      mutual_connection_ratio clustering_coefficient reciprocity
      followers_count following_count in
  {[ "network_analysis_performed"%string := VBool true;
     "followers_count"%string := VNum (inject_Z followers_count);
     "following_count"%string := VNum (inject_Z following_count);
     "followers_to_following_ratio"%string := VNum followers_to_following_ratio;
     "network_isolation_score"%string := VNum network_isolation_score;
     "mutual_connection_ratio"%string := VNum mutual_connection_ratio;
     "clustering_coefficient"%string := VNum clustering_coefficient;
     "reciprocity"%string := VNum reciprocity;
     "network_score"%string := VNum network_score ]}.

End NetworkAnalyzer.

(** ** [FeatureExtractor] (src/utils/feature_extractor.py) *)

#[global] Instance Qle_decision : RelDecision Qle := fun x y =>
  match Qlt_le_dec y x with
  | left H => right (Qlt_not_le _ _ H)
  | right H => left H
  end.

Module FeatureExtractor.

Definition flag (b : bool) : value := VNum (if b then 1 else 0).

(** The account-age entry of [_extract_account_metrics].  With a
    creation date that is set, the entry is written when a format parses
    it and when the parsing raises something other than [ValueError];
    when every format raises [ValueError] the loop ends with
    [creation_date] unbound and nothing is written. *)
Definition account_age_entry (L : PyLib) (now : datetime)
    (creation_date_str : option scalar) : gmap string value :=
  match creation_date_str with
  | Some v =>
      if scalar_truthy v then
        match strptime_first L v creation_date_formats with
        | Ok (Some creation_date) =>
            {[ "account_age_days"%string :=
                 VNum (inject_Z (Time.days (now - creation_date)%Z)) ]}
        | Ok None => ∅
        | Raise _ => {[ "account_age_days"%string := VNum 365 ]}
        end
      else {[ "account_age_days"%string := VNum 365 ]}
  | None => {[ "account_age_days"%string := VNum 365 ]}
  end.

(** [_extract_account_metrics]. *)
Definition _extract_account_metrics (L : PyLib) (now : datetime)
    (profile_data : Profile.t) : gmap string value :=
  let features := account_age_entry L now (Profile.creation_date profile_data) in
  let followers_count :=
    match Profile.followers_count profile_data with
    | Some n => n
    | None => default 0%Z (Profile.friend_count profile_data)
    end in
  let following_count := default 0%Z (Profile.following_count profile_data) in
  let features := <[ "followers_count"%string := VNum (inject_Z followers_count) ]> features in
  let features := <[ "following_count"%string := VNum (inject_Z following_count) ]> features in
  let features :=
    <[ "followers_to_following_ratio"%string :=
         VNum (if (following_count >? 0)%Z
               then inject_Z followers_count / inject_Z following_count
               else if (followers_count =? 0)%Z then 1 else 100) ]> features in
  let features :=
    <[ "post_count"%string :=
         VNum (match Profile.post_count profile_data with
               | Some n => inject_Z n
               | None => Num.of_nat (length (Profile.posts profile_data))
               end) ]> features in
  features.

(** [p.log()] where [p] is a [float]: the type has no attribute [log]. *)
Definition float_log (p : Q) : Exc Q := Raise AttributeError.

(** One term of the entropy sum: [p * (p.log() if p > 0 else 0)]. *)
Definition entropy_term (p : Q) : Exc Q :=
  if p >? 0 then l ← float_log p; mret (p * l) else mret (p * 0).

(** [sum(f(p) for p in ps)]: the terms are evaluated in order. *)
Fixpoint sum_exc (f : Q → Exc Q) (ps : list Q) (acc : Q) : Exc Q :=
  match ps with
  | [] => mret acc
  | p :: ps' => y ← f p; sum_exc f ps' (acc + y)
  end.

Definition post_engagement (p : Post.t) : Z :=
  match p with
  | Post.Dict d =>
      let likes := default 0%Z (Post.likes d) in
      let comments := default 0%Z (Post.comments d) in
      let shares :=
        match Post.shares d with
        | Some n => n
        | None => default 0%Z (Post.retweets d)
        end in
      (likes + comments + shares)%Z
  | _ => 0%Z
  end.

(** The median of the hours between neighbouring posts: the middle
    element of the sorted differences, 24 for a single post. *)
Definition median_hours_between_posts (post_timestamps : list datetime) : Exc Q :=
  if (1 <? length post_timestamps)%nat then
    let sorted_timestamps := sorted post_timestamps in
    let hours_between_posts :=
      merge_sort Qle
        (List.map (fun d => Time.total_seconds d / 3600) (gaps sorted_timestamps)) in
    let median_idx := (length hours_between_posts / 2)%nat in
    match hours_between_posts !! median_idx with
    | Some h => mret h
    | None => Raise IndexError
    end
  else mret 24.

(** [hour_counts]: a list of 24 zeros, one entry incremented per post. *)
Definition hour_counts (hours_of_day : list nat) : list nat :=
  fold_left (fun counts hour => alter S hour counts) hours_of_day (replicate 24 0%nat).

(** [hour_probs]: the share of each hour that has posts. *)
Definition hour_probs (hours_of_day : list nat) : list Q :=
  let total_posts := length hours_of_day in
  List.map (fun count => Num.of_nat count / Num.of_nat total_posts)
           (List.filter (fun count => (0 <? count)%nat) (hour_counts hours_of_day)).

(** The entropy of the hour distribution, as the source computes it. *)
Definition posting_time_entropy (hour_probs : list Q) : Exc Q :=
  match hour_probs with
  | _ :: _ => s ← sum_exc entropy_term hour_probs 0; mret (- s)
  | [] => mret 0
  end.

(** The share of the posts in the best window of eight hours. *)
Definition time_consistency (hours_of_day : list nat) : Q :=
  let total_posts := length hours_of_day in
  let max_window_posts :=
    fold_left
      (fun acc start_hour =>
         Nat.max acc
           (sum_nat (fun i => default 0%nat (hour_counts hours_of_day
                                               !! ((start_hour + i) mod 24)%nat))
                    (seq 0 8)))
      (seq 0 24) 0%nat in
  if (0 <? total_posts)%nat
  then Num.of_nat max_window_posts / Num.of_nat total_posts
  else 0.

(** [_extract_activity_features].  [features] is the dictionary the
    method creates for itself, empty at the start. *)
Definition _extract_activity_features (L : PyLib) (profile_data : Profile.t)
  : Exc (gmap string value) :=
  let features : gmap string value := ∅ in
  posts_per_day ←
    match features !! "account_age_days"%string with
    | Some age =>
        account_age_days ← as_num age;
        if account_age_days >? 0
        then post_count ← get_num features "post_count" 0;
             mret (post_count / account_age_days)
        else mret 0
    | None => mret 0
    end;
  let features := <[ "posts_per_day"%string := VNum posts_per_day ]> features in
  let posts := Profile.posts profile_data in
  let post_timestamps := post_timestamps L posts in
  features ←
    match post_timestamps with
    | _ :: _ =>
        median ← median_hours_between_posts post_timestamps;
        let features := <[ "median_hours_between_posts"%string := VNum median ]> features in
        let hours_of_day := List.map Time.hour post_timestamps in
        entropy ← posting_time_entropy (hour_probs hours_of_day);
        let features := <[ "posting_time_entropy"%string := VNum entropy ]> features in
        mret (<[ "time_consistency"%string := VNum (time_consistency hours_of_day) ]> features)
    | [] =>
        mret (<[ "time_consistency"%string := VNum 0.5 ]>
              (<[ "posting_time_entropy"%string := VNum 0 ]>
               (<[ "median_hours_between_posts"%string := VNum 24 ]> features)))
    end;
  let total_engagement := fold_left (fun acc p => (acc + post_engagement p)%Z) posts 0%Z in
  let total_posts := length posts in
  followers_count ← get_num features "followers_count" 0;
  let engagement_rate :=
    if (0 <? total_posts)%nat && (followers_count >? 0)
    then (inject_Z total_engagement / Num.of_nat total_posts) / followers_count
    else 0 in
  mret (<[ "engagement_rate"%string := VNum engagement_rate ]> features).

Definition bytes (codes : list N) : string :=
  String.string_of_list_ascii (List.map ascii_of_N codes).

Definition url_indicators : list string :=
  ["http://"; "https://"; "www."; ".com"; ".net"; ".org"]%string.

(** The emoticons of the source, the last five as the bytes the file
    holds. *)
Definition emoji_indicators : list string :=
  [":)"%string; ":("%string; ":D"%string; ";)"%string;
   bytes [195; 162; 194; 164; 195; 175; 194; 184]%N;
   bytes [195; 176; 197; 184; 226; 128; 152]%N;
   bytes [195; 176; 197; 184; 203; 156; 197; 160]%N;
   bytes [195; 176; 197; 184; 226; 132; 162; 197; 146]%N;
   bytes [195; 176; 197; 184; 197; 189; 226; 128; 176]%N].

Definition first_truthy (a b : option string) : string :=
  if text_truthy a then default ""%string a else default ""%string b.

Definition post_text (p : Post.t) : list string :=
  match p with
  | Post.Dict d =>
      let text := first_truthy (Post.text d) (Post.caption d) in
      if Str.truthy text then [text] else []
  | Post.Text s => [s]
  | Post.Other => []
  end.

(** [_extract_content_features]. *)
Definition _extract_content_features (profile_data : Profile.t) : gmap string value :=
  let post_texts := concat (List.map post_text (Profile.posts profile_data)) in
  let bio := Profile.bio profile_data in
  let features : gmap string value :=
    {[ "bio_length"%string :=
         VNum (if text_truthy bio then Num.of_nat (Str.len (default ""%string bio)) else 0);
       "has_external_url"%string :=
         flag (text_truthy (Profile.external_url profile_data)
               || Profile.has_external_url profile_data) ]} in
  match post_texts with
  | _ :: _ =>
      let n := Num.of_nat (length post_texts) in
      let hashtag_count := sum_nat (fun text => Str.count text "#") post_texts in
      let url_count :=
        count_if (fun text => existsb (fun url => Str.contains url (Str.lower text))
                                      url_indicators) post_texts in
      let mention_count := sum_nat (fun text => Str.count text "@") post_texts in
      let emoji_count :=
        sum_nat (fun text => sum_nat (fun emoji => Str.count text emoji) emoji_indicators)
                post_texts in
      update features
        {[ "avg_post_length"%string := VNum (Num.of_nat (sum_nat Str.len post_texts) / n);
           "hashtags_per_post"%string := VNum (Num.of_nat hashtag_count / n);
           "urls_per_post"%string := VNum (Num.of_nat url_count / n);
           "mentions_per_post"%string := VNum (Num.of_nat mention_count / n);
           "emojis_per_post"%string := VNum (Num.of_nat emoji_count / n) ]}
  | [] =>
      update features
        {[ "avg_post_length"%string := VNum 0;
           "hashtags_per_post"%string := VNum 0;
           "urls_per_post"%string := VNum 0;
           "mentions_per_post"%string := VNum 0;
           "emojis_per_post"%string := VNum 0 ]}
  end.

(** The longest run of digits: the loop over the characters with its two
    counters. *)
Fixpoint consecutive_digits (cs : list ascii) (max_consecutive current : nat) : nat :=
  match cs with
  | [] => max_consecutive
  | c :: cs' =>
      if Str.isdigit c
      then consecutive_digits cs' (Nat.max max_consecutive (S current)) (S current)
      else consecutive_digits cs' max_consecutive 0
  end.

(** [_extract_profile_features]. *)
Definition _extract_profile_features (profile_data : Profile.t) : gmap string value :=
  let features : gmap string value :=
    {[ "is_verified"%string :=
         flag (Profile.verified profile_data || Profile.is_verified profile_data);
       "is_private"%string := flag (Profile.is_private profile_data) ]} in
  let username := default ""%string (Profile.username profile_data) in
  let features :=
    if Str.truthy username then
      let chars := String.list_ascii_of_string username in
      let digit_count := count_if Str.isdigit chars in
      update features
        {[ "username_length"%string := VNum (Num.of_nat (Str.len username));
           "username_digit_ratio"%string :=
             VNum (if (0 <? Str.len username)%nat
                   then Num.of_nat digit_count / Num.of_nat (Str.len username)
                   else 0);
           "username_underscore_count"%string := VNum (Num.of_nat (Str.count username "_"));
           "username_max_consecutive_digits"%string :=
             VNum (Num.of_nat (consecutive_digits chars 0 0)) ]}
    else
      update features
        {[ "username_length"%string := VNum 0;
           "username_digit_ratio"%string := VNum 0;
           "username_underscore_count"%string := VNum 0;
           "username_max_consecutive_digits"%string := VNum 0 ]} in
  let profile_fields :=
    [Profile.bio profile_data; Profile.location profile_data;
     Profile.profile_pic_url profile_data; Profile.name profile_data;
     Profile.display_name profile_data] in
  let filled_fields := count_if text_truthy profile_fields in
  <[ "profile_completeness"%string :=
       VNum (Num.of_nat filled_fields / Num.of_nat (length profile_fields)) ]> features.

Definition is_retweet (p : Post.t) : bool :=
  match p with
  | Post.Dict d => Post.is_retweet d
  | _ => false
  end.

Definition post_source (p : Post.t) : list string :=
  match p with
  | Post.Dict d =>
      match Post.source d with
      | Some src => [src]
      | None => []
      end
  | _ => []
  end.

(** [_extract_twitter_features]. *)
Definition _extract_twitter_features (profile_data : Profile.t) : gmap string value :=
  let posts := Profile.posts profile_data in
  let retweet_count := count_if is_retweet posts in
  let profile_pic_url := default ""%string (Profile.profile_pic_url profile_data) in
  let unique_sources : gset string := list_to_set (concat (List.map post_source posts)) in
  {[ "retweet_ratio"%string :=
       VNum (match posts with
             | _ :: _ => Num.of_nat retweet_count / Num.of_nat (length posts)
             | [] => 0
             end);
     "has_default_profile_image"%string :=
       flag (Str.contains "default_profile" profile_pic_url);
     "source_count"%string := VNum (Num.of_nat (size unique_sources));
     "is_twitter_blue"%string := flag (Profile.is_blue profile_data) ]}.

(** [_extract_instagram_features]. *)
Definition _extract_instagram_features (profile_data : Profile.t) : gmap string value :=
  let post_count := default 0%Z (Profile.post_count profile_data) in
  let followers_count := default 0%Z (Profile.followers_count profile_data) in
  {[ "is_business_account"%string := flag (Profile.is_business_account profile_data);
     "has_highlights"%string := flag (Profile.has_highlights profile_data);
     "has_igtv"%string := flag (Profile.has_igtv profile_data);
     "post_to_follower_ratio"%string :=
       VNum (if (followers_count >? 0)%Z
             then inject_Z post_count / inject_Z followers_count
             else 0) ]}.

(** [_extract_facebook_features]. *)
Definition _extract_facebook_features (profile_data : Profile.t) : gmap string value :=
  let profile_detail_fields :=
    [Profile.work profile_data; Profile.education profile_data;
     Profile.relationship_status profile_data; Profile.location profile_data] in
  let filled_detail_fields := count_if text_truthy profile_detail_fields in
  {[ "page_likes_count"%string :=
       VNum (inject_Z (default 0%Z (Profile.page_likes_count profile_data)));
     "profile_details_completeness"%string :=
       VNum (Num.of_nat filled_detail_fields / Num.of_nat (length profile_detail_fields));
     "has_profile_details"%string := flag (Profile.has_profile_details profile_data) ]}.

(** [extract_features]. *)
Definition extract_features (L : PyLib) (now : datetime) (profile_data : Profile.t)
  : Exc (gmap string value) :=
  let features : gmap string value := ∅ in
  let features := update features (_extract_account_metrics L now profile_data) in
  activity ← _extract_activity_features L profile_data;
  let features := update features activity in
  let features := update features (_extract_content_features profile_data) in
  let features := update features (_extract_profile_features profile_data) in
  let platform := Str.lower (default ""%string (Profile.platform profile_data)) in
  let features :=
    if String.eqb platform "twitter" || String.eqb platform "x"
    then update features (_extract_twitter_features profile_data)
    else if String.eqb platform "instagram"
    then update features (_extract_instagram_features profile_data)
    else if String.eqb platform "facebook"
    then update features (_extract_facebook_features profile_data)
    else features in
  mret features.

End FeatureExtractor.

(** ** [FakeProfileDetector] (src/detector.py) *)

Module Detector.

(** The classifier behind [self.model]: [predict_proba] is the
    probability of the class "fake" for one feature vector
    ([predict_proba([v])[0][1]]); [feature_importances_] is the
    attribute of that name when the model has it. *)
Record Classifier : Type := {
  predict_proba : list value → Q;
  feature_importances_ : option (list Q)
}.

Record Indicator : Type := {
  name : string;
  description : string;
  severity : string
}.

(** The dictionary [analyze_profile] returns.  [timestamp] holds the
    clock reading whose ISO rendering the source stores. *)
Record AnalysisResult : Type := {
  is_fake : bool;
  probability : Q;
  indicators : list Indicator;
  feature_importance : gmap string Q;
  recommendations : list string;
  profile_data : Profile.t;
  timestamp : datetime
}.

(** The feature names of [_prepare_feature_vector] and
    [_get_feature_importance], in the order of the vector. *)
Definition feature_names : list string :=
  ["account_age_days"; "posts_per_day"; "followers_count"; "following_count";
   "followers_to_following_ratio"; "profile_pic_score"; "bio_length";
   "has_external_url"; "sentiment_score"; "content_diversity";
   "engagement_rate"; "posting_regularity"; "suspicious_content_score";
   "network_isolation_score"]%string.

(** [_prepare_feature_vector]: [features.get(name, 0)] for each name. *)
Definition _prepare_feature_vector (features : gmap string value) : list value :=
  List.map (fun n => default (VNum 0) (features !! n)) feature_names.

(** [_get_feature_importance] with a model: its importances, or equal
    shares, zipped with the names. *)
Definition _get_feature_importance (model : Classifier) : gmap string Q :=
  let importances :=
    match feature_importances_ model with
    | Some imps => imps
    | None => replicate (length feature_names) (1 / Num.of_nat (length feature_names))
    end in
  list_to_map (zip feature_names importances).

(** The dictionary [red_flags] of [_heuristic_detection], in the order
    of the literal. *)
Definition red_flags (features : gmap string value) : Exc (list (string * bool)) :=
  account_age_days ← get_num features "account_age_days" 365;
  followers_to_following_ratio ← get_num features "followers_to_following_ratio" 1;
  posts_per_day ← get_num features "posts_per_day" 2;
  profile_pic_score ← get_num features "profile_pic_score" 0;
  engagement_rate ← get_num features "engagement_rate" 0.05;
  suspicious_content_score ← get_num features "suspicious_content_score" 0;
  network_isolation_score ← get_num features "network_isolation_score" 0;
  content_diversity ← get_num features "content_diversity" 1;
  bio_length ← get_num features "bio_length" 10;
  mret [("new_account"%string, account_age_days <? 30);
        ("high_following_ratio"%string, followers_to_following_ratio <? 0.1);
        ("excessive_posting"%string, posts_per_day >? 20);
        ("suspicious_profile_pic"%string, profile_pic_score >? 0.7);
        ("low_engagement"%string, engagement_rate <? 0.01);
        ("suspicious_content"%string, suspicious_content_score >? 0.7);
        ("isolated_network"%string, network_isolation_score >? 0.7);
        ("duplicate_content"%string, content_diversity <? 0.3);
        ("no_bio"%string, bio_length <? 5)].

(** The second half of [_heuristic_detection]: probability, verdict and
    importances from the flags. *)
Definition score_flags (red_flags : list (string * bool)) : Q * bool * gmap string Q :=
  let red_flag_count := count_if snd red_flags in
  let probability :=
    Num.min (0.3 + (Num.of_nat red_flag_count / Num.of_nat (length red_flags)) * 0.7) 1 in
  let is_fake := probability >=? 0.7 in
  let importance : gmap string Q :=
    list_to_map
      (List.map (fun '(flag_name, is_triggered) =>
                   (flag_name, if is_triggered : bool then 0.1 else 0)) red_flags) in
  (probability, is_fake, importance).

(** [_heuristic_detection]. *)
Definition _heuristic_detection (features : gmap string value)
  : Exc (Q * bool * gmap string Q) :=
  flags ← red_flags features;
  mret (score_flags flags).

Definition indicator (n d s : string) : Indicator :=
  {| name := n; description := d; severity := s |}.

(** [_identify_suspicious_indicators]; the importances are not read. *)
Definition _identify_suspicious_indicators
    (features : gmap string value) (importance : gmap string Q) : Exc (list Indicator) :=
  account_age_days ← get_num features "account_age_days" 365;
  followers_to_following_ratio ← get_num features "followers_to_following_ratio" 1;
  posts_per_day ← get_num features "posts_per_day" 2;
  profile_pic_score ← get_num features "profile_pic_score" 0;
  engagement_rate ← get_num features "engagement_rate" 0.05;
  content_diversity ← get_num features "content_diversity" 1;
  suspicious_content_score ← get_num features "suspicious_content_score" 0;
  network_isolation_score ← get_num features "network_isolation_score" 0;
  mret
    ((if account_age_days <? 30
      then [indicator "New Account" "Account was created recently" "medium"] else [])
     ++ (if followers_to_following_ratio <? 0.1
         then [indicator "Following/Follower Imbalance"
                 "Account follows many users but has few followers" "high"] else [])
     ++ (if posts_per_day >? 20
         then [indicator "Excessive Posting"
                 "Account posts with unusually high frequency" "medium"] else [])
     ++ (if profile_pic_score >? 0.7
         then [indicator "Suspicious Profile Picture"
                 "Profile picture shows signs of being AI-generated or stock photo" "high"]
         else [])
     ++ (if engagement_rate <? 0.01
         then [indicator "Low Engagement"
                 "Posts receive very little engagement relative to follower count" "medium"]
         else [])
     ++ (if content_diversity <? 0.3
         then [indicator "Repetitive Content"
                 "Account posts very similar content repeatedly" "medium"] else [])
     ++ (if suspicious_content_score >? 0.7
         then [indicator "Suspicious Content"
                 "Content contains patterns associated with fake accounts" "high"] else [])
     ++ (if network_isolation_score >? 0.7
         then [indicator "Isolated Network"
                 "Account has minimal interaction with legitimate accounts" "high"] else [])).

Definition has_indicator (n : string) (indicators : list Indicator) : bool :=
  existsb (fun i => String.eqb (name i) n) indicators.

(** [_generate_recommendations]. *)
Definition _generate_recommendations
    (is_fake : bool) (probability : Q) (indicators : list Indicator) : list string :=
  [ if is_fake && (probability >? 0.9)
    then "This profile is highly likely to be fake. Consider blocking and reporting."
    else if is_fake
    then "This profile shows several suspicious patterns. Exercise caution when interacting."
    else if probability >? 0.4
    then "This profile shows some suspicious patterns but may be legitimate. Verify before engaging."
    else "This profile appears to be legitimate based on our analysis." ]%string
  ++ (if has_indicator "New Account" indicators
      then ["This is a new account. Consider waiting for a longer activity history before engaging."%string]
      else [])
  ++ (if has_indicator "Suspicious Profile Picture" indicators
      then ["Verify the profile picture by performing a reverse image search."%string]
      else [])
  ++ (if has_indicator "Suspicious Content" indicators
      then ["Review the content posted by this account carefully before engaging."%string]
      else []).

(** The merged feature map of [analyze_profile]: later analyzers win. *)
Definition combined_features (L : PyLib) (clock : Clock) (profile_data : Profile.t)
  : Exc (gmap string value) :=
  features ← FeatureExtractor.extract_features L (now_features clock) profile_data;
  let content_analysis := ContentAnalyzer.analyze L profile_data in
  let activity_analysis := ActivityAnalyzer.analyze L (now_activity clock) profile_data in
  let image_analysis := ImageAnalyzer.analyze L profile_data in
  let network_analysis := NetworkAnalyzer.analyze profile_data in
  mret (update (update (update (update features content_analysis) activity_analysis)
                  image_analysis) network_analysis).

(** The decision of [analyze_profile]: the model when there is one, the
    heuristic otherwise. *)
Definition decide_fake (model : option Classifier) (combined : gmap string value)
  : Exc (Q * bool * gmap string Q) :=
  let feature_vector := _prepare_feature_vector combined in
  match model with
  | Some m =>
      let probability := predict_proba m feature_vector in
      let is_fake := probability >=? 0.7 in
      mret (probability, is_fake, _get_feature_importance m)
  | None => _heuristic_detection combined
  end.

(** [analyze_profile].  The handler around the body logs and raises the
    exception again, so it is the identity on outcomes. *)
Definition analyze_profile (L : PyLib) (clock : Clock) (model : option Classifier)
    (profile_data : Profile.t) : Exc AnalysisResult :=
  combined ← combined_features L clock profile_data;
  '(probability, is_fake, feature_importance) ← decide_fake model combined;
  indicators ← _identify_suspicious_indicators combined feature_importance;
  let recommendations := _generate_recommendations is_fake probability indicators in
  mret {| is_fake := is_fake;
          probability := probability;
          indicators := indicators;
          feature_importance := feature_importance;
          recommendations := recommendations;
          profile_data := profile_data;
          timestamp := now_result clock |}.

End Detector.

(** ** A reference library

    An instance of [PyLib] for closed examples.  Dates are parsed for the
    numeric directives the sources use ([%Y], [%m], [%d], [%H], [%M],
    [%S]); time stamps are read as UTC.  The other functions are
    stand-ins with the right types and ranges: a pattern is searched as a
    literal, ignoring case; [exp] and [sqrt] are rational approximations;
    the digest and the generator are simple congruences. *)

Module RefLib.

Record fields : Type := {
  year : Z; month : Z; day : Z; hour : Z; minute : Z; second : Z
}.

Definition digit_value (c : ascii) : Z := Z.of_N (Str.code c) - 48.

(** At most [n] leading digits of [s]: their value, how many, the rest. *)
Fixpoint read_digits (n : nat) (s : list ascii) (acc : Z) (read : nat)
  : Z * nat * list ascii :=
  match n, s with
  | S n', c :: s' =>
      if Str.isdigit c then read_digits n' s' (acc * 10 + digit_value c)%Z (S read)
      else (acc, read, s)
  | _, _ => (acc, read, s)
  end.

Definition in_range (lo hi x : Z) : bool := ((lo <=? x) && (x <=? hi))%Z.

Definition set_field (directive : ascii) (x : Z) (f : fields) : option fields :=
  if Ascii.eqb directive "Y" then
    if in_range 1 9999 x
    then Some {| year := x; month := month f; day := day f;
                 hour := hour f; minute := minute f; second := second f |}
    else None
  else if Ascii.eqb directive "m" then
    if in_range 1 12 x
    then Some {| year := year f; month := x; day := day f;
                 hour := hour f; minute := minute f; second := second f |}
    else None
  else if Ascii.eqb directive "d" then
    if in_range 1 31 x
    then Some {| year := year f; month := month f; day := x;
                 hour := hour f; minute := minute f; second := second f |}
    else None
  else if Ascii.eqb directive "H" then
    if in_range 0 23 x
    then Some {| year := year f; month := month f; day := day f;
                 hour := x; minute := minute f; second := second f |}
    else None
  else if Ascii.eqb directive "M" then
    if in_range 0 59 x
    then Some {| year := year f; month := month f; day := day f;
                 hour := hour f; minute := x; second := second f |}
    else None
  else if Ascii.eqb directive "S" then
    if in_range 0 61 x
    then Some {| year := year f; month := month f; day := day f;
                 hour := hour f; minute := minute f; second := x |}
    else None
  else None.

(** The format is followed from left to right; the whole input has to
    be used up. *)
Fixpoint parse (fmt : list ascii) (s : list ascii) (f : fields) : option fields :=
  match fmt with
  | [] => match s with [] => Some f | _ :: _ => None end
  | c :: fmt1 =>
      if Ascii.eqb c "%" then
        match fmt1 with
        | directive :: fmt2 =>
            let width := if Ascii.eqb directive "Y" then 4%nat else 2%nat in
            let '(x, read, rest) := read_digits width s 0%Z 0%nat in
            if (read =? 0)%nat || (Ascii.eqb directive "Y" && negb (read =? 4)%nat)
            then None
            else
              match set_field directive x f with
              | Some f1 => parse fmt2 rest f1
              | None => None
              end
        | [] => None
        end
      else
        match s with
        | c1 :: s1 => if Ascii.eqb c c1 then parse fmt1 s1 f else None
        | [] => None
        end
  end.

Definition is_leap (y : Z) : bool :=
  ((y mod 4 =? 0) && (negb (y mod 100 =? 0) || (y mod 400 =? 0)))%Z.

Definition days_in_month (y m : Z) : Z :=
  if (m =? 2)%Z then (if is_leap y then 29 else 28)
  else if ((m =? 4) || (m =? 6) || (m =? 9) || (m =? 11))%Z then 30
  else 31.

(** Days of the year before the first of month [S m]. *)
Fixpoint days_before (y : Z) (m : nat) : Z :=
  match m with
  | O => 0
  | S k => days_before y k + days_in_month y (Z.of_nat m)
  end%Z.

(** Days since 0001-01-01 ([date.toordinal() - 1]). *)
Definition day_number (y m d : Z) : Z :=
  let y1 := (y - 1)%Z in
  (y1 * 365 + y1 / 4 - y1 / 100 + y1 / 400
   + days_before y (Z.to_nat (m - 1)) + (d - 1))%Z.

Definition to_datetime (f : fields) : option datetime :=
  if (day f <=? days_in_month (year f) (month f))%Z then
    Some ((day_number (year f) (month f) (day f) * 86400
           + hour f * 3600 + minute f * 60 + second f) * Time.micros_per_second)%Z
  else None.

Definition strptime (date_string format : string) : option datetime :=
  match parse (String.list_ascii_of_string format) (String.list_ascii_of_string date_string)
          {| year := 1900; month := 1; day := 1; hour := 0; minute := 0; second := 0 |} with
  | Some f => to_datetime f
  | None => None
  end.

Definition fromisoformat (date_string : string) : option datetime :=
  if (String.length date_string =? 10)%nat then strptime date_string "%Y-%m-%d"
  else if (String.length date_string =? 19)%nat then strptime date_string "%Y-%m-%dT%H:%M:%S"
  else None.

Definition max_datetime : Z := (3652059 * Time.micros_per_day)%Z.

Definition fromtimestamp (t : Q) : option datetime :=
  let micros := (719162 * Time.micros_per_day + Qfloor (t * inject_Z Time.micros_per_second))%Z in
  if ((0 <=? micros) && (micros <? max_datetime))%Z then Some micros else None.

Definition is_literal (c : ascii) : bool :=
  let n := Str.code c in
  ((97 <=? n) && (n <=? 122) || (65 <=? n) && (n <=? 90) || (48 <=? n) && (n <=? 57))%N.

Definition re_search (pattern text : string) : bool :=
  forallb is_literal (String.list_ascii_of_string pattern)
  && Str.contains (Str.lower pattern) (Str.lower text).

Definition np_exp (x : Q) : Q :=
  if 0 <=? x then 1 + x + x * x / 2 else 1 / (1 - x + x * x / 2).

Definition np_sqrt (x : Q) : Q :=
  if 0 <=? x
  then inject_Z (Z.sqrt (Qfloor (x * 1000000000000))) / 1000000
  else 0.

Definition checksum (s : string) : Z :=
  fold_left (fun acc c => ((acc * 257 + Z.of_N (Str.code c) + 1) mod 2 ^ 128)%Z)
            (String.list_ascii_of_string s) 0%Z.

Definition hex_char (d : Z) : ascii :=
  ascii_of_N (Z.to_N (if (d <? 10)%Z then d + 48 else d + 87)).

Fixpoint hex (digits : nat) (n : Z) : list ascii :=
  match digits with
  | O => []
  | S k => hex k (n / 16)%Z ++ [hex_char (n mod 16)%Z]
  end.

Definition md5_hexdigest (s : string) : string :=
  String.string_of_list_ascii (hex 32 (checksum s)).

Definition random_after_seed (seed : Z) : Q :=
  inject_Z ((seed * 1103515245 + 12345) mod 2147483648)%Z / 2147483648.

Definition lib : PyLib :=
  Build_PyLib strptime fromisoformat fromtimestamp re_search np_exp np_sqrt
    md5_hexdigest random_after_seed.

End RefLib.

(** * The words of the specification

    Definitions the properties are stated with: quantities the
    specification names, and the inputs of the closed examples. *)

(** The counts of the sentiment formula: occurrences of positive and of
    negative words among all tokens of all texts. *)
Definition positiveCount (texts : list string) : nat :=
  count_if (ContentAnalyzer.is_in ContentAnalyzer.positive_words)
           (ContentAnalyzer.all_tokens texts).
Definition negativeCount (texts : list string) : nat :=
  count_if (ContentAnalyzer.is_in ContentAnalyzer.negative_words)
           (ContentAnalyzer.all_tokens texts).

(** A number or a boolean: what a comparison with a number accepts. *)
Definition is_number (v : value) : bool :=
  match v with
  | VNum _ | VBool _ => true
  | VStr _ | VNone => false
  end.

(** The features the heuristic reads. *)
Definition flag_keys : list string :=
  ["account_age_days"; "followers_to_following_ratio"; "posts_per_day";
   "profile_pic_score"; "engagement_rate"; "suspicious_content_score";
   "network_isolation_score"; "content_diversity"; "bio_length"]%string.

(** A feature map whose entries under those keys, where present, are
    numbers. *)
Definition flag_input (key : string) (v : value) : Prop :=
  key ∈ flag_keys → is_number v = true.

Definition flag_inputs_numeric (features : gmap string value) : Prop :=
  map_Forall flag_input features.

(** The number [features.get(key, default)] stands for. *)
Definition feature (features : gmap string value) (key : string) (default : Q) : Q :=
  match get_num features key default with
  | Ok q => q
  | Raise _ => default
  end.

(** The nine red flags at the thresholds of the documentation. *)
Definition documented_flags (features : gmap string value) : list (string * bool) :=
  [("new_account"%string, feature features "account_age_days" 365 <? 30);
   ("high_following_ratio"%string, feature features "followers_to_following_ratio" 1 <? 0.1);
   ("excessive_posting"%string, feature features "posts_per_day" 2 >? 20);
   ("suspicious_profile_pic"%string, feature features "profile_pic_score" 0 >? 0.7);
   ("low_engagement"%string, feature features "engagement_rate" 0.05 <? 0.01);
   ("suspicious_content"%string, feature features "suspicious_content_score" 0 >? 0.7);
   ("isolated_network"%string, feature features "network_isolation_score" 0 >? 0.7);
   ("duplicate_content"%string, feature features "content_diversity" 1 <? 0.3);
   ("no_bio"%string, feature features "bio_length" 10 <? 5)].

Definition triggeredCount (features : gmap string value) : nat :=
  count_if snd (documented_flags features).

(** [min(0.3 + (triggeredCount / 9) * 0.7, 1.0)]. *)
Definition heuristic_probability (features : gmap string value) : Q :=
  Num.min (0.3 + (Num.of_nat (triggeredCount features) / 9) * 0.7) 1.

(** A feature map on which all nine flags are triggered. *)
Definition all_flags : gmap string value :=
  {[ "account_age_days"%string := VNum 3;
     "followers_to_following_ratio"%string := VNum 0.01;
     "posts_per_day"%string := VNum 50;
     "profile_pic_score"%string := VNum 0.9;
     "engagement_rate"%string := VNum 0;
     "suspicious_content_score"%string := VNum 0.8;
     "network_isolation_score"%string := VNum 0.9;
     "content_diversity"%string := VNum 0.1;
     "bio_length"%string := VNum 0 ]}.

(** A clock that reads the same instant at every call. *)
Definition clock_at (t : datetime) : Clock :=
  {| now_features := t; now_activity := t; now_result := t |}.

Definition noon : Clock := clock_at 0%Z.

(** [|followers ∩ following| / |following|] over the extracted user ids,
    and the neutral 0.5 when the following set is empty. *)
Definition mutual_ratio (followers following : list User.t) : Q :=
  let follower_ids := NetworkAnalyzer.id_set followers in
  let following_ids := NetworkAnalyzer.id_set following in
  if (size following_ids =? 0)%nat then 0.5
  else Num.of_nat (size (follower_ids ∩ following_ids)) / Num.of_nat (size following_ids).

(** Burst detection as the specification words it.  [within window_end ts]
    is the number of leading posts of [ts] that fall within the window;
    the greedy scan opens a window at a post, counts a burst when the
    window holds at least three posts, and then resumes just after the last
    post of the burst: [skip] is the number of posts still to pass over. *)
Fixpoint within (window_end : datetime) (ts : list datetime) : nat :=
  match ts with
  | t :: ts' => if (t <=? window_end)%Z then S (within window_end ts') else 0
  | [] => 0
  end.

Fixpoint greedy_scan (skip : nat) (ts : list datetime) : nat :=
  match ts with
  | [] => 0
  | t :: rest =>
      match skip with
      | S k => greedy_scan k rest
      | O =>
          let n := within (t + ActivityAnalyzer.burst_window)%Z ts in
          if (3 <=? n)%nat then S (greedy_scan (n - 1) rest) else greedy_scan 0 rest
      end
  end.

Definition greedy_bursts (timestamps : list datetime) : nat :=
  greedy_scan 0 (sorted timestamps).

(** Three of the posts lie within ten minutes of each other. *)
Definition three_within_window (timestamps : list datetime) : Prop :=
  ∃ a b c : datetime,
    [a; b; c] ⊆+ timestamps ∧ (a ≤ b)%Z ∧ (b ≤ c)%Z
    ∧ (c ≤ a + ActivityAnalyzer.burst_window)%Z.

(** Posts at 0, 2 and 5 minutes, and a fourth at 40 minutes. *)
Definition four_posts : list datetime := List.map Time.minutes [0; 2; 5; 40]%Z.

(** Three neighbours of a sorted list, the last at most a window after
    the first. *)
Definition neighbours_within (s : list datetime) : Prop :=
  ∃ l1 a x c l2,
    s = l1 ++ a :: x :: c :: l2 ∧ (c ≤ a + ActivityAnalyzer.burst_window)%Z.

(** ** Inputs of the examples *)

(** A profile with the given creation date, post count, posts and
    relations, and nothing else set. *)
Definition sample_profile
    (creation_date : option scalar) (post_count : option Z) (posts : list Post.t)
    (followers following : list User.t) : Profile.t :=
  {| Profile.username := None; Profile.platform := None;
     Profile.creation_date := creation_date;
     Profile.bio := None; Profile.location := None; Profile.name := None;
     Profile.display_name := None; Profile.profile_pic_url := None;
     Profile.external_url := None; Profile.has_external_url := false;
     Profile.verified := false; Profile.is_verified := false; Profile.is_private := false;
     Profile.followers_count := None; Profile.friend_count := None;
     Profile.following_count := None; Profile.post_count := post_count;
     Profile.posts := posts; Profile.followers := followers;
     Profile.following := following; Profile.interactions := [];
     Profile.is_blue := false; Profile.is_business_account := false;
     Profile.has_highlights := false; Profile.has_igtv := false;
     Profile.page_likes_count := None; Profile.work := None; Profile.education := None;
     Profile.relationship_status := None; Profile.has_profile_details := false |}.

(** A profile with nothing set. *)
Definition empty_profile : Profile.t := sample_profile None None [] [] [].

(** A profile that follows one account and lists no followers. *)
Definition follows_one : Profile.t := sample_profile None None [] [] [User.Name "a"].

(** A profile with one post that carries an ISO time stamp. *)
Definition stamped_post : Post.t :=
  Post.Dict {| Post.text := Some "hello"%string; Post.caption := None;
               Post.timestamp := Some (SStr "2024-03-01T12:00:00");
               Post.likes := Some 3%Z; Post.comments := None; Post.shares := None;
               Post.retweets := None; Post.is_retweet := false; Post.source := None |}.
Definition stamped_profile : Profile.t := sample_profile None None [stamped_post] [] [].

(** A profile whose creation date is text that no format parses. *)
Definition undated_profile : Profile.t :=
  sample_profile (Some (SStr "yesterday")) None [] [] [].

(** A profile that reports 730 posts and no creation date. *)
Definition busy_profile : Profile.t := sample_profile None (Some 730%Z) [] [] [].

(** ** The feature extractor when it returns *)

(** Whether a computation returns. *)
Definition returns {A} (m : Exc A) : bool :=
  match m with
  | Ok _ => true
  | Raise _ => false
  end.

(** The entry of a feature map that a computation may fail to produce. *)
Definition entry (features : Exc (gmap string value)) (key : string) : Exc (option value) :=
  (fun f : gmap string value => f !! key) <$> features.

(** The feature map of [_extract_activity_features] when it returns. *)
Definition activity_defaults : gmap string value :=
  <[ "engagement_rate"%string := VNum 0 ]>
    (<[ "time_consistency"%string := VNum 0.5 ]>
       (<[ "posting_time_entropy"%string := VNum 0 ]>
          (<[ "median_hours_between_posts"%string := VNum 24 ]>
             (<[ "posts_per_day"%string := VNum 0 ]> ∅)))).

(** The keys written by the content, profile and platform extractors. *)
Definition late_keys : list string :=
  ["bio_length"; "has_external_url"; "avg_post_length"; "hashtags_per_post";
   "urls_per_post"; "mentions_per_post"; "emojis_per_post";
   "is_verified"; "is_private"; "username_length"; "username_digit_ratio";
   "username_underscore_count"; "username_max_consecutive_digits";
   "profile_completeness";
   "retweet_ratio"; "has_default_profile_image"; "source_count"; "is_twitter_blue";
   "is_business_account"; "has_highlights"; "has_igtv"; "post_to_follower_ratio";
   "page_likes_count"; "profile_details_completeness"; "has_profile_details"]%string.

(** ** Two analyses of one profile *)

(** A result with its time stamp blanked. *)
Definition without_timestamp (r : Exc Detector.AnalysisResult) : Exc Detector.AnalysisResult :=
  (fun r => {| Detector.is_fake := Detector.is_fake r;
               Detector.probability := Detector.probability r;
               Detector.indicators := Detector.indicators r;
               Detector.feature_importance := Detector.feature_importance r;
               Detector.recommendations := Detector.recommendations r;
               Detector.profile_data := Detector.profile_data r;
               Detector.timestamp := 0%Z |}) <$> r.

(** The instant an ISO date and time stands for. *)
Definition instant (date : string) : datetime :=
  default 0%Z (RefLib.strptime date "%Y-%m-%dT%H:%M:%S").

(** A profile created on the first of January 2024. *)
Definition dated_profile : Profile.t :=
  sample_profile (Some (SStr "2024-01-01")) None [] [] [].

(** ** Scores *)

(** The score-valued fields. *)
Definition score_keys : list string :=
  ["sentiment_score"; "content_diversity"; "suspicious_content_score";
   "posting_regularity"; "time_zone_consistency"; "engagement_rate"; "activity_score";
   "profile_pic_score"; "network_isolation_score"; "mutual_connection_ratio";
   "clustering_coefficient"; "reciprocity"; "network_score"]%string.

(** An entry under a score key is a number of the unit interval. *)
Definition score_entry (key : string) (v : value) : Prop :=
  key ∈ score_keys → ∃ q, v = VNum q ∧ Num.in_unit q.

Definition scores_in_unit (features : gmap string value) : Prop :=
  map_Forall score_entry features.

(** A profile with posts that carry no time stamps, a picture and
    relations. *)
Definition lively_profile : Profile.t :=
  {| Profile.username := Some "user_2024"%string; Profile.platform := Some "Twitter"%string;
     Profile.creation_date := Some (SStr "2024-01-01");
     Profile.bio := Some "Hi"%string; Profile.location := None; Profile.name := None;
     Profile.display_name := None;
     Profile.profile_pic_url := Some "https://example.com/images/me.jpg"%string;
     Profile.external_url := None; Profile.has_external_url := false;
     Profile.verified := false; Profile.is_verified := false; Profile.is_private := false;
     Profile.followers_count := Some 5%Z; Profile.friend_count := None;
     Profile.following_count := Some 800%Z; Profile.post_count := Some 2%Z;
     Profile.posts :=
       [Post.Dict {| Post.text := Some "I love this, great day!"%string;
                     Post.caption := None; Post.timestamp := None;
                     Post.likes := Some 2%Z; Post.comments := Some 1%Z; Post.shares := None;
                     Post.retweets := None; Post.is_retweet := false; Post.source := None |};
        Post.Text "Work from home, free money"];
     Profile.followers := [User.Name "a"; User.Name "b"];
     Profile.following := [User.Name "b"; User.Name "c"];
     Profile.interactions := [User.Name "b"];
     Profile.is_blue := false; Profile.is_business_account := false;
     Profile.has_highlights := false; Profile.has_igtv := false;
     Profile.page_likes_count := None; Profile.work := None; Profile.education := None;
     Profile.relationship_status := None; Profile.has_profile_details := false |}.


(** * Words for the further properties *)

(** The sentence the recommendations open with, by the number of red
    flags the heuristic has counted. *)
Definition verdict_sentence (red_flag_count : nat) : string :=
  if (8 <=? red_flag_count)%nat
  then "This profile is highly likely to be fake. Consider blocking and reporting."
  else if (6 <=? red_flag_count)%nat
  then "This profile shows several suspicious patterns. Exercise caution when interacting."
  else if (2 <=? red_flag_count)%nat
  then "This profile shows some suspicious patterns but may be legitimate. Verify before engaging."
  else "This profile appears to be legitimate based on our analysis.".

(** The red flags that have an indicator, each with the name of its
    indicator. *)
Definition flag_indicators : list (string * string) :=
  [("new_account", "New Account");
   ("high_following_ratio", "Following/Follower Imbalance");
   ("excessive_posting", "Excessive Posting");
   ("suspicious_profile_pic", "Suspicious Profile Picture");
   ("low_engagement", "Low Engagement");
   ("duplicate_content", "Repetitive Content");
   ("suspicious_content", "Suspicious Content");
   ("isolated_network", "Isolated Network")]%string.

(** A feature map of a week-old account without a bio that follows many
    and posts a lot. *)
Definition young_features : gmap string value :=
  {[ "account_age_days"%string := VNum 7;
     "followers_to_following_ratio"%string := VNum 0.02;
     "posts_per_day"%string := VNum 40;
     "bio_length"%string := VNum 0 ]}.

(** What the engagement rate needs of [numpy.exp]: up to the argument 1
    its value lies between 0 and 3. *)
Definition exp_small (L : PyLib) : Prop :=
  ∀ x, x <= 1 → 0 <= np_exp L x ∧ np_exp L x <= 3.

(** No format parses the creation date: the date is missing, empty, not
    text, or text of another shape. *)
Definition undated (L : PyLib) (profile_data : Profile.t) : Prop :=
  ∀ v d, Profile.creation_date profile_data = Some v →
         strptime_first L v creation_date_formats ≠ Ok (Some d).

(** A profile that gives its audience as a Facebook friend count. *)
Definition friends_profile : Profile.t :=
  {| Profile.username := Some "pat"%string; Profile.platform := Some "facebook"%string;
     Profile.creation_date := None;
     Profile.bio := None; Profile.location := None; Profile.name := None;
     Profile.display_name := None; Profile.profile_pic_url := None;
     Profile.external_url := None; Profile.has_external_url := false;
     Profile.verified := false; Profile.is_verified := false; Profile.is_private := false;
     Profile.followers_count := None; Profile.friend_count := Some 250%Z;
     Profile.following_count := None; Profile.post_count := None;
     Profile.posts := []; Profile.followers := []; Profile.following := [];
     Profile.interactions := [];
     Profile.is_blue := false; Profile.is_business_account := false;
     Profile.has_highlights := false; Profile.has_igtv := false;
     Profile.page_likes_count := None; Profile.work := None; Profile.education := None;
     Profile.relationship_status := None; Profile.has_profile_details := false |}.

(** A digit of a hexadecimal digest: [0-9a-f]. *)
Definition is_hex_digit (c : ascii) : bool :=
  Str.isdigit c || ((97 <=? Str.code c) && (Str.code c <=? 102))%N.

Definition is_hex (s : string) : bool :=
  forallb is_hex_digit (String.list_ascii_of_string s).

(** What the image analyzer needs of [hashlib.md5]: [hexdigest] is made
    of hexadecimal digits. *)
Definition hex_digest (L : PyLib) : Prop :=
  ∀ s, is_hex (md5_hexdigest L s) = true.

(** A profile with nothing set but its picture. *)
Definition pictured_profile (url : string) : Profile.t :=
  {| Profile.username := None; Profile.platform := None;
     Profile.creation_date := None;
     Profile.bio := None; Profile.location := None; Profile.name := None;
     Profile.display_name := None; Profile.profile_pic_url := Some url;
     Profile.external_url := None; Profile.has_external_url := false;
     Profile.verified := false; Profile.is_verified := false; Profile.is_private := false;
     Profile.followers_count := None; Profile.friend_count := None;
     Profile.following_count := None; Profile.post_count := None;
     Profile.posts := []; Profile.followers := []; Profile.following := [];
     Profile.interactions := [];
     Profile.is_blue := false; Profile.is_business_account := false;
     Profile.has_highlights := false; Profile.has_igtv := false;
     Profile.page_likes_count := None; Profile.work := None; Profile.education := None;
     Profile.relationship_status := None; Profile.has_profile_details := false |}.

(** A character a token may hold: neither punctuation nor blank. *)
Definition word_char (c : ascii) : bool :=
  negb (Str.ispunct c) && negb (Str.isspace c).

(** A word: non-empty and made of such characters. *)
Definition is_word (w : string) : bool :=
  Str.truthy w && forallb word_char (String.list_ascii_of_string w).

(** The texts [ContentAnalyzer.analyze] works with: the texts of the
    posts that are not blank. *)
Definition post_texts (profile_data : Profile.t) : list string :=
  List.filter (fun text => Str.truthy (Str.strip text))
              (concat (List.map ContentAnalyzer.post_text (Profile.posts profile_data))).



(** A profile with one post and a creation date that no format parses. *)
Definition undated_poster : Profile.t :=
  sample_profile (Some (SStr "yesterday")) None [Post.Text "hello"] [] [].

(** The platform as [extract_features] reads it. *)
Definition platform_of (profile_data : Profile.t) : string :=
  Str.lower (default ""%string (Profile.platform profile_data)).

(** A profile with nothing set but its user name. *)
Definition named_profile (username : string) : Profile.t :=
  {| Profile.username := Some username; Profile.platform := None;
     Profile.creation_date := None;
     Profile.bio := None; Profile.location := None; Profile.name := None;
     Profile.display_name := None; Profile.profile_pic_url := None;
     Profile.external_url := None; Profile.has_external_url := false;
     Profile.verified := false; Profile.is_verified := false; Profile.is_private := false;
     Profile.followers_count := None; Profile.friend_count := None;
     Profile.following_count := None; Profile.post_count := None;
     Profile.posts := []; Profile.followers := []; Profile.following := [];
     Profile.interactions := [];
     Profile.is_blue := false; Profile.is_business_account := false;
     Profile.has_highlights := false; Profile.has_igtv := false;
     Profile.page_likes_count := None; Profile.work := None; Profile.education := None;
     Profile.relationship_status := None; Profile.has_profile_details := false |}.

(** * [data_processor] (src/utils/data_processor.py)

    The functions that turn a profile URL or user name into the profile
    handed to the detector.  [urlparse] is a parameter: [None] stands for
    an exception it raises.  The functions that fetch a profile are
    parameters too (the sources simulate them with random data). *)

Module DataProcessor.

(** The components of [urlparse]'s result that the code reads. *)
Record ParseResult : Type := {
  scheme : string;
  netloc : string;
  path : string;
  query : string
}.

Definition isalnum (c : ascii) : bool :=
  Str.isdigit c
  || ((65 <=? Str.code c) && (Str.code c <=? 90))%N
  || ((97 <=? Str.code c) && (Str.code c <=? 122))%N.

(** The classes [[A-Za-z0-9_]] and [[A-Za-z0-9_.]]. *)
Definition name_char (c : ascii) : bool := isalnum c || Ascii.eqb c "_".
Definition dotted_char (c : ascii) : bool := name_char c || Ascii.eqb c ".".

Definition newline : ascii := ascii_of_N 10.

(** [re.match('^[...]+$', s)]: one or more characters of the class up to
    the end of the string, where [$] also matches just before a final
    newline. *)
Definition match_all (class : ascii → bool) (s : string) : bool :=
  let cs := String.list_ascii_of_string s in
  let body :=
    match rev cs with
    | c :: rest => if Ascii.eqb c newline then rev rest else cs
    | [] => cs
    end in
  match body with
  | [] => false
  | _ :: _ => forallb class body
  end.

(** [s.strip(c)] for one character [c]. *)
Fixpoint lstrip_char (c : ascii) (s : string) : string :=
  match s with
  | EmptyString => EmptyString
  | String c' s' => if Ascii.eqb c' c then lstrip_char c s' else s
  end.

Definition strip_char (c : ascii) (s : string) : string :=
  Str.reverse (lstrip_char c (Str.reverse (lstrip_char c s))).

(** [s.split(sep)] for one character [sep]: the pieces between the
    separators, empty pieces included. *)
Fixpoint split_go (sep : ascii) (word : list ascii) (cs : list ascii) : list string :=
  match cs with
  | [] => [String.string_of_list_ascii (rev word)]
  | c :: cs' =>
      if Ascii.eqb c sep
      then String.string_of_list_ascii (rev word) :: split_go sep [] cs'
      else split_go sep (c :: word) cs'
  end.

Definition split (sep : ascii) (s : string) : list string :=
  split_go sep [] (String.list_ascii_of_string s).

(** [path.split('/')[0] if path else None]. *)
Definition first_segment (path : string) : option string :=
  if Str.truthy path then head (split "/" path) else None.

(** [dict(param.split('=') for param in query.split('&'))]: every
    parameter has to split in two, later keys replace earlier ones;
    [None] is the [ValueError] of [dict]. *)
Fixpoint dict_of_params (params : list string) (acc : gmap string string)
  : option (gmap string string) :=
  match params with
  | [] => Some acc
  | param :: rest =>
      match split "=" param with
      | [k; v] => dict_of_params rest (<[k := v]> acc)
      | _ => None
      end
  end.

Definition query_params (query : string) : option (gmap string string) :=
  dict_of_params (split "&" query) ∅.

Definition twitter_hosts : list string :=
  ["twitter.com"; "www.twitter.com"; "x.com"; "www.x.com"]%string.
Definition instagram_hosts : list string := ["instagram.com"; "www.instagram.com"]%string.
Definition facebook_hosts : list string := ["facebook.com"; "www.facebook.com"]%string.

Definition is_host (hosts : list string) (netloc : string) : bool :=
  existsb (String.eqb (Str.lower netloc)) hosts.

(** The [try] block of [extract_username_from_input].  [Some r] is
    [return r]; [None] is leaving the block without a [return], at its
    end or by an exception. *)
Definition username_from_url (urlparse : string → option ParseResult)
    (profile_input platform : string) : option (option string) :=
  parsed_url ← urlparse profile_input;
  parsed_url ←
    (if Str.truthy (scheme parsed_url) then Some parsed_url
     else urlparse ("https://" +:+ profile_input));
  let path := strip_char "/" (path parsed_url) in
  if String.eqb platform "twitter" || String.eqb platform "x" then
    if is_host twitter_hosts (netloc parsed_url) then Some (first_segment path) else None
  else if String.eqb platform "instagram" then
    if is_host instagram_hosts (netloc parsed_url) then Some (first_segment path) else None
  else if String.eqb platform "facebook" then
    if is_host facebook_hosts (netloc parsed_url) then
      if String.prefix "profile.php" path then
        if Str.truthy (query parsed_url) then
          query_params ← query_params (query parsed_url);
          Some (query_params !! "id"%string)
        else None
      else Some (first_segment path)
    else None
  else None.

(** [extract_username_from_input]. *)
Definition extract_username_from_input (urlparse : string → option ParseResult)
    (profile_input platform : string) : option string :=
  if match_all name_char profile_input then Some profile_input
  else
    match username_from_url urlparse profile_input platform with
    | Some username => username
    | None =>
        match profile_input with
        | String "@" rest => Some rest
        | _ =>
            if match_all dotted_char profile_input then Some profile_input else None
        end
    end.

(** [str.isdigit] on ASCII: not empty, digits only. *)
Definition isdigit (s : string) : bool :=
  Str.truthy s && forallb Str.isdigit (String.list_ascii_of_string s).

(** [generate_profile_url]. *)
Definition generate_profile_url (username platform : string) : string :=
  if String.eqb platform "twitter" || String.eqb platform "x"
  then "https://twitter.com/" +:+ username
  else if String.eqb platform "instagram"
  then "https://instagram.com/" +:+ username
  else if String.eqb platform "facebook" then
    if isdigit username
    then "https://facebook.com/profile.php?id=" +:+ username
    else "https://facebook.com/" +:+ username
  else "".





End DataProcessor.

(** A reference [urlparse] for closed examples: the scheme up to the
    first colon when [//] follows it, the host up to the next slash, the
    path up to the question mark, the query after it. *)

Module RefUrl.

Definition until (stop : ascii → bool) (s : string) : string * string :=
  (fix go (word : list ascii) (s : string) : string * string :=
     match s with
     | EmptyString => (String.string_of_list_ascii (rev word), EmptyString)
     | String c s' =>
         if stop c then (String.string_of_list_ascii (rev word), s) else go (c :: word) s'
     end) [] s.

Definition urlparse (url : string) : option DataProcessor.ParseResult :=
  let '(scheme, rest) :=
    match until (fun c => Ascii.eqb c ":") url with
    | (scheme, String ":" (String "/" (String "/" rest))) => (scheme, Some rest)
    | _ => (EmptyString, None)
    end in
  match rest with
  | Some rest =>
      let '(netloc, rest) := until (fun c => Ascii.eqb c "/" || Ascii.eqb c "?") rest in
      let '(path, rest) := until (fun c => Ascii.eqb c "?") rest in
      Some {| DataProcessor.scheme := scheme; DataProcessor.netloc := netloc;
              DataProcessor.path := path;
              DataProcessor.query := match rest with
                                     | String _ q => q
                                     | EmptyString => EmptyString
                                     end |}
  | None =>
      let '(path, rest) := until (fun c => Ascii.eqb c "?") url in
      Some {| DataProcessor.scheme := EmptyString; DataProcessor.netloc := EmptyString;
              DataProcessor.path := path;
              DataProcessor.query := match rest with
                                     | String _ q => q
                                     | EmptyString => EmptyString
                                     end |}
  end.


End RefUrl.

(** What [urlparse] makes of the URL [generate_profile_url] builds: the
    user name is the path, or the [id] of the query for a numeric
    Facebook name. *)
Definition generated_parts (username platform : string) : DataProcessor.ParseResult :=
  if String.eqb platform "twitter" || String.eqb platform "x" then
    {| DataProcessor.scheme := "https"; DataProcessor.netloc := "twitter.com";
       DataProcessor.path := "/" +:+ username; DataProcessor.query := "" |}
  else if String.eqb platform "instagram" then
    {| DataProcessor.scheme := "https"; DataProcessor.netloc := "instagram.com";
       DataProcessor.path := "/" +:+ username; DataProcessor.query := "" |}
  else if DataProcessor.isdigit username then
    {| DataProcessor.scheme := "https"; DataProcessor.netloc := "facebook.com";
       DataProcessor.path := "/profile.php"; DataProcessor.query := "id=" +:+ username |}
  else
    {| DataProcessor.scheme := "https"; DataProcessor.netloc := "facebook.com";
       DataProcessor.path := "/" +:+ username; DataProcessor.query := "" |}.

(** A plain user name: letters, digits and underscores, at least one. *)
Definition plain_name (username : string) : bool :=
  Str.truthy username && forallb DataProcessor.name_char (String.list_ascii_of_string username).

Definition supported_platforms : list string :=
  ["twitter"; "x"; "instagram"; "facebook"]%string.

(** * Properties *)

(** A decidable fact about closed data, by evaluation. *)
Ltac by_evaluation := apply (bool_decide_unpack _); vm_compute; exact I.

(** A property of every entry of a map that is written as a literal:
    one goal per entry. *)
Ltac map_forall_entries :=
  repeat match goal with
    | |- map_Forall _ (<[_:=_]> _) => apply map_Forall_insert_2
    | |- map_Forall _ {[ _ := _ ]} => apply map_Forall_singleton
    | |- map_Forall _ ∅ => apply map_Forall_empty
    end.

(** ** Arithmetic of the scores *)

Section NumFacts.

Lemma ltb_true x y : (x <? y) = true → x < y.
Proof.
  unfold Num.ltb. intros H. apply negb_true_iff in H.
  apply Qnot_le_lt. intros Hle. apply Qle_bool_iff in Hle. congruence.
Qed.

Lemma ltb_false x y : (x <? y) = false → y <= x.
Proof.
  unfold Num.ltb. intros H. apply negb_false_iff in H. by apply Qle_bool_iff.
Qed.

Lemma leb_true x y : (x <=? y) = true ↔ x <= y.
Proof. apply Qle_bool_iff. Qed.

Lemma leb_false x y : (x <=? y) = false → y < x.
Proof.
  intros H. apply Qnot_le_lt. intros Hle. apply leb_true in Hle. congruence.
Qed.

Lemma of_nat_nonneg n : 0 <= Num.of_nat n.
Proof.
  unfold Num.of_nat. change 0 with (inject_Z 0). rewrite <- Zle_Qle. lia.
Qed.

Lemma of_nat_pos n : (0 < n)%nat → 0 < Num.of_nat n.
Proof.
  intros H. unfold Num.of_nat. change 0 with (inject_Z 0). rewrite <- Zlt_Qlt. lia.
Qed.

Lemma of_nat_le n m : (n ≤ m)%nat → Num.of_nat n <= Num.of_nat m.
Proof. intros H. unfold Num.of_nat. rewrite <- Zle_Qle. lia. Qed.

Lemma of_nat_add n m : Num.of_nat (n + m) == Num.of_nat n + Num.of_nat m.
Proof. unfold Num.of_nat. rewrite Nat2Z.inj_add, inject_Z_plus. reflexivity. Qed.

(** A quotient lies between two bounds when its numerator lies between
    the bounds scaled by the positive denominator. *)
Lemma div_between a d lo hi :
  0 < d → lo * d <= a → a <= hi * d → lo <= a / d ∧ a / d <= hi.
Proof.
  intros Hd Hlo Hhi. split.
  - by apply Qle_shift_div_l.
  - by apply Qle_shift_div_r.
Qed.

Lemma div_unit a d : 0 < d → 0 <= a → a <= d → Num.in_unit (a / d).
Proof. intros Hd H0 H1. apply div_between; lra. Qed.

Lemma min_cases a b : (b < a ∧ Num.min a b = b) ∨ (a <= b ∧ Num.min a b = a).
Proof.
  unfold Num.min. destruct (b <? a) eqn:H.
  - left. split; [by apply ltb_true | done].
  - right. split; [by apply ltb_false | done].
Qed.

Lemma max_cases a b : (a < b ∧ Num.max a b = b) ∨ (b <= a ∧ Num.max a b = a).
Proof.
  unfold Num.max. destruct (a <? b) eqn:H.
  - left. split; [by apply ltb_true | done].
  - right. split; [by apply ltb_false | done].
Qed.

(** [max(0, min(1, x))] is a clamp to the unit interval. *)
Lemma clamp_unit x : Num.in_unit (Num.max 0 (Num.min 1 x)).
Proof.
  unfold Num.in_unit.
  destruct (min_cases 1 x) as [[? ->]|[? ->]];
    [destruct (max_cases 0 x) as [[? ->]|[? ->]] | destruct (max_cases 0 1) as [[? ->]|[? ->]]];
    lra.
Qed.

Lemma min1_unit x : 0 <= x → Num.in_unit (Num.min 1 x).
Proof. intros H. unfold Num.in_unit. destruct (min_cases 1 x) as [[? ->]|[? ->]]; lra. Qed.

End NumFacts.

(** ** Sentiment *)

Section Sentiment.

Import ContentAnalyzer.

Lemma count_if_app {A} (p : A → bool) (xs ys : list A) :
  count_if p (xs ++ ys) = (count_if p xs + count_if p ys)%nat.
Proof. unfold count_if. by rewrite List.filter_app, length_app. Qed.

Lemma sentiment_loop texts : ∀ acc,
  fold_left sentiment_step texts acc
  = (acc.1 + positiveCount texts, acc.2 + negativeCount texts)%nat.
Proof.
  induction texts as [|text texts IH]; intros [p n]; simpl.
  - unfold positiveCount, negativeCount, count_if. simpl. f_equal; lia.
  - rewrite IH. unfold positiveCount, negativeCount, all_tokens. simpl.
    rewrite !count_if_app. f_equal; lia.
Qed.

Lemma sentiment_counts_spec texts :
  sentiment_counts texts = (positiveCount texts, negativeCount texts).
Proof. unfold sentiment_counts. by rewrite sentiment_loop. Qed.

Lemma sentiment_formula_unit (p n : nat) :
  (0 < p + n)%nat →
  Num.in_unit (0.5 + (Num.of_nat p - Num.of_nat n) / (2 * Num.of_nat (p + n))).
Proof.
  intros Hpos.
  pose proof (of_nat_nonneg p) as Hp. pose proof (of_nat_nonneg n) as Hn.
  pose proof (of_nat_pos _ Hpos) as Ht. rewrite of_nat_add in Ht.
  assert (Hq : -(1#2) <= (Num.of_nat p - Num.of_nat n) / (2 * Num.of_nat (p + n))
               ∧ (Num.of_nat p - Num.of_nat n) / (2 * Num.of_nat (p + n)) <= 1#2).
  { apply div_between; rewrite ?of_nat_add; lra. }
  unfold Num.in_unit. lra.
Qed.

(** C9.  For every list of post texts (the non-empty ones included) the
    sentiment score is [0.5 + (positiveCount - negativeCount) /
    (2 (positiveCount + negativeCount))] over the fixed word lists, it is
    exactly [0.5] when no sentiment word occurs, and it lies in [[0, 1]]
    although the code applies no clamp. *)
Theorem C9_sentiment_formula_and_range (texts : list string) :
  (_analyze_sentiment texts
   = if (positiveCount texts + negativeCount texts =? 0)%nat then 0.5
     else 0.5 + (Num.of_nat (positiveCount texts) - Num.of_nat (negativeCount texts))
                / (2 * Num.of_nat (positiveCount texts + negativeCount texts)))
  ∧ ((positiveCount texts + negativeCount texts = 0)%nat → _analyze_sentiment texts = 0.5)
  ∧ Num.in_unit (_analyze_sentiment texts).
Proof.
  unfold _analyze_sentiment. rewrite sentiment_counts_spec. simpl.
  split; [reflexivity | split].
  - intros ->. reflexivity.
  - destruct (positiveCount texts + negativeCount texts =? 0)%nat eqn:E.
    + unfold Num.in_unit. lra.
    + apply sentiment_formula_unit. apply Nat.eqb_neq in E. lia.
Qed.

End Sentiment.

(** ** The decision: threshold and heuristic fallback *)

Section Decision.

Import Detector.

Lemma geb_threshold p : (p >=? 0.7) = true ↔ 0.7 <= p.
Proof. apply leb_true. Qed.

Lemma decide_fake_threshold model combined p f importance :
  decide_fake model combined = Ok (p, f, importance) → f = (p >=? 0.7).
Proof.
  unfold decide_fake. destruct model as [m|]; simpl.
  - intros [= <- <- _]. reflexivity.
  - unfold _heuristic_detection. destruct (red_flags combined) as [flags|e]; simpl; [|done].
    unfold score_flags. intros [= <- <- _]. reflexivity.
Qed.

(** C1.  Whenever [analyze_profile] returns, with a trained classifier or
    with the heuristic fallback, the flag [is_fake] is true if and only if
    the returned probability is at least 0.7. *)
Theorem C1_is_fake_iff_threshold
    (L : PyLib) (clock : Clock) (model : option Classifier) (profile : Profile.t)
    (r : AnalysisResult) :
  analyze_profile L clock model profile = Ok r →
  (is_fake r = true ↔ 0.7 <= probability r).
Proof.
  unfold analyze_profile.
  destruct (combined_features L clock profile) as [combined|e]; simpl; [|done].
  destruct (decide_fake model combined) as [[[p f] importance]|e] eqn:Hd; simpl; [|done].
  destruct (_identify_suspicious_indicators combined importance) as [inds|e]; simpl; [|done].
  intros [= <-]. simpl. apply decide_fake_threshold in Hd. subst f. apply geb_threshold.
Qed.

Lemma get_num_numeric features key default :
  flag_inputs_numeric features → key ∈ flag_keys →
  get_num features key default = Ok (feature features key default).
Proof.
  intros Hnum Hkey. unfold feature, get_num.
  destruct (features !! key) as [v|] eqn:Hv; [|done].
  specialize (Hnum _ _ Hv Hkey). by destruct v.
Qed.


Lemma red_flags_numeric features :
  flag_inputs_numeric features → red_flags features = Ok (documented_flags features).
Proof.
  intros Hnum. unfold red_flags.
  repeat (rewrite (get_num_numeric _ _ _ Hnum) by by_evaluation; simpl).
  reflexivity.
Qed.

Lemma flag_names_nodup features : NoDup (documented_flags features).*1.
Proof. simpl. apply (bool_decide_unpack _). vm_compute. reflexivity. Qed.


(** C3.  Without a trained classifier the decision is the heuristic one.
    On a feature map whose entries under the nine keys it reads are
    numbers it evaluates exactly the nine red flags at the documented
    thresholds, returns the probability
    [min(0.3 + (triggeredCount / 9) * 0.7, 1.0)] with the verdict
    [probability >= 0.7], and gives each flag the importance 0.1 when
    triggered and 0 otherwise.  No flag triggered gives exactly 0.3 and
    "not fake"; all nine give exactly 1 and "fake". *)
Theorem C3_heuristic_fallback (features : gmap string value) :
  flag_inputs_numeric features →
  decide_fake None features = _heuristic_detection features
  ∧ red_flags features = Ok (documented_flags features)
  ∧ length (documented_flags features) = 9%nat
  ∧ ∃ importance,
      _heuristic_detection features
      = Ok (heuristic_probability features, heuristic_probability features >=? 0.7,
            importance)
      ∧ (∀ (flag_name : string) (is_triggered : bool),
           (flag_name, is_triggered) ∈ documented_flags features →
           importance !! flag_name = Some (if is_triggered then 0.1 else 0))
      ∧ (triggeredCount features = 0%nat →
         heuristic_probability features == 0.3
         ∧ (heuristic_probability features >=? 0.7) = false)
      ∧ (triggeredCount features = 9%nat →
         heuristic_probability features == 1
         ∧ (heuristic_probability features >=? 0.7) = true).
Proof.
  intros Hnum. split; [reflexivity|]. split; [by apply red_flags_numeric|].
  split; [reflexivity|].
  eexists. split; [|split; [|split]].
  - unfold _heuristic_detection. rewrite (red_flags_numeric _ Hnum). simpl.
    unfold score_flags. reflexivity.
  - intros flag_name is_triggered Hin.
    apply elem_of_list_to_map_1.
    + rewrite <- list_fmap_compose.
      erewrite list_fmap_ext; [apply (flag_names_nodup features)|].
      intros _ [n b] _. reflexivity.
    + apply list_elem_of_fmap. exists (flag_name, is_triggered). split; [reflexivity|done].
  - intros Hk. unfold heuristic_probability. rewrite Hk. split; vm_compute; reflexivity.
  - intros Hk. unfold heuristic_probability. rewrite Hk. split; vm_compute; reflexivity.
Qed.

Lemma all_flags_numeric : flag_inputs_numeric all_flags.
Proof.
  unfold flag_inputs_numeric, all_flags. map_forall_entries; intros _; reflexivity.
Defined.

Lemma C3_heuristic_fallback_witness :
  flag_inputs_numeric all_flags
  ∧ triggeredCount all_flags = 9%nat
  ∧ red_flags all_flags = Ok (documented_flags all_flags).
Proof.
  split; [exact all_flags_numeric|]. split; [vm_compute; reflexivity|].
  exact (proj1 (proj2 (C3_heuristic_fallback all_flags all_flags_numeric))).
Defined.

Lemma C1_is_fake_iff_threshold_witness :
  match analyze_profile RefLib.lib noon None empty_profile with
  | Ok r => is_fake r = true ↔ 0.7 <= probability r
  | Raise _ => False
  end.
Proof.
  assert (Hok : returns (analyze_profile RefLib.lib noon None empty_profile) = true).
  { vm_compute. reflexivity. }
  destruct (analyze_profile RefLib.lib noon None empty_profile) as [r|e] eqn:E;
    [|discriminate Hok].
  exact (C1_is_fake_iff_threshold RefLib.lib noon None empty_profile r E).
Defined.

End Decision.

(** ** Mutual connections and reciprocity *)

Section Reciprocity.

Import NetworkAnalyzer.

Lemma mutual_connections_spec followers following :
  _analyze_mutual_connections followers following = mutual_ratio followers following.
Proof. reflexivity. Qed.

Lemma reciprocity_spec followers following :
  _calculate_reciprocity followers following = mutual_ratio followers following.
Proof. reflexivity. Qed.

Lemma analyze_mutual profile :
  analyze profile !! "mutual_connection_ratio"%string
  = Some (VNum (if nonempty (Profile.followers profile) && nonempty (Profile.following profile)
                then _analyze_mutual_connections (Profile.followers profile)
                       (Profile.following profile)
                else 0.5)).
Proof.
  unfold analyze.
  destruct (nonempty (Profile.followers profile) && nonempty (Profile.following profile));
    by simplify_map_eq.
Qed.

Lemma analyze_reciprocity profile :
  analyze profile !! "reciprocity"%string
  = Some (VNum (if nonempty (Profile.followers profile) && nonempty (Profile.following profile)
                then _calculate_reciprocity (Profile.followers profile)
                       (Profile.following profile)
                else 0.5)).
Proof.
  unfold analyze.
  destruct (nonempty (Profile.followers profile) && nonempty (Profile.following profile));
    by simplify_map_eq.
Qed.

(** C10, as the code has it.  The two helpers are the same function:
    both are [|followers ∩ following| / |following|] over the extracted
    ids, and 0.5 when the following set is empty.  The two reported
    fields are equal for every profile; they carry the helpers' value when
    both lists are non-empty, and the neutral 0.5 as soon as one of the two
    lists is empty. *)
Theorem C10_mutual_equals_reciprocity (profile : Profile.t) :
  let followers := Profile.followers profile in
  let following := Profile.following profile in
  _analyze_mutual_connections followers following = mutual_ratio followers following
  ∧ _calculate_reciprocity followers following = mutual_ratio followers following
  ∧ analyze profile !! "mutual_connection_ratio"%string
    = analyze profile !! "reciprocity"%string
  ∧ analyze profile !! "reciprocity"%string
    = Some (VNum (if nonempty followers && nonempty following
                  then mutual_ratio followers following
                  else 0.5)).
Proof.
  intros followers following.
  split; [reflexivity|]. split; [reflexivity|].
  rewrite analyze_mutual, analyze_reciprocity. split; reflexivity.
Qed.

(** C10 as stated fails when the followers list is empty and the
    following set is not: the reported ratio is 0.5, while
    [|followers ∩ following| / |following|] is 0. *)
Lemma C10_counterexample :
  analyze follows_one !! "mutual_connection_ratio"%string = Some (VNum 0.5)
  ∧ analyze follows_one !! "reciprocity"%string = Some (VNum 0.5)
  ∧ size (id_set (Profile.following follows_one)) = 1%nat
  ∧ mutual_ratio (Profile.followers follows_one) (Profile.following follows_one) == 0
  ∧ ¬ (0.5 == mutual_ratio (Profile.followers follows_one) (Profile.following follows_one)).
Proof.
  split; [vm_compute; reflexivity|]. split; [vm_compute; reflexivity|].
  split; [vm_compute; reflexivity|]. split; [vm_compute; reflexivity|].
  vm_compute. discriminate.
Qed.

End Reciprocity.

(** ** Burst detection *)

Section Bursts.

Import ActivityAnalyzer.
Lemma within_le_length window_end ts : (within window_end ts ≤ length ts)%nat.
Proof.
  induction ts as [|t ts IH]; simpl; [lia|].
  destruct (t <=? window_end)%Z; lia.
Qed.
Lemma greedy_scan_skip skip : ∀ ts, greedy_scan skip ts = greedy_scan 0 (drop skip ts).
Proof.
  induction skip as [|k IH]; intros ts; [by rewrite drop_0|].
  destruct ts as [|t rest]; [reflexivity|]. simpl. apply IH.
Qed.
Lemma window_loop_spec ts window_end window_posts j :
  window_loop ts window_end window_posts j
  = ((window_posts + within window_end (drop j ts))%nat,
     (j + within window_end (drop j ts))%nat).
Proof.
  funelim (window_loop ts window_end window_posts j).
  - rewrite (drop_S _ _ _ H). simpl.
    destruct (t <=? window_end)%Z.
    + rewrite H0. f_equal; lia.
    + f_equal; lia.
  - rewrite drop_ge by (by apply lookup_ge_None). simpl. f_equal; lia.
Qed.
Lemma greedy_scan_cons t rest :
  greedy_scan 0 (t :: rest)
  = if (3 <=? within (t + burst_window)%Z (t :: rest))%nat
    then S (greedy_scan (within (t + burst_window)%Z (t :: rest) - 1) rest)
    else greedy_scan 0 rest.
Proof. reflexivity. Qed.

Lemma burst_loop_spec ts bursts i :
  burst_loop ts bursts i = (bursts + greedy_scan 0 (drop i ts))%nat.
Proof.
  funelim (burst_loop ts bursts i).
  - rewrite drop_ge by (by apply lookup_ge_None). simpl. lia.
  - clear H1 H2 H3 Heqcall. rewrite H0. clear H0.
    rewrite window_loop_spec in Hw. injection Hw as <- <-.
    pose proof (drop_S _ _ _ H) as Hd.
    rewrite Hd at 2. rewrite greedy_scan_cons, <- Hd.
    unfold min_posts_for_burst in Hb. rewrite Hb.
    apply Nat.leb_le in Hb.
    rewrite (greedy_scan_skip (_ - 1)), drop_drop.
    replace (S i + (within (t + burst_window)%Z (drop i ts) - 1))%nat
      with (i + within (t + burst_window)%Z (drop i ts))%nat by lia.
    lia.
  - clear H1 H2 H3 Heqcall. rewrite H0. clear H0.
    rewrite window_loop_spec in Hw. injection Hw as <- <-.
    pose proof (drop_S _ _ _ H) as Hd.
    rewrite Hd at 1. rewrite greedy_scan_cons, <- Hd.
    unfold min_posts_for_burst in e. rewrite e. reflexivity.
Qed.

Lemma greedy_scan_short ts : (length ts < 3)%nat → greedy_scan 0 ts = 0%nat.
Proof.
  induction ts as [|t rest IH]; intros Hlen; [reflexivity|].
  rewrite greedy_scan_cons.
  pose proof (within_le_length (t + burst_window)%Z (t :: rest)) as Hw.
  destruct (3 <=? within (t + burst_window)%Z (t :: rest))%nat eqn:E.
  - apply Nat.leb_le in E. lia.
  - apply IH. simpl in Hlen. lia.
Qed.

Lemma sorted_length ts : length (sorted ts) = length ts.
Proof. unfold sorted. by rewrite merge_sort_Permutation. Qed.

Lemma sorted_strongly ts : StronglySorted Z.le (sorted ts).
Proof. apply StronglySorted_merge_sort; apply _. Qed.

(** The code computes the greedy scan of the specification. *)
Lemma detect_posting_bursts_spec timestamps :
  _detect_posting_bursts timestamps = greedy_bursts timestamps.
Proof.
  unfold _detect_posting_bursts, greedy_bursts.
  destruct (length timestamps <? 3)%nat eqn:E.
  - apply Nat.ltb_lt in E. symmetry. apply greedy_scan_short. by rewrite sorted_length.
  - rewrite burst_loop_spec, drop_0. reflexivity.
Qed.

Lemma burst_window_pos : (0 < burst_window)%Z.
Proof. reflexivity. Qed.

Lemma within_three window_end t rest :
  (3 ≤ within window_end (t :: rest))%nat →
  ∃ x c l2, rest = x :: c :: l2 ∧ (c ≤ window_end)%Z.
Proof.
  simpl. destruct (t <=? window_end)%Z; [|lia].
  destruct rest as [|x [|c l2]]; simpl; [lia| |].
  - destruct (x <=? window_end)%Z; lia.
  - destruct (x <=? window_end)%Z; [|lia].
    destruct (c <=? window_end)%Z eqn:E; [|lia].
    intros _. exists x, c, l2. split; [reflexivity|lia].
Qed.

Lemma greedy_scan_pos_neighbours s : ∀ skip,
  (0 < greedy_scan skip s)%nat → neighbours_within s.
Proof.
  induction s as [|t rest IH]; intros skip Hpos; [simpl in Hpos; lia|].
  assert (Hrest : neighbours_within rest → neighbours_within (t :: rest)).
  { intros (l1 & a & x & c & l2 & -> & Hc). by exists (t :: l1), a, x, c, l2. }
  destruct skip as [|k]; [|by eapply Hrest, IH].
  rewrite greedy_scan_cons in Hpos.
  destruct (3 <=? within (t + burst_window)%Z (t :: rest))%nat eqn:E; [|by eapply Hrest, IH].
  apply Nat.leb_le, within_three in E as (x & c & l2 & -> & Hc).
  by exists [], t, x, c, l2.
Qed.

Lemma neighbours_greedy_scan_pos s :
  StronglySorted Z.le s →
  ∀ skip l1 a x c l2,
    s = l1 ++ a :: x :: c :: l2 → (c ≤ a + burst_window)%Z → (skip ≤ length l1)%nat →
    (0 < greedy_scan skip s)%nat.
Proof.
  induction 1 as [|t rest Hsorted IH Hle]; intros skip l1 a x c l2 Hs Hc Hskip.
  - by destruct l1.
  - destruct l1 as [|t' l1]; simpl in Hs, Hskip; injection Hs as -> ->.
    + assert (skip = 0%nat) as -> by lia. rewrite greedy_scan_cons.
      apply Forall_cons in Hle as [Hax Hle]. apply Forall_cons in Hle as [Hac _].
      apply StronglySorted_cons in Hsorted as [Hxc _]. apply Forall_cons in Hxc as [Hxc _].
      pose proof burst_window_pos.
      simpl. rewrite !(proj2 (Z.leb_le _ _)) by lia. simpl. lia.
    + destruct skip as [|k].
      * rewrite greedy_scan_cons.
        destruct (3 <=? _)%nat; [lia|]. eapply (IH 0%nat); eauto. lia.
      * simpl. eapply IH; eauto. lia.
Qed.

Lemma three_within_neighbours timestamps :
  three_within_window timestamps ↔ neighbours_within (sorted timestamps).
Proof.
  pose proof (sorted_strongly timestamps) as Hsorted.
  split.
  - intros (a & b & c & Hsub & Hab & Hbc & Hca).
    assert (Hsub' : [a; b; c] ⊆+ sorted timestamps).
    { unfold sorted. by rewrite merge_sort_Permutation. }
    apply submseteq_sublist_r in Hsub' as (l2 & Hperm & Hsl).
    assert (Hin : ∀ z, z ∈ l2 → (a ≤ z ≤ c)%Z).
    { intros z Hz. rewrite <- Hperm, !elem_of_cons, elem_of_nil in Hz.
      destruct Hz as [->|[->|[->|[]]]]; lia. }
    destruct l2 as [|x [|y [|z [|? ?]]]];
      try (apply Permutation_length in Hperm; simpl in Hperm; lia).
    apply sublist_cons_l in Hsl as (k1 & k2 & Hk & Hsl).
    pose proof (sublist_length _ _ Hsl) as Hlen.
    destruct k2 as [|r0 [|r1 k3]]; simpl in Hlen; try lia.
    assert (Hz : z ∈ r1 :: k3).
    { apply sublist_cons_r in Hsl as [Hsl|(l' & [= <- <-] & Hsl)].
      - apply (elem_of_submseteq [y; z]); [|by apply sublist_submseteq].
        rewrite !elem_of_cons. auto.
      - apply (elem_of_submseteq [z]); [|by apply sublist_submseteq].
        rewrite !elem_of_cons. auto. }
    rewrite Hk in Hsorted. apply StronglySorted_app_1_r in Hsorted.
    apply StronglySorted_cons in Hsorted as [_ Hsorted].
    apply StronglySorted_cons in Hsorted as [_ Hsorted].
    apply StronglySorted_cons in Hsorted as [Hr1 _].
    assert (r1 ≤ z)%Z.
    { apply elem_of_cons in Hz as [->|Hz]; [lia|].
      rewrite Forall_forall in Hr1. by apply Hr1. }
    exists k1, x, r0, r1, k3. split; [done|].
    assert (a ≤ x ≤ c)%Z by (apply Hin; rewrite !elem_of_cons; auto).
    assert (a ≤ z ≤ c)%Z by (apply Hin; rewrite !elem_of_cons; auto).
    lia.
  - intros (l1 & a & x & c & l2 & Hs & Hc).
    rewrite Hs in Hsorted. apply StronglySorted_app_1_r in Hsorted.
    apply StronglySorted_cons in Hsorted as [Hax Hsorted].
    apply StronglySorted_cons in Hsorted as [Hxc _].
    apply Forall_cons in Hax as [Hax _]. apply Forall_cons in Hxc as [Hxc _].
    exists a, x, c. split; [|lia].
    assert (Hsub : [a; x; c] ⊆+ sorted timestamps).
    { rewrite Hs. apply sublist_submseteq, sublist_inserts_l.
      do 3 apply sublist_skip. apply sublist_nil_l. }
    unfold sorted in Hsub. by rewrite merge_sort_Permutation in Hsub.
Qed.

(** C8.  Burst detection is the greedy scan over the sorted time stamps:
    a window of ten minutes opens at a post, a burst is counted when at
    least three posts fall within it, and the scan resumes just after the
    last post of the burst.  A burst is counted exactly when three of the
    posts lie within ten minutes of each other.  For posts at 0, 2 and 5
    minutes and a fourth at 40 minutes exactly one burst is reported. *)
Theorem C8_burst_detection (timestamps : list datetime) :
  _detect_posting_bursts timestamps = greedy_bursts timestamps
  ∧ ((0 < _detect_posting_bursts timestamps)%nat ↔ three_within_window timestamps)
  ∧ _detect_posting_bursts four_posts = 1%nat.
Proof.
  split; [apply detect_posting_bursts_spec|]. split; [|vm_compute; reflexivity].
  rewrite detect_posting_bursts_spec, three_within_neighbours. unfold greedy_bursts.
  split.
  - apply greedy_scan_pos_neighbours.
  - intros (l1 & a & x & c & l2 & Hs & Hc).
    eapply neighbours_greedy_scan_pos; eauto using sorted_strongly. lia.
Qed.

End Bursts.

(** ** Feature extraction *)

Section Extraction.

Import FeatureExtractor Detector.

Lemma gaps_length (xs : list datetime) : length (gaps xs) = (length xs - 1)%nat.
Proof.
  induction xs as [|a [|b xs] IH]; simpl in *; [reflexivity..|]. rewrite IH. lia.
Qed.

Lemma hour_lt_24 t : (Time.hour t < 24)%nat.
Proof. unfold Time.hour. pose proof (Z.mod_pos_bound (t / Time.micros_per_hour) 24). lia. Qed.

Lemma hour_counts_grow hours : ∀ (counts : list nat) h c,
  counts !! h = Some c →
  ∃ c', fold_left (fun counts hour => alter S hour counts) hours counts !! h = Some c'
        ∧ (c ≤ c')%nat.
Proof.
  induction hours as [|h0 hours IH]; intros counts h c Hc; simpl.
  - exists c. split; [done|lia].
  - destruct (decide (h0 = h)) as [->|Hne].
    + destruct (IH (alter S h counts) h (S c)) as (c' & Hc' & Hle).
      { rewrite list_lookup_alter_eq, Hc. reflexivity. }
      exists c'. split; [done|lia].
    + destruct (IH (alter S h0 counts) h c) as (c' & Hc' & Hle).
      { by rewrite list_lookup_alter_ne. }
      exists c'. split; [done|lia].
Qed.

Lemma median_ok (ts : list datetime) :
  ts ≠ [] → ∃ h, median_hours_between_posts ts = Ok h.
Proof.
  intros Hne. unfold median_hours_between_posts.
  destruct (1 <? length ts)%nat eqn:E; [|by eexists].
  apply Nat.ltb_lt in E.
  set (hs := merge_sort Qle _).
  assert (Hlen : length hs = (length ts - 1)%nat).
  { unfold hs. rewrite merge_sort_Permutation, length_map, gaps_length.
    unfold sorted. by rewrite merge_sort_Permutation. }
  destruct (lookup_lt_is_Some_2 hs (length hs / 2)) as [h Hh].
  { apply Nat.div_lt; lia. }
  rewrite Hh. by eexists.
Qed.

Lemma hour_counts_positive (hours : list nat) :
  hours ≠ [] → Forall (fun h => (h < 24)%nat) hours →
  ∃ c cs, List.filter (fun count => (0 <? count)%nat) (hour_counts hours) = c :: cs
          ∧ (0 < c)%nat.
Proof.
  intros Hne Hlt. destruct hours as [|h hours]; [done|].
  apply Forall_cons in Hlt as [Hh _].
  unfold hour_counts. simpl fold_left.
  destruct (hour_counts_grow hours (alter S h (replicate 24 0%nat)) h 1%nat) as (c' & Hc' & Hle).
  { rewrite list_lookup_alter_eq, lookup_replicate_2 by done. reflexivity. }
  set (counts := fold_left _ hours _) in *.
  assert (Hin : In c' (List.filter (fun count => (0 <? count)%nat) counts)).
  { apply filter_In. split.
    - apply list_elem_of_In. by eapply list_elem_of_lookup_2.
    - apply Nat.ltb_lt. lia. }
  destruct (List.filter _ counts) as [|c cs] eqn:Hf; [done|].
  exists c, cs. split; [done|].
  assert (Hc : In c (List.filter (fun count => (0 <? count)%nat) counts)) by (rewrite Hf; by left).
  apply filter_In in Hc as [_ Hc]. by apply Nat.ltb_lt.
Qed.

Lemma entropy_raises (hours : list nat) :
  hours ≠ [] → Forall (fun h => (h < 24)%nat) hours →
  posting_time_entropy (hour_probs hours) = Raise AttributeError.
Proof.
  intros Hne Hlt. unfold hour_probs.
  destruct (hour_counts_positive hours Hne Hlt) as (c & cs & -> & Hc).
  assert (Hp : 0 < Num.of_nat c / Num.of_nat (length hours)).
  { apply Qlt_shift_div_l.
    - apply of_nat_pos. destruct hours; [done|simpl; lia].
    - rewrite Qmult_0_l. by apply of_nat_pos. }
  assert (Hterm : entropy_term (Num.of_nat c / Num.of_nat (length hours))
                  = Raise AttributeError).
  { unfold entropy_term.
    destruct (Num.of_nat c / Num.of_nat (length hours) >? 0) eqn:E; [reflexivity|].
    apply ltb_false in E. lra. }
  simpl. rewrite Hterm. reflexivity.
Qed.

Lemma hours_lt_24 (ts : list datetime) :
  Forall (fun h => (h < 24)%nat) (List.map Time.hour ts).
Proof. induction ts; simpl; constructor; [apply hour_lt_24|done]. Qed.

Lemma activity_features_raise L profile :
  post_timestamps L (Profile.posts profile) ≠ [] →
  _extract_activity_features L profile = Raise AttributeError.
Proof.
  intros Hne. unfold _extract_activity_features.
  rewrite lookup_empty. simpl.
  destruct (post_timestamps L (Profile.posts profile)) as [|t ts] eqn:Hts; [done|].
  destruct (median_ok (t :: ts)) as [h ->]; [done|].
  rewrite entropy_raises; [reflexivity|done|apply hours_lt_24].
Qed.

Lemma activity_features_return L profile :
  post_timestamps L (Profile.posts profile) = [] →
  _extract_activity_features L profile = Ok activity_defaults.
Proof.
  intros Hts. unfold _extract_activity_features.
  rewrite lookup_empty, Hts. simpl.
  unfold get_num. rewrite !lookup_insert_ne, lookup_empty by done. simpl.
  rewrite andb_false_r. reflexivity.
Qed.

Lemma activity_features_cases L profile :
  (post_timestamps L (Profile.posts profile) = []
   ∧ _extract_activity_features L profile = Ok activity_defaults)
  ∨ (post_timestamps L (Profile.posts profile) ≠ []
     ∧ _extract_activity_features L profile = Raise AttributeError).
Proof.
  destruct (post_timestamps L (Profile.posts profile)) eqn:E.
  - left. split; [done|]. by apply activity_features_return.
  - right. split; [done|]. apply activity_features_raise. by rewrite E.
Qed.

Lemma lookup_update (a b : gmap string value) k :
  update a b !! k = match b !! k with Some v => Some v | None => a !! k end.
Proof.
  unfold update. rewrite lookup_union. destruct (b !! k), (a !! k); reflexivity.
Qed.

Lemma content_features_other profile k :
  k ∉ ["bio_length"; "has_external_url"; "avg_post_length"; "hashtags_per_post";
       "urls_per_post"; "mentions_per_post"; "emojis_per_post"]%string →
  _extract_content_features profile !! k = None.
Proof.
  intros Hk. rewrite !not_elem_of_cons in Hk. destruct Hk as (?&?&?&?&?&?&?&_).
  unfold _extract_content_features.
  destruct (concat _); rewrite lookup_update; by simplify_map_eq.
Qed.

Ltac split_keys H :=
  unfold late_keys in H; rewrite !not_elem_of_cons in H;
  repeat match type of H with _ ∧ _ => let H1 := fresh in destruct H as [H1 H] end.

Lemma content_features_early profile k :
  k ∉ late_keys → _extract_content_features profile !! k = None.
Proof.
  intros Hk. split_keys Hk. unfold _extract_content_features.
  destruct (concat _); rewrite lookup_update; by simplify_map_eq.
Qed.

Lemma profile_features_early profile k :
  k ∉ late_keys → _extract_profile_features profile !! k = None.
Proof.
  intros Hk. split_keys Hk. unfold _extract_profile_features.
  destruct (Str.truthy _); rewrite lookup_insert_ne, lookup_update by done; by simplify_map_eq.
Qed.

Lemma twitter_features_early profile k :
  k ∉ late_keys → _extract_twitter_features profile !! k = None.
Proof. intros Hk. split_keys Hk. unfold _extract_twitter_features. by simplify_map_eq. Qed.

Lemma instagram_features_early profile k :
  k ∉ late_keys → _extract_instagram_features profile !! k = None.
Proof. intros Hk. split_keys Hk. unfold _extract_instagram_features. by simplify_map_eq. Qed.

Lemma facebook_features_early profile k :
  k ∉ late_keys → _extract_facebook_features profile !! k = None.
Proof. intros Hk. split_keys Hk. unfold _extract_facebook_features. by simplify_map_eq. Qed.

(** When [extract_features] returns, no post had a time stamp that
    parses, and the entries that are not written by the later extractors
    are those of the account metrics, overwritten by the activity
    defaults. *)
Lemma extract_features_return L now profile features :
  extract_features L now profile = Ok features →
  post_timestamps L (Profile.posts profile) = []
  ∧ ∀ k, k ∉ late_keys →
         features !! k
         = match activity_defaults !! k with
           | Some v => Some v
           | None => _extract_account_metrics L now profile !! k
           end.
Proof.
  unfold extract_features.
  destruct (activity_features_cases L profile) as [[Hts ->]|[_ ->]]; [|done].
  simpl. intros [= <-]. split; [done|]. intros k Hk.
  assert (Hrest :
    update (update (update (update ∅ (_extract_account_metrics L now profile))
                      activity_defaults)
              (_extract_content_features profile))
      (_extract_profile_features profile) !! k
    = match activity_defaults !! k with
      | Some v => Some v
      | None => _extract_account_metrics L now profile !! k
      end).
  { rewrite !lookup_update, content_features_early, profile_features_early, lookup_empty by done.
    destruct (activity_defaults !! k); [done|].
    by destruct (_extract_account_metrics L now profile !! k). }
  repeat match goal with |- context [if ?b then _ else _] => destruct b end;
    first [ exact Hrest
          | rewrite lookup_update, twitter_features_early by done; exact Hrest
          | rewrite lookup_update, instagram_features_early by done; exact Hrest
          | rewrite lookup_update, facebook_features_early by done; exact Hrest ].
Qed.

Lemma extract_features_raise L now profile :
  post_timestamps L (Profile.posts profile) ≠ [] →
  extract_features L now profile = Raise AttributeError.
Proof.
  intros Hne. unfold extract_features. by rewrite activity_features_raise.
Qed.


(** C4, as the code has it.  A profile one of whose posts carries a time
    stamp that parses makes feature extraction raise [AttributeError] (the
    entropy of the posting hours calls [log] on a [float]), and with it
    the whole of [analyze_profile]. *)
Theorem C4_parsable_timestamp_raises
    (L : PyLib) (clock : Clock) (model : option Classifier) (profile : Profile.t) :
  post_timestamps L (Profile.posts profile) ≠ [] →
  extract_features L (now_features clock) profile = Raise AttributeError
  ∧ analyze_profile L clock model profile = Raise AttributeError.
Proof.
  intros Hne. pose proof (extract_features_raise L (now_features clock) profile Hne) as Hx.
  split; [exact Hx|].
  unfold analyze_profile, combined_features. rewrite Hx. reflexivity.
Qed.

Lemma C4_parsable_timestamp_raises_witness :
  post_timestamps RefLib.lib (Profile.posts stamped_profile) ≠ []
  ∧ extract_features RefLib.lib 0%Z stamped_profile = Raise AttributeError
  ∧ analyze_profile RefLib.lib noon None stamped_profile = Raise AttributeError.
Proof.
  assert (Hne : post_timestamps RefLib.lib (Profile.posts stamped_profile) ≠ []).
  { vm_compute. discriminate. }
  split; [exact Hne|].
  exact (C4_parsable_timestamp_raises RefLib.lib noon None stamped_profile Hne).
Defined.

Example stamped_profile_raises :
  analyze_profile RefLib.lib noon None stamped_profile = Raise AttributeError.
Proof. vm_compute. reflexivity. Qed.

Lemma account_metrics_age L now profile :
  _extract_account_metrics L now profile !! "account_age_days"%string
  = account_age_entry L now (Profile.creation_date profile) !! "account_age_days"%string.
Proof. unfold _extract_account_metrics. by rewrite !lookup_insert_ne. Qed.

Lemma strptime_first_unparsable L s formats :
  Forall (fun fmt => strptime L s fmt = None) formats →
  strptime_first L (SStr s) formats = Ok None.
Proof.
  induction 1 as [|fmt formats Hfmt _ IH]; simpl; [reflexivity|]. by rewrite Hfmt.
Qed.

(** The cases in which the age is written as described: no date, a date
    that is not text, a date one of the formats parses. *)
Lemma account_age_missing L now profile :
  match Profile.creation_date profile with
  | Some v => scalar_truthy v = false
  | None => True
  end →
  _extract_account_metrics L now profile !! "account_age_days"%string = Some (VNum 365).
Proof.
  intros Hd. rewrite account_metrics_age. unfold account_age_entry.
  destruct (Profile.creation_date profile) as [v|]; [rewrite Hd|]; apply lookup_singleton_eq.
Qed.

Lemma account_age_not_text L now profile v :
  Profile.creation_date profile = Some v →
  scalar_truthy v = true →
  (∀ s, v ≠ SStr s) →
  _extract_account_metrics L now profile !! "account_age_days"%string = Some (VNum 365).
Proof.
  intros Hd Hv Hs. rewrite account_metrics_age, Hd. unfold account_age_entry. rewrite Hv.
  destruct v as [|b|q|s]; try apply lookup_singleton_eq. by destruct (Hs s).
Qed.

Lemma account_age_parsed L now profile s d :
  Profile.creation_date profile = Some (SStr s) →
  Str.truthy s = true →
  strptime_first L (SStr s) creation_date_formats = Ok (Some d) →
  _extract_account_metrics L now profile !! "account_age_days"%string
  = Some (VNum (inject_Z (Time.days (now - d)%Z))).
Proof.
  intros Hd Hs Hp. rewrite account_metrics_age, Hd. unfold account_age_entry, scalar_truthy.
  rewrite Hs, Hp. apply lookup_singleton_eq.
Qed.

(** C5, as the code has it.  A creation date that is non-empty text and
    that none of the three formats parses leaves the feature map without
    any [account_age_days] entry: the default 365 is not written. *)
Theorem C5_unparsable_date_leaves_no_age
    (L : PyLib) (now : datetime) (profile : Profile.t) (s : string) :
  Profile.creation_date profile = Some (SStr s) →
  Str.truthy s = true →
  Forall (fun fmt => strptime L s fmt = None) creation_date_formats →
  _extract_account_metrics L now profile !! "account_age_days"%string = None
  ∧ ∀ features, extract_features L now profile = Ok features →
                features !! "account_age_days"%string = None.
Proof.
  intros Hdate Hs Hfmt.
  assert (Hm : _extract_account_metrics L now profile !! "account_age_days"%string = None).
  { rewrite account_metrics_age, Hdate. unfold account_age_entry, scalar_truthy.
    by rewrite Hs, strptime_first_unparsable. }
  split; [exact Hm|]. intros features Hx.
  apply extract_features_return in Hx as [_ Hx]. rewrite Hx.
  - by rewrite Hm.
  - apply (bool_decide_unpack _). vm_compute. reflexivity.
Qed.

Lemma C5_unparsable_date_leaves_no_age_witness :
  Profile.creation_date undated_profile = Some (SStr "yesterday")
  ∧ Forall (fun fmt => strptime RefLib.lib "yesterday" fmt = None) creation_date_formats
  ∧ entry (extract_features RefLib.lib 0%Z undated_profile) "account_age_days" = Ok None.
Proof.
  assert (Hfmt : Forall (fun fmt => strptime RefLib.lib "yesterday" fmt = None)
                        creation_date_formats).
  { repeat constructor. }
  split; [reflexivity|]. split; [exact Hfmt|].
  assert (Hok : returns (extract_features RefLib.lib 0%Z undated_profile) = true).
  { vm_compute. reflexivity. }
  destruct (extract_features RefLib.lib 0%Z undated_profile) as [features|e] eqn:E;
    [|discriminate Hok].
  simpl. f_equal.
  exact (proj2 (C5_unparsable_date_leaves_no_age RefLib.lib 0%Z undated_profile
                  "yesterday" eq_refl eq_refl Hfmt) features E).
Defined.

(** C6, as the code has it.  Whenever the feature normalizer returns, its
    [posts_per_day] entry is 0, whatever the post count and the account
    age: the activity extractor reads both from its own, empty
    dictionary. *)
Theorem C6_posts_per_day_is_zero
    (L : PyLib) (now : datetime) (profile : Profile.t) (features : gmap string value) :
  extract_features L now profile = Ok features →
  features !! "posts_per_day"%string = Some (VNum 0).
Proof.
  intros Hx. apply extract_features_return in Hx as [_ Hx]. rewrite Hx.
  - reflexivity.
  - apply (bool_decide_unpack _). vm_compute. reflexivity.
Qed.

Lemma C6_posts_per_day_is_zero_witness :
  entry (extract_features RefLib.lib 0%Z busy_profile) "post_count" = Ok (Some (VNum 730))
  ∧ entry (extract_features RefLib.lib 0%Z busy_profile) "account_age_days"
    = Ok (Some (VNum 365))
  ∧ entry (extract_features RefLib.lib 0%Z busy_profile) "posts_per_day" = Ok (Some (VNum 0)).
Proof.
  split; [vm_compute; reflexivity|]. split; [vm_compute; reflexivity|].
  assert (Hok : returns (extract_features RefLib.lib 0%Z busy_profile) = true).
  { vm_compute. reflexivity. }
  destruct (extract_features RefLib.lib 0%Z busy_profile) as [features|e] eqn:E;
    [|discriminate Hok].
  simpl. f_equal. exact (C6_posts_per_day_is_zero RefLib.lib 0%Z busy_profile features E).
Defined.

End Extraction.

(** ** When the analysis returns *)

Section Returns.

Import Detector.

(** The entries the heuristic and the indicators read are numbers in
    every map the pipeline builds. *)
Ltac flag_entries :=
  unfold flag_inputs_numeric; map_forall_entries; unfold flag_input;
  first [ intros _; reflexivity
        | let H := fresh in intros H; exfalso; revert H; by_evaluation ].

Lemma flags_update a b :
  flag_inputs_numeric a → flag_inputs_numeric b → flag_inputs_numeric (update a b).
Proof.
  intros Ha Hb k v Hk. unfold update in Hk.
  apply lookup_union_Some_raw in Hk as [Hk|[_ Hk]]; [by apply Hb|by apply Ha].
Qed.

Lemma content_flag_inputs L profile : flag_inputs_numeric (ContentAnalyzer.analyze L profile).
Proof.
  unfold ContentAnalyzer.analyze, ContentAnalyzer.neutral.
  destruct (Profile.posts profile); [|destruct (List.filter _ _)]; flag_entries.
Qed.

Lemma activity_flag_inputs L now profile :
  flag_inputs_numeric (ActivityAnalyzer.analyze L now profile).
Proof.
  unfold ActivityAnalyzer.analyze.
  destruct (Profile.posts profile); [|destruct (post_timestamps L _)]; flag_entries.
Qed.

Lemma image_flag_inputs L profile : flag_inputs_numeric (ImageAnalyzer.analyze L profile).
Proof.
  unfold ImageAnalyzer.analyze.
  destruct (Profile.profile_pic_url profile) as [url|];
    [destruct (Str.truthy url)|]; try flag_entries.
  destruct (negb _); [destruct (ImageAnalyzer._analyze_image L url) as [[[? ?] ?] ?]|];
    flag_entries.
Qed.

Lemma network_flag_inputs profile : flag_inputs_numeric (NetworkAnalyzer.analyze profile).
Proof.
  unfold NetworkAnalyzer.analyze.
  destruct (NetworkAnalyzer.nonempty _ && NetworkAnalyzer.nonempty _); flag_entries.
Qed.

Lemma extract_flag_inputs L now profile features :
  FeatureExtractor.extract_features L now profile = Ok features →
  flag_inputs_numeric features.
Proof.
  unfold FeatureExtractor.extract_features.
  destruct (activity_features_cases L profile) as [[_ ->]|[_ ->]]; [|done].
  simpl. intros [= <-].
  assert (Hbase : flag_inputs_numeric
            (update (update (update (update ∅
               (FeatureExtractor._extract_account_metrics L now profile))
               activity_defaults)
               (FeatureExtractor._extract_content_features profile))
               (FeatureExtractor._extract_profile_features profile))).
  { repeat apply flags_update.
    - apply map_Forall_empty.
    - unfold FeatureExtractor._extract_account_metrics, FeatureExtractor.account_age_entry.
      repeat case_match; flag_entries.
    - unfold activity_defaults. flag_entries.
    - unfold FeatureExtractor._extract_content_features.
      destruct (concat _); apply flags_update; flag_entries.
    - unfold FeatureExtractor._extract_profile_features, FeatureExtractor.flag.
      destruct (Str.truthy _); apply map_Forall_insert_2;
        try (unfold flag_input; intros _; reflexivity);
        apply flags_update; flag_entries. }
  repeat match goal with |- context [if ?b then _ else _] => destruct b end;
    first [ exact Hbase | apply flags_update; [exact Hbase|] ];
    unfold FeatureExtractor._extract_twitter_features,
      FeatureExtractor._extract_instagram_features,
      FeatureExtractor._extract_facebook_features, FeatureExtractor.flag; flag_entries.
Qed.

(** The merged feature map never makes the heuristic or the indicators
    raise: what they read are numbers. *)
Lemma combined_flag_inputs L clock profile combined :
  combined_features L clock profile = Ok combined → flag_inputs_numeric combined.
Proof.
  unfold combined_features.
  destruct (FeatureExtractor.extract_features L (now_features clock) profile)
    as [features|e] eqn:E; [|done].
  simpl. intros [= <-].
  repeat apply flags_update;
    eauto using extract_flag_inputs, content_flag_inputs, activity_flag_inputs,
                image_flag_inputs, network_flag_inputs.
Qed.




End Returns.

(** ** Two analyses of one profile *)

Section Determinism.

Import Detector.

Lemma extract_features_clock L n1 n2 profile :
  FeatureExtractor.account_age_entry L n1 (Profile.creation_date profile)
  = FeatureExtractor.account_age_entry L n2 (Profile.creation_date profile) →
  FeatureExtractor.extract_features L n1 profile
  = FeatureExtractor.extract_features L n2 profile.
Proof.
  intros H. unfold FeatureExtractor.extract_features, FeatureExtractor._extract_account_metrics.
  by rewrite H.
Qed.

Lemma activity_analyze_clock L n1 n2 profile :
  ActivityAnalyzer.account_age L n1 (Profile.creation_date profile)
  = ActivityAnalyzer.account_age L n2 (Profile.creation_date profile) →
  ActivityAnalyzer.analyze L n1 profile = ActivityAnalyzer.analyze L n2 profile.
Proof. intros H. unfold ActivityAnalyzer.analyze. by rewrite H. Qed.

Lemma analyze_profile_timestamp L clock model profile r :
  analyze_profile L clock model profile = Ok r → timestamp r = now_result clock.
Proof.
  unfold analyze_profile.
  destruct (combined_features L clock profile) as [combined|e]; simpl; [|done].
  destruct (decide_fake model combined) as [[[p f] importance]|e]; simpl; [|done].
  destruct (_identify_suspicious_indicators combined importance) as [inds|e]; simpl; [|done].
  by intros [= <-].
Qed.

(** C7, as the code has it.  The result is a function of the profile, the
    classifier and the clock.  Its time stamp is the clock reading of the
    analysis.  Two analyses of one profile with one classifier agree on
    every other field whenever the account age in days that the feature
    extractor and the activity analyzer compute is the same at both
    times. *)
Theorem C7_same_result_up_to_clock
    (L : PyLib) (model : option Classifier) (profile : Profile.t) (c1 c2 : Clock) :
  FeatureExtractor.account_age_entry L (now_features c1) (Profile.creation_date profile)
  = FeatureExtractor.account_age_entry L (now_features c2) (Profile.creation_date profile) →
  ActivityAnalyzer.account_age L (now_activity c1) (Profile.creation_date profile)
  = ActivityAnalyzer.account_age L (now_activity c2) (Profile.creation_date profile) →
  without_timestamp (analyze_profile L c1 model profile)
  = without_timestamp (analyze_profile L c2 model profile)
  ∧ (∀ r, analyze_profile L c1 model profile = Ok r → timestamp r = now_result c1)
  ∧ (∀ r, analyze_profile L c2 model profile = Ok r → timestamp r = now_result c2).
Proof.
  intros Hf Ha. split; [|split; intros r; apply analyze_profile_timestamp].
  unfold analyze_profile, combined_features.
  rewrite (extract_features_clock L _ _ profile Hf), (activity_analyze_clock L _ _ profile Ha).
  destruct (FeatureExtractor.extract_features L (now_features c2) profile) as [features|e];
    simpl; [|done].
  destruct (decide_fake model _) as [[[p f] importance]|e]; simpl; [|done].
  destruct (_identify_suspicious_indicators _ importance) as [inds|e]; simpl; done.
Qed.

Lemma C7_same_result_up_to_clock_witness :
  returns (analyze_profile RefLib.lib (clock_at (instant "2024-03-01T09:00:00")) None
             dated_profile) = true
  ∧ without_timestamp
      (analyze_profile RefLib.lib (clock_at (instant "2024-03-01T09:00:00")) None dated_profile)
    = without_timestamp
        (analyze_profile RefLib.lib (clock_at (instant "2024-03-01T21:30:00")) None
           dated_profile).
Proof.
  split; [vm_compute; reflexivity|].
  apply (C7_same_result_up_to_clock RefLib.lib None dated_profile
           (clock_at (instant "2024-03-01T09:00:00"))
           (clock_at (instant "2024-03-01T21:30:00")));
    vm_compute; reflexivity.
Defined.

(** C7 as stated fails: the same profile analysed at two instants, with
    no classifier both times, gives two results.  They differ in the time
    stamp; and when the account turns thirty days old in between, they
    differ in the probability and in the indicators as well. *)
Lemma C7_counterexample :
  timestamp <$> analyze_profile RefLib.lib (clock_at 0%Z) None empty_profile = Ok 0%Z
  ∧ timestamp <$> analyze_profile RefLib.lib (clock_at 1%Z) None empty_profile = Ok 1%Z
  ∧ analyze_profile RefLib.lib (clock_at 0%Z) None empty_profile
    ≠ analyze_profile RefLib.lib (clock_at 1%Z) None empty_profile
  ∧ (fun r => (Qred (probability r), length (indicators r)))
      <$> analyze_profile RefLib.lib (clock_at (instant "2024-01-15T12:00:00")) None
            dated_profile
    = Ok (8 # 15, 2%nat)
  ∧ (fun r => (Qred (probability r), length (indicators r)))
      <$> analyze_profile RefLib.lib (clock_at (instant "2024-03-01T12:00:00")) None
            dated_profile
    = Ok (41 # 90, 1%nat).
Proof.
  split; [vm_compute; reflexivity|]. split; [vm_compute; reflexivity|].
  split; [|split; vm_compute; reflexivity].
  intros H. apply (f_equal (fmap timestamp)) in H. vm_compute in H. discriminate.
Qed.

End Determinism.

(** ** Ranges of the scores *)

Section Scores.

Lemma size_list_to_set_le (l : list string) :
  (size (list_to_set l : gset string) ≤ length l)%nat.
Proof.
  induction l as [|x l IH].
  - rewrite list_to_set_nil, size_empty. simpl. lia.
  - rewrite list_to_set_cons, size_union_alt, size_singleton. simpl.
    pose proof (subseteq_size (list_to_set l ∖ {[x]}) (list_to_set l : gset string)) as H.
    specialize (H (subseteq_difference_l _ _ _ (reflexivity _))). lia.
Qed.

Lemma content_diversity_unit texts :
  Num.in_unit (ContentAnalyzer._calculate_content_diversity texts).
Proof.
  unfold ContentAnalyzer._calculate_content_diversity.
  destruct texts as [|t texts]; [unfold Num.in_unit; lra|].
  destruct (ContentAnalyzer.all_tokens (t :: texts)) as [|w ws] eqn:E; [unfold Num.in_unit; lra|].
  rewrite <- E. destruct (length _ =? 0)%nat eqn:El; [unfold Num.in_unit; lra|].
  apply Nat.eqb_neq in El.
  set (u := size _). set (n := length (ContentAnalyzer.all_tokens _)) in *.
  set (m := length (t :: texts)).
  assert (Hu : (u ≤ n)%nat) by apply size_list_to_set_le.
  assert (Httr : Num.in_unit (Num.of_nat u / Num.of_nat n)).
  { apply div_unit; [apply of_nat_pos; lia | apply of_nat_nonneg | by apply of_nat_le]. }
  assert (Hf : 0 <= 1 / (1 + Num.of_nat m) ∧ 1 / (1 + Num.of_nat m) <= 1).
  { pose proof (of_nat_nonneg m). apply div_between; lra. }
  destruct Httr as [H0 H1]. destruct Hf as [Hf0 Hf1]. unfold Num.in_unit. split; nra.
Qed.

Lemma sentiment_unit texts : Num.in_unit (ContentAnalyzer._analyze_sentiment texts).
Proof. apply C9_sentiment_formula_and_range. Qed.

Lemma suspicious_score_unit sentiment diversity spam_matches keyword_ratio post_count :
  Num.in_unit sentiment → Num.in_unit diversity → 0 <= keyword_ratio →
  Num.in_unit (ContentAnalyzer._calculate_suspicious_score sentiment diversity spam_matches
                 keyword_ratio post_count).
Proof.
  intros [Hs0 Hs1] [Hd0 Hd1] Hk. unfold ContentAnalyzer._calculate_suspicious_score.
  assert (Habs : 0 <= Qabs (sentiment - 0.5) ∧ Qabs (sentiment - 0.5) <= 1 # 2).
  { split; [apply Qabs_nonneg|]. apply Qabs_Qle_condition. split; lra. }
  assert (Hspam : Num.in_unit
                    (if (0 <? post_count)%nat
                     then Num.min 1 (Num.of_nat spam_matches / Num.of_nat post_count)
                     else 0)).
  { destruct (0 <? post_count)%nat eqn:E; [|unfold Num.in_unit; lra].
    apply Nat.ltb_lt in E. apply min1_unit.
    apply Qle_shift_div_l; [by apply of_nat_pos|]. rewrite Qmult_0_l. apply of_nat_nonneg. }
  assert (Hkw : Num.in_unit (Num.min 1 (keyword_ratio * 10))).
  { apply min1_unit. lra. }
  destruct Habs as [Ha0 Ha1], Hspam as [Hp0 Hp1], Hkw as [Hk0 Hk1].
  unfold Num.in_unit. lra.
Qed.

Ltac not_a_score :=
  let H := fresh in
  unfold score_entry; intros H; exfalso; revert H;
  apply (bool_decide_unpack _); vm_compute; exact I.

Ltac a_score := unfold score_entry; intros _; eexists; split; [reflexivity|].

Ltac map_entries := unfold scores_in_unit; map_forall_entries; try not_a_score.

Lemma unit_half : Num.in_unit 0.5. Proof. unfold Num.in_unit. lra. Qed.
Lemma unit_one : Num.in_unit 1. Proof. unfold Num.in_unit. lra. Qed.
Lemma unit_zero : Num.in_unit 0. Proof. unfold Num.in_unit. lra. Qed.

Lemma content_neutral_scores : scores_in_unit ContentAnalyzer.neutral.
Proof.
  unfold ContentAnalyzer.neutral. map_entries;
    a_score; first [apply unit_half | apply unit_one | apply unit_zero].
Qed.

Lemma content_scores L profile : scores_in_unit (ContentAnalyzer.analyze L profile).
Proof.
  unfold ContentAnalyzer.analyze.
  destruct (Profile.posts profile) as [|p posts]; [apply content_neutral_scores|].
  destruct (List.filter _ _) as [|t texts]; [apply content_neutral_scores|].
  map_entries; a_score.
  - apply sentiment_unit.
  - apply content_diversity_unit.
  - apply suspicious_score_unit; [apply sentiment_unit | apply content_diversity_unit |].
    destruct (0 <? _)%nat eqn:E; [|lra]. apply Nat.ltb_lt in E.
    apply Qle_shift_div_l; [by apply of_nat_pos|]. rewrite Qmult_0_l. apply of_nat_nonneg.
Qed.

Lemma engagement_rate_unit L posts :
  PyLibLaws L → Num.in_unit (ActivityAnalyzer._calculate_engagement_rate L posts).
Proof.
  intros HL. unfold ActivityAnalyzer._calculate_engagement_rate.
  destruct (length posts =? 0)%nat; [apply unit_zero|].
  set (e := np_exp L _). assert (0 <= e) by apply (np_exp_nonneg L HL).
  apply div_unit; lra.
Qed.

Lemma posting_regularity_unit L timestamps :
  Num.in_unit (ActivityAnalyzer._analyze_posting_regularity L timestamps).
Proof.
  unfold ActivityAnalyzer._analyze_posting_regularity.
  destruct (length timestamps <? 2)%nat; [apply unit_half|].
  destruct (Num.eqb _ 0); [apply unit_one|apply clamp_unit].
Qed.

Lemma sum_nat_acc {A} (f : A → nat) xs : ∀ acc,
  fold_left (fun acc x => (acc + f x)%nat) xs acc = (acc + sum_nat f xs)%nat.
Proof.
  unfold sum_nat. induction xs as [|x xs IH]; intros acc; simpl; [lia|].
  rewrite IH, (IH (f x)). lia.
Qed.

Lemma sum_nat_cons {A} (f : A → nat) x xs :
  sum_nat f (x :: xs) = (f x + sum_nat f xs)%nat.
Proof. unfold sum_nat at 1. simpl. apply sum_nat_acc. Qed.

(** A value is counted in at most one of the hours of a list without
    repetition. *)
Lemma hits_le_1 (x : nat) (hs : list nat) :
  NoDup hs → (sum_nat (fun h => if (x =? h)%nat then 1 else 0)%nat hs ≤ 1)%nat.
Proof.
  induction 1 as [|h hs Hnotin _ IH]; [unfold sum_nat; simpl; lia|].
  rewrite sum_nat_cons. destruct (x =? h)%nat eqn:E; [|lia].
  apply Nat.eqb_eq in E. subst h.
  assert (Hz : sum_nat (fun h => if (x =? h)%nat then 1 else 0)%nat hs = 0%nat).
  { clear IH. induction hs as [|h hs IH]; [reflexivity|].
    rewrite sum_nat_cons. apply not_elem_of_cons in Hnotin as [Hne Hnotin].
    rewrite (proj2 (Nat.eqb_neq x h) Hne). by apply IH. }
  lia.
Qed.

Lemma hour_counts_le hours (hs : list nat) :
  NoDup hs →
  (sum_nat (ActivityAnalyzer.hour_count hours) hs ≤ length hours)%nat.
Proof.
  intros Hnd. induction hours as [|x hours IH].
  - clear Hnd. induction hs as [|h hs IHh]; [reflexivity|].
    rewrite sum_nat_cons. etransitivity; [|exact IHh].
    unfold ActivityAnalyzer.hour_count at 1, count_if. simpl. lia.
  - assert (Hsplit : sum_nat (ActivityAnalyzer.hour_count (x :: hours)) hs
                     = (sum_nat (fun h => if (x =? h)%nat then 1 else 0)%nat hs
                        + sum_nat (ActivityAnalyzer.hour_count hours) hs)%nat).
    { clear. induction hs as [|h hs IH]; [reflexivity|].
      rewrite !sum_nat_cons, IH. unfold ActivityAnalyzer.hour_count, count_if. simpl.
      destruct (x =? h)%nat; simpl; lia. }
    rewrite Hsplit. pose proof (hits_le_1 x hs Hnd). simpl. lia.
Qed.

Lemma sum_nat_map {A B} (f : B → nat) (g : A → B) xs :
  sum_nat (fun x => f (g x)) xs = sum_nat f (List.map g xs).
Proof.
  induction xs as [|x xs IH]; [reflexivity|]. simpl. by rewrite !sum_nat_cons, IH.
Qed.

Lemma windows_nodup :
  Forall (fun start_hour => NoDup (List.map (fun h => h mod 24)%nat (seq start_hour 8)))
         (seq 0 24).
Proof. apply (bool_decide_unpack _). vm_compute. exact I. Qed.

Lemma max_window_posts_le hours :
  (ActivityAnalyzer.max_window_posts hours ≤ length hours)%nat.
Proof.
  unfold ActivityAnalyzer.max_window_posts.
  assert (Hgen : ∀ starts acc,
            Forall (fun s => NoDup (List.map (fun h => h mod 24)%nat (seq s 8))) starts →
            (acc ≤ length hours)%nat →
            (fold_left (fun acc s => Nat.max acc (ActivityAnalyzer.posts_in_window hours s))
                       starts acc ≤ length hours)%nat).
  { induction starts as [|s starts IH]; intros acc Hnd Hacc; [done|].
    apply Forall_cons in Hnd as [Hs Hnd]. simpl. apply IH; [done|].
    apply Nat.max_lub; [done|]. unfold ActivityAnalyzer.posts_in_window.
    rewrite (sum_nat_map (ActivityAnalyzer.hour_count hours) (fun h => h mod 24)%nat).
    by apply hour_counts_le. }
  apply Hgen; [apply windows_nodup|lia].
Qed.

Lemma time_zone_consistency_unit timestamps :
  Num.in_unit (ActivityAnalyzer._analyze_time_zone_consistency timestamps).
Proof.
  unfold ActivityAnalyzer._analyze_time_zone_consistency.
  destruct (length timestamps <? 5)%nat eqn:E; [apply unit_half|].
  apply Nat.ltb_ge in E. rewrite length_map.
  apply div_unit.
  - apply of_nat_pos. lia.
  - apply of_nat_nonneg.
  - apply of_nat_le. pose proof (max_window_posts_le (List.map Time.hour timestamps)) as H.
    by rewrite length_map in H.
Qed.

Lemma min1_quotient_unit a d : 0 <= a → 0 < d → Num.in_unit (Num.min 1 (a / d)).
Proof.
  intros Ha Hd. apply min1_unit. apply Qle_shift_div_l; [done|]. lra.
Qed.

Lemma activity_score_unit age ppd regularity engagement consistency bursts :
  Num.in_unit regularity → 0 <= bursts →
  Num.in_unit (ActivityAnalyzer._calculate_activity_score age ppd regularity engagement
                 consistency bursts).
Proof.
  intros [Hr0 Hr1] Hb. unfold ActivityAnalyzer._calculate_activity_score.
  pose proof (clamp_unit (1 - age / 180)) as [Ha0 Ha1].
  pose proof (clamp_unit (1 - engagement * 10)) as [He0 He1].
  pose proof (clamp_unit (1 - consistency)) as [Ht0 Ht1].
  assert (Hburst : Num.in_unit (Num.min 1 (bursts / 5))) by (apply min1_quotient_unit; lra).
  destruct Hburst as [Hb0 Hb1].
  assert (Hfreq : Num.in_unit
            (if ppd >? 15 then Num.min 1 ((ppd - 15) / 10)
             else if ppd <? 0.05 then Num.min 1 ((0.05 - ppd) / 0.05) else 0)).
  { destruct (ppd >? 15) eqn:E1.
    - apply ltb_true in E1. apply min1_quotient_unit; lra.
    - destruct (ppd <? 0.05) eqn:E2; [|apply unit_zero].
      apply ltb_true in E2. apply min1_quotient_unit; lra. }
  destruct Hfreq as [Hf0 Hf1].
  assert (Hreg : Num.in_unit (if regularity >? 0.8 then regularity else 0)).
  { destruct (regularity >? 0.8); [done|apply unit_zero]. }
  destruct Hreg as [Hg0 Hg1].
  unfold Num.in_unit. lra.
Qed.

Lemma activity_scores L now profile :
  PyLibLaws L → scores_in_unit (ActivityAnalyzer.analyze L now profile).
Proof.
  intros HL. unfold ActivityAnalyzer.analyze.
  destruct (Profile.posts profile) as [|p posts].
  { map_entries; a_score; first [apply unit_half | apply unit_zero]. }
  set (ts := post_timestamps L (p :: posts)).
  assert (Hreg : Num.in_unit
            (match ts with
             | _ :: _ => ActivityAnalyzer._analyze_posting_regularity L ts
             | [] => 0.5 end)).
  { destruct ts; [apply unit_half|apply posting_regularity_unit]. }
  assert (Htz : Num.in_unit
            (match ts with
             | _ :: _ => ActivityAnalyzer._analyze_time_zone_consistency ts
             | [] => 0.5 end)).
  { destruct ts; [apply unit_half|apply time_zone_consistency_unit]. }
  destruct ts as [|t ts']; map_entries; a_score;
    first [ done
          | by apply engagement_rate_unit
          | apply activity_score_unit; [done | apply of_nat_nonneg] ].
Qed.

Lemma profile_pic_score_unit is_default is_stock is_ai quality :
  quality <= 1 →
  Num.in_unit (ImageAnalyzer._calculate_profile_pic_score is_default is_stock is_ai quality).
Proof.
  intros Hq. unfold ImageAnalyzer._calculate_profile_pic_score.
  apply min1_unit. destruct is_default, is_stock, is_ai; lra.
Qed.

Lemma quality_score_le_1 L url :
  PyLibLaws L → ImageAnalyzer._simulate_quality_score L url <= 1.
Proof.
  intros HL. unfold ImageAnalyzer._simulate_quality_score.
  destruct (random_range L HL (ImageAnalyzer.url_seed L url)) as [H0 H1]. lra.
Qed.

Lemma image_scores L profile :
  PyLibLaws L → scores_in_unit (ImageAnalyzer.analyze L profile).
Proof.
  intros HL. unfold ImageAnalyzer.analyze.
  destruct (Profile.profile_pic_url profile) as [url|];
    [destruct (Str.truthy url)|]; try (map_entries; a_score; apply unit_half).
  unfold ImageAnalyzer._analyze_image.
  destruct (ImageAnalyzer._is_default_profile_picture L url); simpl;
    map_entries; a_score; apply profile_pic_score_unit;
    first [by apply quality_score_le_1 | lra].
Qed.

Lemma size_inter_l (X Y : gset string) : (size (X ∩ Y) ≤ size X)%nat.
Proof. apply subseteq_size, intersection_subseteq_l. Qed.

Lemma size_inter_r (X Y : gset string) : (size (X ∩ Y) ≤ size Y)%nat.
Proof. apply subseteq_size, intersection_subseteq_r. Qed.

Lemma ratio_unit (a d : nat) :
  (a ≤ d)%nat → Num.in_unit (if (0 <? d)%nat then Num.of_nat a / Num.of_nat d else 0).
Proof.
  intros Hle. destruct (0 <? d)%nat eqn:E; [|apply unit_zero]. apply Nat.ltb_lt in E.
  apply div_unit; [by apply of_nat_pos | apply of_nat_nonneg | by apply of_nat_le].
Qed.

Lemma mutual_ratio_unit followers following :
  Num.in_unit (mutual_ratio followers following).
Proof.
  unfold mutual_ratio. destruct (size _ =? 0)%nat eqn:E; [apply unit_half|].
  apply Nat.eqb_neq in E.
  apply div_unit; [apply of_nat_pos; lia | apply of_nat_nonneg | apply of_nat_le, size_inter_r].
Qed.

Lemma network_isolation_unit followers following interactions followers_count following_count :
  Num.in_unit (NetworkAnalyzer._calculate_network_isolation followers following interactions
                 followers_count following_count).
Proof.
  unfold NetworkAnalyzer._calculate_network_isolation.
  pose proof (ratio_unit _ _ (size_inter_l (NetworkAnalyzer.id_set followers)
                                (NetworkAnalyzer.id_set interactions))) as [Hf0 Hf1].
  pose proof (ratio_unit _ _ (size_inter_r (NetworkAnalyzer.id_set followers)
                                (NetworkAnalyzer.id_set following))) as [Hm0 Hm1].
  unfold Num.in_unit. lra.
Qed.

Lemma isolation_from_counts_unit followers_count following_count :
  Num.in_unit (NetworkAnalyzer._estimate_isolation_from_counts followers_count following_count).
Proof.
  unfold NetworkAnalyzer._estimate_isolation_from_counts, Num.in_unit.
  repeat match goal with |- context [if ?b then _ else _] => destruct b end; lra.
Qed.

Lemma clustering_unit followers following interactions :
  Num.in_unit (NetworkAnalyzer._estimate_clustering followers following interactions).
Proof.
  unfold NetworkAnalyzer._estimate_clustering.
  set (A := NetworkAnalyzer.id_set followers). set (B := NetworkAnalyzer.id_set following).
  set (C := NetworkAnalyzer.id_set interactions).
  destruct (_ =? 0)%nat eqn:E; [apply unit_half|]. apply Nat.eqb_neq in E.
  pose proof (size_inter_l A B). pose proof (size_inter_r A C). pose proof (size_inter_l B C).
  assert (Hraw : Num.in_unit
            (Num.of_nat (size (A ∩ B) + size (A ∩ C) + size (B ∩ C))
             / Num.of_nat (size A + size B + size C))).
  { apply div_unit; [apply of_nat_pos; lia | apply of_nat_nonneg | apply of_nat_le; lia]. }
  destruct Hraw as [Hraw0 Hraw1]. unfold Num.in_unit. lra.
Qed.

Lemma network_score_unit ratio isolation mutual clustering reciprocity
    followers_count following_count :
  Num.in_unit isolation → Num.in_unit mutual → Num.in_unit clustering →
  Num.in_unit reciprocity →
  Num.in_unit (NetworkAnalyzer._calculate_network_score ratio isolation mutual clustering
                 reciprocity followers_count following_count).
Proof.
  intros [Hi0 Hi1] [Hm0 Hm1] [Hc0 Hc1] [Hr0 Hr1].
  unfold NetworkAnalyzer._calculate_network_score. apply min1_unit.
  repeat match goal with |- context [if ?b then _ else _] => destruct b end; lra.
Qed.

Lemma network_scores profile : scores_in_unit (NetworkAnalyzer.analyze profile).
Proof.
  unfold NetworkAnalyzer.analyze.
  set (followers := Profile.followers profile). set (following := Profile.following profile).
  set (interactions := Profile.interactions profile).
  assert (Hiso : Num.in_unit
            (if NetworkAnalyzer.nonempty followers || NetworkAnalyzer.nonempty following
                || NetworkAnalyzer.nonempty interactions
             then NetworkAnalyzer._calculate_network_isolation followers following interactions
                    (default 0%Z (Profile.followers_count profile))
                    (default 0%Z (Profile.following_count profile))
             else NetworkAnalyzer._estimate_isolation_from_counts
                    (default 0%Z (Profile.followers_count profile))
                    (default 0%Z (Profile.following_count profile)))).
  { destruct (_ || _); [apply network_isolation_unit|apply isolation_from_counts_unit]. }
  destruct (NetworkAnalyzer.nonempty followers && NetworkAnalyzer.nonempty following);
    map_entries; a_score;
    first [ done | apply unit_half | apply mutual_ratio_unit | apply clustering_unit
          | apply network_score_unit;
            first [ done | apply unit_half | apply mutual_ratio_unit | apply clustering_unit ] ].
Qed.

Lemma scores_update a b :
  scores_in_unit a → scores_in_unit b → scores_in_unit (update a b).
Proof.
  intros Ha Hb k v Hk. unfold update in Hk.
  apply lookup_union_Some_raw in Hk as [Hk|[_ Hk]]; [by apply Hb|by apply Ha].
Qed.

Lemma scores_empty : scores_in_unit ∅.
Proof. apply map_Forall_empty. Qed.

Lemma account_metrics_scores L now profile :
  scores_in_unit (FeatureExtractor._extract_account_metrics L now profile).
Proof.
  unfold FeatureExtractor._extract_account_metrics, FeatureExtractor.account_age_entry.
  repeat case_match; map_entries.
Qed.

Lemma activity_defaults_scores : scores_in_unit activity_defaults.
Proof. unfold activity_defaults. map_entries. a_score. apply unit_zero. Qed.

Lemma content_features_scores profile :
  scores_in_unit (FeatureExtractor._extract_content_features profile).
Proof.
  unfold FeatureExtractor._extract_content_features.
  destruct (concat _); apply scores_update; map_entries.
Qed.

Lemma profile_features_scores profile :
  scores_in_unit (FeatureExtractor._extract_profile_features profile).
Proof.
  unfold FeatureExtractor._extract_profile_features.
  destruct (Str.truthy _); apply map_Forall_insert_2; try not_a_score;
    apply scores_update; map_entries.
Qed.

Lemma extract_features_scores L now profile features :
  FeatureExtractor.extract_features L now profile = Ok features → scores_in_unit features.
Proof.
  unfold FeatureExtractor.extract_features.
  destruct (activity_features_cases L profile) as [[_ ->]|[_ ->]]; [|done].
  simpl. intros [= <-].
  assert (Hbase : scores_in_unit
            (update (update (update (update ∅
               (FeatureExtractor._extract_account_metrics L now profile))
               activity_defaults)
               (FeatureExtractor._extract_content_features profile))
               (FeatureExtractor._extract_profile_features profile))).
  { repeat apply scores_update;
      auto using scores_empty, account_metrics_scores, activity_defaults_scores,
                 content_features_scores, profile_features_scores. }
  repeat match goal with |- context [if ?b then _ else _] => destruct b end;
    first [ exact Hbase | apply scores_update; [exact Hbase|] ];
    unfold FeatureExtractor._extract_twitter_features,
      FeatureExtractor._extract_instagram_features,
      FeatureExtractor._extract_facebook_features; map_entries.
Qed.

Lemma combined_features_scores L clock profile combined :
  PyLibLaws L →
  Detector.combined_features L clock profile = Ok combined → scores_in_unit combined.
Proof.
  intros HL. unfold Detector.combined_features.
  destruct (FeatureExtractor.extract_features L (now_features clock) profile)
    as [features|e] eqn:E; [|done].
  simpl. intros [= <-].
  repeat apply scores_update;
    eauto using extract_features_scores, content_scores, activity_scores, image_scores,
                network_scores.
Qed.

Lemma heuristic_probability_unit flags : Num.in_unit (Detector.score_flags flags).1.1.
Proof.
  unfold Detector.score_flags. simpl.
  set (k := count_if snd flags). set (n := length flags).
  assert (Hk : (k ≤ n)%nat) by apply List.filter_length_le.
  assert (Hq : Num.in_unit (Num.of_nat k / Num.of_nat n)).
  { destruct (decide (n = 0)%nat) as [Hn|Hn].
    - assert (k = 0)%nat as -> by lia. rewrite Hn. vm_compute. split; discriminate.
    - apply div_unit; [apply of_nat_pos; lia | apply of_nat_nonneg | by apply of_nat_le]. }
  destruct Hq as [H0 H1].
  destruct (min_cases (0.3 + Num.of_nat k / Num.of_nat n * 0.7) 1) as [[? ->]|[? ->]];
    unfold Num.in_unit; lra.
Qed.

Lemma decide_fake_unit model combined p f importance :
  (∀ m, model = Some m → ∀ v, Num.in_unit (Detector.predict_proba m v)) →
  Detector.decide_fake model combined = Ok (p, f, importance) → Num.in_unit p.
Proof.
  intros Hm. unfold Detector.decide_fake. destruct model as [m|]; simpl.
  - intros [= <- _ _]. by apply Hm.
  - unfold Detector._heuristic_detection.
    destruct (Detector.red_flags combined) as [flags|e]; simpl; [|done].
    intros H. pose proof (heuristic_probability_unit flags) as Hu.
    destruct (Detector.score_flags flags) as [[p' f'] imp']. simpl in Hu. by injection H as <- _ _.
Qed.

Ltac each_key H :=
  repeat (apply elem_of_cons in H as [->|H]); [..|by apply elem_of_nil in H].

Lemma content_keys L profile k :
  k ∈ ["sentiment_score"; "content_diversity"; "suspicious_content_score"]%string →
  is_Some (ContentAnalyzer.analyze L profile !! k).
Proof.
  intros Hk. unfold ContentAnalyzer.analyze, ContentAnalyzer.neutral.
  destruct (Profile.posts profile); [|destruct (List.filter _ _)];
    each_key Hk; by simplify_map_eq.
Qed.

Lemma activity_keys L now profile k :
  k ∈ ["posting_regularity"; "time_zone_consistency"; "engagement_rate";
       "activity_score"]%string →
  is_Some (ActivityAnalyzer.analyze L now profile !! k).
Proof.
  intros Hk. unfold ActivityAnalyzer.analyze.
  destruct (Profile.posts profile); [|destruct (post_timestamps L _)];
    each_key Hk; by simplify_map_eq.
Qed.

Lemma image_keys L profile :
  is_Some (ImageAnalyzer.analyze L profile !! "profile_pic_score"%string).
Proof.
  unfold ImageAnalyzer.analyze.
  destruct (Profile.profile_pic_url profile) as [url|];
    [destruct (Str.truthy url)|]; try by simplify_map_eq.
  destruct (negb _); [destruct (ImageAnalyzer._analyze_image L url) as [[[? ?] ?] ?]|];
    by simplify_map_eq.
Qed.

Lemma network_keys profile k :
  k ∈ ["network_isolation_score"; "mutual_connection_ratio"; "clustering_coefficient";
       "reciprocity"; "network_score"]%string →
  is_Some (NetworkAnalyzer.analyze profile !! k).
Proof.
  intros Hk. unfold NetworkAnalyzer.analyze.
  destruct (NetworkAnalyzer.nonempty _ && NetworkAnalyzer.nonempty _);
    each_key Hk; by simplify_map_eq.
Qed.

Lemma is_Some_update_r a b k : is_Some (b !! k) → is_Some (update a b !! k).
Proof. intros [v Hv]. rewrite lookup_update, Hv. by eexists. Qed.

Lemma is_Some_update_l a b k : is_Some (a !! k) → is_Some (update a b !! k).
Proof. intros [v Hv]. rewrite lookup_update, Hv. destruct (b !! k); by eexists. Qed.

Lemma combined_features_keys L clock profile combined k :
  Detector.combined_features L clock profile = Ok combined →
  k ∈ score_keys → is_Some (combined !! k).
Proof.
  unfold Detector.combined_features.
  destruct (FeatureExtractor.extract_features L (now_features clock) profile)
    as [features|e]; [|done].
  simpl. intros [= <-] Hk. unfold score_keys in Hk.
  repeat (apply elem_of_cons in Hk as [->|Hk]); [..|by apply elem_of_nil in Hk].
  1-3: do 3 apply is_Some_update_l; apply is_Some_update_r, content_keys;
       rewrite !elem_of_cons; auto 10.
  1-4: do 2 apply is_Some_update_l; apply is_Some_update_r, activity_keys;
       rewrite !elem_of_cons; auto 10.
  1: apply is_Some_update_l, is_Some_update_r, image_keys.
  all: apply is_Some_update_r, network_keys; rewrite !elem_of_cons; auto 10.
Qed.

Lemma RefLib_laws : PyLibLaws RefLib.lib.
Proof.
  split.
  - intros x. simpl. unfold RefLib.np_exp.
    destruct (0 <=? x) eqn:E.
    + apply leb_true in E. assert (0 <= x * x) by nra.
      assert (x * x / 2 == x * x * (1 # 2)) by field. lra.
    + apply leb_false in E. assert (0 <= x * x) by nra.
      assert (x * x / 2 == x * x * (1 # 2)) by field. apply Qle_shift_div_l; lra.
  - intros s. simpl. unfold RefLib.random_after_seed.
    pose proof (Z.mod_pos_bound (s * 1103515245 + 12345) 2147483648 eq_refl) as [Hlo Hhi].
    set (r := ((s * 1103515245 + 12345) mod 2147483648)%Z) in *.
    assert (0 <= inject_Z r) by (change 0 with (inject_Z 0); by rewrite <- Zle_Qle).
    assert (inject_Z r < 2147483648)
      by (change 2147483648 with (inject_Z 2147483648); by rewrite <- Zlt_Qlt).
    split.
    + apply Qle_shift_div_l; lra.
    + apply Qlt_shift_div_r; lra.
Qed.

Import Detector.

(** C2.  With a library whose [exp] is never negative and whose random
    draws lie in [[0, 1)], and with a classifier (when there is one) that
    answers a probability, every score-valued field lies in [[0, 1]]: in
    the output of each of the four analyzers, in the output of the feature
    normalizer, and in the merged feature map, which holds every one of the
    thirteen score fields; and so does the final probability. *)
Theorem C2_scores_in_unit
    (L : PyLib) (clock : Clock) (model : option Classifier) (profile : Profile.t) :
  PyLibLaws L →
  (∀ m, model = Some m → ∀ v, Num.in_unit (predict_proba m v)) →
  scores_in_unit (ContentAnalyzer.analyze L profile)
  ∧ scores_in_unit (ActivityAnalyzer.analyze L (now_activity clock) profile)
  ∧ scores_in_unit (ImageAnalyzer.analyze L profile)
  ∧ scores_in_unit (NetworkAnalyzer.analyze profile)
  ∧ (∀ features, FeatureExtractor.extract_features L (now_features clock) profile = Ok features →
                 scores_in_unit features)
  ∧ (∀ combined, combined_features L clock profile = Ok combined →
                 scores_in_unit combined
                 ∧ ∀ k, k ∈ score_keys → is_Some (combined !! k))
  ∧ (∀ r, analyze_profile L clock model profile = Ok r → Num.in_unit (probability r)).
Proof.
  intros HL Hmodel.
  split; [apply content_scores|]. split; [by apply activity_scores|].
  split; [by apply image_scores|]. split; [apply network_scores|].
  split; [intros features; apply extract_features_scores|].
  split.
  - intros combined Hc. split; [by eapply combined_features_scores|].
    intros k. by eapply combined_features_keys.
  - intros r. unfold analyze_profile.
    destruct (combined_features L clock profile) as [combined|e]; simpl; [|done].
    destruct (decide_fake model combined) as [[[p f] importance]|e] eqn:Hd; simpl; [|done].
    destruct (_identify_suspicious_indicators combined importance) as [inds|e]; simpl; [|done].
    intros [= <-]. simpl. by eapply decide_fake_unit.
Qed.

Lemma C2_scores_in_unit_witness :
  PyLibLaws RefLib.lib
  ∧ returns (analyze_profile RefLib.lib noon None lively_profile) = true
  ∧ match analyze_profile RefLib.lib noon None lively_profile with
    | Ok r => Num.in_unit (probability r)
    | Raise _ => False
    end.
Proof.
  split; [exact RefLib_laws|].
  assert (Hok : returns (analyze_profile RefLib.lib noon None lively_profile) = true).
  { vm_compute. reflexivity. }
  split; [exact Hok|].
  destruct (analyze_profile RefLib.lib noon None lively_profile) as [r|e] eqn:E;
    [|discriminate Hok].
  refine (proj2 (proj2 (proj2 (proj2 (proj2 (proj2
            (C2_scores_in_unit RefLib.lib noon None lively_profile RefLib_laws _)))))) r E).
  intros m Hm. discriminate Hm.
Defined.

End Scores.

(** ** The heuristic verdict, the indicators and the recommendations *)

Section Verdict.

Import Detector.

Lemma red_flags_shape features flags :
  red_flags features = Ok flags →
  ∃ b1 b2 b3 b4 b5 b6 b7 b8 b9 : bool,
    flags = [("new_account"%string, b1); ("high_following_ratio"%string, b2);
             ("excessive_posting"%string, b3); ("suspicious_profile_pic"%string, b4);
             ("low_engagement"%string, b5); ("suspicious_content"%string, b6);
             ("isolated_network"%string, b7); ("duplicate_content"%string, b8);
             ("no_bio"%string, b9)]
    ∧ _identify_suspicious_indicators features ∅
      = Ok ((if b1 then [indicator "New Account" "Account was created recently" "medium"]
             else [])
            ++ (if b2
                then [indicator "Following/Follower Imbalance"
                        "Account follows many users but has few followers" "high"]
                else [])
            ++ (if b3
                then [indicator "Excessive Posting"
                        "Account posts with unusually high frequency" "medium"]
                else [])
            ++ (if b4
                then [indicator "Suspicious Profile Picture"
                        "Profile picture shows signs of being AI-generated or stock photo"
                        "high"]
                else [])
            ++ (if b5
                then [indicator "Low Engagement"
                        "Posts receive very little engagement relative to follower count"
                        "medium"]
                else [])
            ++ (if b8
                then [indicator "Repetitive Content"
                        "Account posts very similar content repeatedly" "medium"]
                else [])
            ++ (if b6
                then [indicator "Suspicious Content"
                        "Content contains patterns associated with fake accounts" "high"]
                else [])
            ++ (if b7
                then [indicator "Isolated Network"
                        "Account has minimal interaction with legitimate accounts" "high"]
                else [])).
Proof.
  unfold red_flags, _identify_suspicious_indicators.
  destruct (get_num features "account_age_days" 365) as [x1|]; [|done].
  destruct (get_num features "followers_to_following_ratio" 1) as [x2|]; [|done].
  destruct (get_num features "posts_per_day" 2) as [x3|]; [|done].
  destruct (get_num features "profile_pic_score" 0) as [x4|]; [|done].
  destruct (get_num features "engagement_rate" 0.05) as [x5|]; [|done].
  destruct (get_num features "suspicious_content_score" 0) as [x6|]; [|done].
  destruct (get_num features "network_isolation_score" 0) as [x7|]; [|done].
  destruct (get_num features "content_diversity" 1) as [x8|]; [|done].
  destruct (get_num features "bio_length" 10) as [x9|]; [|done].
  simpl. intros [= <-]. by eexists _, _, _, _, _, _, _, _, _.
Qed.

Lemma indicators_ignore_importance features importance :
  _identify_suspicious_indicators features importance
  = _identify_suspicious_indicators features ∅.
Proof. reflexivity. Qed.

Lemma count_if_le_length {A} (p : A → bool) xs : (count_if p xs ≤ length xs)%nat.
Proof.
  unfold count_if. induction xs as [|x xs IH]; simpl; [lia|]. destruct (p x); simpl; lia.
Qed.

Lemma count_if_cons {A} (p : A → bool) x xs :
  count_if p (x :: xs) = (Nat.b2n (p x) + count_if p xs)%nat.
Proof. unfold count_if. simpl. by destruct (p x). Qed.

(** What the second half of the heuristic makes of [k] triggered flags
    out of nine. *)
Lemma nine_flags_probability (k : nat) :
  (k ≤ 9)%nat →
  let probability := Num.min (0.3 + (Num.of_nat k / Num.of_nat 9) * 0.7) 1 in
  probability == 0.3 + Num.of_nat k * (7 # 90)
  ∧ (probability >=? 0.7) = (6 <=? k)%nat
  ∧ (probability >? 0.9) = (8 <=? k)%nat
  ∧ (probability >? 0.4) = (2 <=? k)%nat.
Proof.
  intros Hk. do 10 (destruct k as [|k]; [by vm_compute|]). lia.
Qed.

(** X1.  The heuristic calls a profile fake exactly when at least six of
    its nine red flags are triggered; its probability is
    [0.3 + 7k/90] for [k] triggered flags, which the cap at 1 never
    changes. *)
Theorem heuristic_fake_from_six_flags (features : gmap string value)
    (flags : list (string * bool)) :
  red_flags features = Ok flags →
  (count_if snd flags ≤ 9)%nat
  ∧ ∃ probability importance,
      _heuristic_detection features
      = Ok (probability, (6 <=? count_if snd flags)%nat, importance)
      ∧ probability == 0.3 + Num.of_nat (count_if snd flags) * (7 # 90).
Proof.
  intros Hflags. unfold _heuristic_detection. rewrite Hflags. simpl.
  assert (Hlen : length flags = 9%nat).
  { by apply red_flags_shape in Hflags
      as (b1 & b2 & b3 & b4 & b5 & b6 & b7 & b8 & b9 & -> & _). }
  pose proof (count_if_le_length snd flags) as Hk. rewrite Hlen in Hk.
  split; [exact Hk|].
  destruct (nine_flags_probability _ Hk) as (Hp & Hf & _).
  unfold score_flags. rewrite Hlen, Hf. by eexists _, _.
Qed.

Lemma heuristic_fake_from_six_flags_witness :
  red_flags young_features
  = Ok [("new_account"%string, true); ("high_following_ratio"%string, true);
        ("excessive_posting"%string, true); ("suspicious_profile_pic"%string, false);
        ("low_engagement"%string, false); ("suspicious_content"%string, false);
        ("isolated_network"%string, false); ("duplicate_content"%string, false);
        ("no_bio"%string, true)]
  ∧ ∃ probability importance,
      _heuristic_detection young_features = Ok (probability, false, importance)
      ∧ probability == 0.3 + 4 * (7 # 90).
Proof.
  assert (H : red_flags young_features
              = Ok [("new_account"%string, true); ("high_following_ratio"%string, true);
                    ("excessive_posting"%string, true);
                    ("suspicious_profile_pic"%string, false);
                    ("low_engagement"%string, false); ("suspicious_content"%string, false);
                    ("isolated_network"%string, false); ("duplicate_content"%string, false);
                    ("no_bio"%string, true)]).
  { vm_compute. reflexivity. }
  split; [exact H|].
  exact (proj2 (heuristic_fake_from_six_flags young_features _ H)).
Defined.

Lemma has_indicator_app n l1 l2 :
  has_indicator n (l1 ++ l2) = has_indicator n l1 || has_indicator n l2.
Proof. apply existsb_app. Qed.

Lemma has_indicator_if n (b : bool) i :
  has_indicator n (if b then [i] else []) = b && String.eqb (name i) n.
Proof. destruct b; simpl; [apply orb_false_r|reflexivity]. Qed.

Lemma length_if (b : bool) (i : Indicator) :
  length (if b then [i] else []) = Nat.b2n b.
Proof. by destruct b. Qed.

(** X2.  An indicator is listed exactly when the red flag on the same
    feature is triggered, and [no_bio] is the one flag without an
    indicator: the indicators are the triggered flags less that one. *)
Theorem indicators_follow_flags (features : gmap string value) (importance : gmap string Q)
    (flags : list (string * bool)) :
  red_flags features = Ok flags →
  ∃ indicators,
    _identify_suspicious_indicators features importance = Ok indicators
    ∧ (∀ flag_name indicator_name is_triggered,
         (flag_name, indicator_name) ∈ flag_indicators →
         (flag_name, is_triggered) ∈ flags →
         has_indicator indicator_name indicators = is_triggered)
    ∧ (∀ no_bio, ("no_bio"%string, no_bio) ∈ flags →
         (length indicators + (if no_bio : bool then 1 else 0) = count_if snd flags)%nat).
Proof.
  intros Hflags. rewrite indicators_ignore_importance.
  apply red_flags_shape in Hflags
    as (b1 & b2 & b3 & b4 & b5 & b6 & b7 & b8 & b9 & -> & ->).
  eexists. split; [reflexivity|]. split.
  - intros flag_name indicator_name is_triggered Hfi Hfl.
    unfold flag_indicators in Hfi.
    repeat (apply elem_of_cons in Hfi as [Hfi|Hfi]; [injection Hfi as -> ->|]);
      [..|by apply elem_of_nil in Hfi];
      repeat (apply elem_of_cons in Hfl as [Hfl|Hfl]; [try discriminate Hfl|]);
      try (by apply elem_of_nil in Hfl);
      injection Hfl as ->;
      rewrite !has_indicator_app, !has_indicator_if; simpl;
      by rewrite ?andb_false_r, ?andb_true_r, ?orb_false_r.
  - intros no_bio Hfl.
    repeat (apply elem_of_cons in Hfl as [Hfl|Hfl]; [try discriminate Hfl|]);
      try (by apply elem_of_nil in Hfl).
    injection Hfl as ->.
    rewrite !length_app, !length_if, !count_if_cons. simpl.
    change (count_if snd []) with 0%nat. destruct b9; simpl; lia.
Qed.

Lemma indicators_follow_flags_witness :
  ∃ indicators,
    _identify_suspicious_indicators young_features ∅ = Ok indicators
    ∧ has_indicator "New Account" indicators = true
    ∧ has_indicator "Low Engagement" indicators = false
    ∧ length indicators = 3%nat.
Proof.
  assert (H : red_flags young_features
              = Ok [("new_account"%string, true); ("high_following_ratio"%string, true);
                    ("excessive_posting"%string, true);
                    ("suspicious_profile_pic"%string, false);
                    ("low_engagement"%string, false); ("suspicious_content"%string, false);
                    ("isolated_network"%string, false); ("duplicate_content"%string, false);
                    ("no_bio"%string, true)]).
  { vm_compute. reflexivity. }
  destruct (indicators_follow_flags young_features ∅ _ H) as (indicators & Hi & Hnames & Hlen).
  exists indicators. split; [exact Hi|]. split; [|split].
  - apply (Hnames "new_account"%string); [by_evaluation|by_evaluation].
  - apply (Hnames "low_engagement"%string); [by_evaluation|by_evaluation].
  - specialize (Hlen true ltac:(by_evaluation)). simpl in Hlen.
    change (count_if snd _) with 4%nat in Hlen. lia.
Defined.

(** X3.  The recommendations open with exactly one of four sentences and
    hold at most three more.  After the heuristic the opening sentence is
    fixed by the number of triggered flags: "legitimate" up to one flag,
    "some suspicious patterns" from two, "several" from six, "highly
    likely to be fake" from eight. *)
Theorem recommendations_by_flag_count (features : gmap string value)
    (flags : list (string * bool)) (indicators : list Indicator) :
  red_flags features = Ok flags →
  ∃ probability is_fake importance rest,
    _heuristic_detection features = Ok (probability, is_fake, importance)
    ∧ _generate_recommendations is_fake probability indicators
      = verdict_sentence (count_if snd flags) :: rest
    ∧ (length rest ≤ 3)%nat.
Proof.
  intros Hflags. unfold _heuristic_detection. rewrite Hflags. simpl.
  assert (Hlen : length flags = 9%nat).
  { by apply red_flags_shape in Hflags
      as (b1 & b2 & b3 & b4 & b5 & b6 & b7 & b8 & b9 & -> & _). }
  pose proof (count_if_le_length snd flags) as Hk. rewrite Hlen in Hk.
  destruct (nine_flags_probability _ Hk) as (_ & Hf & Hhigh & Hsome).
  unfold score_flags, _generate_recommendations. rewrite Hlen.
  eexists _, _, _, _. split; [reflexivity|]. split.
  - simpl app. f_equal. rewrite Hf, Hhigh, Hsome. unfold verdict_sentence.
    destruct (8 <=? count_if snd flags)%nat eqn:E8;
      destruct (6 <=? count_if snd flags)%nat eqn:E6; try reflexivity.
    apply Nat.leb_le in E8. apply Nat.leb_gt in E6. lia.
  - rewrite !length_app.
    repeat match goal with
           | |- context [if has_indicator ?n ?l then _ else _] =>
               destruct (has_indicator n l)
           end; simpl; lia.
Qed.

Lemma recommendations_by_flag_count_witness :
  ∃ probability is_fake importance rest,
    _heuristic_detection young_features = Ok (probability, is_fake, importance)
    ∧ _generate_recommendations is_fake probability []
      = "This profile shows some suspicious patterns but may be legitimate. Verify before engaging."%string
        :: rest.
Proof.
  assert (H : red_flags young_features
              = Ok [("new_account"%string, true); ("high_following_ratio"%string, true);
                    ("excessive_posting"%string, true);
                    ("suspicious_profile_pic"%string, false);
                    ("low_engagement"%string, false); ("suspicious_content"%string, false);
                    ("isolated_network"%string, false); ("duplicate_content"%string, false);
                    ("no_bio"%string, true)]).
  { vm_compute. reflexivity. }
  destruct (recommendations_by_flag_count young_features _ [] H)
    as (probability & is_fake & importance & rest & Hh & Hr & _).
  exists probability, is_fake, importance, rest. split; [exact Hh|exact Hr].
Defined.

Lemma lookup_zip_names (names : list string) : ∀ (importances : list Q) k n,
  NoDup names → names !! k = Some n →
  (list_to_map (zip names importances) : gmap string Q) !! n = importances !! k.
Proof.
  induction names as [|a names IH]; intros importances k n Hnd Hk; [done|].
  apply NoDup_cons in Hnd as [Ha Hnd].
  destruct importances as [|q importances]; [done|]. simpl.
  destruct k as [|k]; simpl in Hk.
  - injection Hk as ->. apply lookup_insert_eq.
  - rewrite lookup_insert_ne; [exact (IH importances k n Hnd Hk)|].
    intros ->. apply Ha. by eapply list_elem_of_lookup_2.
Qed.

Lemma feature_names_nodup : NoDup feature_names.
Proof. by_evaluation. Qed.

(** X4.  The feature vector and the importances are aligned by position:
    entry [k] of the vector is the feature of the [k]-th name (0 when it
    is missing), and that name gets the [k]-th importance of the model,
    one fourteenth when the model has none, and no entry when the model
    has fewer than [k+1] importances. *)
Theorem importance_by_position (features : gmap string value) (model : Classifier)
    (k : nat) (n : string) :
  feature_names !! k = Some n →
  _prepare_feature_vector features !! k = Some (default (VNum 0) (features !! n))
  ∧ _get_feature_importance model !! n
    = match feature_importances_ model with
      | Some importances => importances !! k
      | None => Some (1 / 14)
      end.
Proof.
  intros Hk. split.
  - unfold _prepare_feature_vector, feature_names in *.
    do 14 (destruct k as [|k]; [injection Hk as <-; reflexivity|]). done.
  - unfold _get_feature_importance.
    rewrite (lookup_zip_names _ _ k n feature_names_nodup Hk).
    destruct (feature_importances_ model) as [importances|]; [reflexivity|].
    apply lookup_replicate_2. by apply lookup_lt_Some in Hk.
Qed.

Lemma importance_by_position_witness :
  _prepare_feature_vector young_features !! 6%nat = Some (VNum 0)
  ∧ _get_feature_importance {| predict_proba := fun _ => 0.5;
                               feature_importances_ := Some [0.5; 0.25; 0.25] |}
    !! "bio_length"%string = None.
Proof.
  exact (importance_by_position young_features
           {| predict_proba := fun _ => 0.5; feature_importances_ := Some [0.5; 0.25; 0.25] |}
           6 "bio_length" eq_refl).
Defined.

End Verdict.

(** ** What the merged feature map hands to the decision *)

Section Merged.

Import Detector.

(** The entry of the merged map under a key: the last analyzer that
    writes the key wins. *)
Lemma combined_lookup L clock profile combined k :
  combined_features L clock profile = Ok combined →
  ∃ features,
    FeatureExtractor.extract_features L (now_features clock) profile = Ok features
    ∧ combined !! k
      = match NetworkAnalyzer.analyze profile !! k with
        | Some v => Some v
        | None =>
            match ImageAnalyzer.analyze L profile !! k with
            | Some v => Some v
            | None =>
                match ActivityAnalyzer.analyze L (now_activity clock) profile !! k with
                | Some v => Some v
                | None =>
                    match ContentAnalyzer.analyze L profile !! k with
                    | Some v => Some v
                    | None => features !! k
                    end
                end
            end
        end.
Proof.
  unfold combined_features.
  destruct (FeatureExtractor.extract_features L (now_features clock) profile)
    as [features|e]; [|done].
  simpl. intros [= <-]. exists features. split; [reflexivity|].
  by rewrite !lookup_update.
Qed.

Lemma network_lookup_other profile k :
  k ∉ ["network_analysis_performed"; "followers_count"; "following_count";
       "followers_to_following_ratio"; "network_isolation_score";
       "mutual_connection_ratio"; "clustering_coefficient"; "reciprocity";
       "network_score"]%string →
  NetworkAnalyzer.analyze profile !! k = None.
Proof.
  intros Hk. rewrite !not_elem_of_cons in Hk. destruct Hk as (?&?&?&?&?&?&?&?&?&_).
  unfold NetworkAnalyzer.analyze.
  destruct (NetworkAnalyzer.nonempty _ && NetworkAnalyzer.nonempty _); by simplify_map_eq.
Qed.

Lemma image_lookup_other L profile k :
  k ∉ ["image_analysis_performed"; "profile_pic_score"; "is_default_image";
       "is_stock_photo"; "is_ai_generated"; "image_quality_score"; "image_hash"]%string →
  ImageAnalyzer.analyze L profile !! k = None.
Proof.
  intros Hk. rewrite !not_elem_of_cons in Hk. destruct Hk as (?&?&?&?&?&?&?&_).
  unfold ImageAnalyzer.analyze.
  destruct (Profile.profile_pic_url profile) as [url|];
    [destruct (Str.truthy url)|]; try by simplify_map_eq.
  destruct (negb _); [destruct (ImageAnalyzer._analyze_image L url) as [[[? ?] ?] ?]|];
    by simplify_map_eq.
Qed.

Lemma activity_lookup_other L now profile k :
  k ∉ ["activity_analysis_performed"; "account_age_days"; "posts_per_day";
       "posting_regularity"; "time_zone_consistency"; "engagement_rate";
       "posting_bursts"; "activity_score"]%string →
  ActivityAnalyzer.analyze L now profile !! k = None.
Proof.
  intros Hk. rewrite !not_elem_of_cons in Hk. destruct Hk as (?&?&?&?&?&?&?&?&_).
  unfold ActivityAnalyzer.analyze.
  destruct (Profile.posts profile); [|destruct (post_timestamps L _)]; by simplify_map_eq.
Qed.

Lemma content_lookup_other L profile k :
  k ∉ ["content_analysis_performed"; "sentiment_score"; "content_diversity";
       "suspicious_content_score"; "spam_pattern_matches"; "suspicious_keywords_count";
       "keyword_ratio"]%string →
  ContentAnalyzer.analyze L profile !! k = None.
Proof.
  intros Hk. rewrite !not_elem_of_cons in Hk. destruct Hk as (?&?&?&?&?&?&?&_).
  unfold ContentAnalyzer.analyze, ContentAnalyzer.neutral.
  destruct (Profile.posts profile); [|destruct (List.filter _ _)]; by simplify_map_eq.
Qed.

(** The entries of the feature extractor's map that the content, profile
    and platform extractors do not write. *)
Lemma FeatureExtractor_lookup L now profile features :
  FeatureExtractor.extract_features L now profile = Ok features →
  ∀ k, k ∉ late_keys →
       features !! k
       = match activity_defaults !! k with
         | Some v => Some v
         | None => FeatureExtractor._extract_account_metrics L now profile !! k
         end.
Proof. intros H. by apply extract_features_return in H as [_ H]. Qed.

(** The parts of a result [analyze_profile] returns. *)
Lemma analyze_profile_parts L clock model profile r :
  analyze_profile L clock model profile = Ok r →
  ∃ combined,
    combined_features L clock profile = Ok combined
    ∧ flag_inputs_numeric combined
    ∧ decide_fake model combined = Ok (probability r, is_fake r, feature_importance r)
    ∧ _identify_suspicious_indicators combined ∅ = Ok (indicators r)
    ∧ recommendations r
      = _generate_recommendations (is_fake r) (probability r) (indicators r).
Proof.
  unfold analyze_profile.
  destruct (combined_features L clock profile) as [combined|e] eqn:Hc; [|done]. simpl.
  destruct (decide_fake model combined) as [[[p f] importance]|e] eqn:Hd; [|done]. simpl.
  destruct (_identify_suspicious_indicators combined importance) as [inds|e] eqn:Hi; [|done].
  simpl. intros [= <-]. simpl. exists combined.
  eauto 10 using combined_flag_inputs.
Qed.

(** The indicators of a map whose flag inputs are numbers, by the red
    flags at their documented thresholds. *)
Lemma indicators_numeric features indicators :
  flag_inputs_numeric features →
  _identify_suspicious_indicators features ∅ = Ok indicators →
  ∀ flag_name indicator_name is_triggered,
    (flag_name, indicator_name) ∈ flag_indicators →
    (flag_name, is_triggered) ∈ documented_flags features →
    has_indicator indicator_name indicators = is_triggered.
Proof.
  intros Hnum Hi flag_name indicator_name is_triggered Hfi Hfl.
  pose proof (red_flags_numeric features Hnum) as Hflags.
  destruct (red_flags_shape features _ Hflags)
    as (b1 & b2 & b3 & b4 & b5 & b6 & b7 & b8 & b9 & Hshape & Hinds).
  rewrite Hinds in Hi. injection Hi as <-. rewrite Hshape in Hfl.
  unfold flag_indicators in Hfi.
  repeat (apply elem_of_cons in Hfi as [Hfi|Hfi]; [injection Hfi as -> ->|]);
    [..|by apply elem_of_nil in Hfi];
    repeat (apply elem_of_cons in Hfl as [Hfl|Hfl]; [try discriminate Hfl|]);
    try (by apply elem_of_nil in Hfl);
    injection Hfl as ->;
    rewrite !has_indicator_app, !has_indicator_if; simpl;
    by rewrite ?andb_false_r, ?andb_true_r, ?orb_false_r.
Qed.

Lemma feature_lookup features key default q :
  features !! key = Some (VNum q) → feature features key default = q.
Proof. intros H. unfold feature, get_num. by rewrite H. Qed.

Lemma feature_missing features key default :
  features !! key = None → feature features key default = default.
Proof. intros H. unfold feature, get_num. by rewrite H. Qed.

Lemma post_timestamps_nil L : post_timestamps L [] = [].
Proof. reflexivity. Qed.



Lemma total_engagement_nonneg posts : ∀ acc,
  (0 ≤ acc)%Z →
  Forall (fun p => (0 ≤ ActivityAnalyzer.engagement p)%Z) posts →
  (0 ≤ fold_left (fun acc p => (acc + ActivityAnalyzer.engagement p)%Z) posts acc)%Z.
Proof.
  induction posts as [|p posts IH]; intros acc Hacc Hall; [exact Hacc|].
  apply Forall_cons in Hall as [Hp Hall]. simpl. apply IH; [lia|exact Hall].
Qed.

(** The logistic curve keeps the rate of posts with non-negative
    engagement above a quarter. *)
Lemma engagement_rate_floor L posts :
  exp_small L → posts ≠ [] →
  Forall (fun p => (0 ≤ ActivityAnalyzer.engagement p)%Z) posts →
  (1 # 4) <= ActivityAnalyzer._calculate_engagement_rate L posts.
Proof.
  intros Hexp Hne Hall. unfold ActivityAnalyzer._calculate_engagement_rate.
  destruct posts as [|p posts]; [done|].
  change (length (p :: posts) =? 0)%nat with false. cbv iota.
  set (total := fold_left _ _ _).
  assert (Htotal : (0 ≤ total)%Z) by (by apply total_engagement_nonneg).
  set (n := Num.of_nat (length (p :: posts))).
  assert (Hn : 0 < n) by (apply of_nat_pos; simpl; lia).
  assert (Havg : 0 <= inject_Z total / n).
  { apply Qle_shift_div_l; [exact Hn|]. rewrite Qmult_0_l.
    change 0 with (inject_Z 0). by rewrite <- Zle_Qle. }
  destruct (Hexp (- 0.1 * (inject_Z total / n - 10))) as [Hlo Hhi]; [lra|].
  set (e := np_exp L _) in *.
  apply Qle_shift_div_l; [lra|]. lra.
Qed.

(** X6.  A profile that has posts, none of them with negative likes,
    comments or shares, never carries the indicator "Low Engagement": the
    logistic curve of the activity analyzer keeps its engagement rate
    above 0.25, far above the threshold 0.01. *)
Theorem posts_hide_low_engagement (L : PyLib) (clock : Clock) (model : option Classifier)
    (profile : Profile.t) (r : AnalysisResult) :
  exp_small L →
  Profile.posts profile ≠ [] →
  Forall (fun p => (0 ≤ ActivityAnalyzer.engagement p)%Z) (Profile.posts profile) →
  analyze_profile L clock model profile = Ok r →
  has_indicator "Low Engagement" (indicators r) = false.
Proof.
  intros Hexp Hne Hall Hr.
  destruct (analyze_profile_parts _ _ _ _ _ Hr) as (combined & Hc & Hnum & Hd & Hi & _).
  pose proof (engagement_rate_floor L _ Hexp Hne Hall) as Hfloor.
  assert (He : combined !! "engagement_rate"%string
               = Some (VNum (ActivityAnalyzer._calculate_engagement_rate L
                               (Profile.posts profile)))).
  { destruct (combined_lookup _ _ _ _ "engagement_rate"%string Hc) as (features & _ & ->).
    rewrite network_lookup_other, image_lookup_other by by_evaluation.
    unfold ActivityAnalyzer.analyze.
    destruct (Profile.posts profile) as [|p posts]; [done|].
    destruct (post_timestamps L (p :: posts)); by simplify_map_eq. }
  apply (indicators_numeric combined (indicators r) Hnum Hi "low_engagement"%string);
    [by_evaluation|].
  unfold documented_flags. rewrite (feature_lookup _ _ _ _ He).
  replace (_ <? 0.01) with false.
  - do 4 apply list_elem_of_further. apply list_elem_of_here.
  - destruct (_ <? 0.01) eqn:E; [apply ltb_true in E; lra|reflexivity].
Qed.

Lemma RefLib_exp_small : exp_small RefLib.lib.
Proof.
  intros x Hx. split; [apply (np_exp_nonneg _ RefLib_laws)|].
  simpl. unfold RefLib.np_exp. destruct (0 <=? x) eqn:E.
  - apply leb_true in E. assert (x * x <= 1) by nra.
    assert (x * x / 2 == x * x * (1 # 2)) by field. lra.
  - apply leb_false in E. assert (0 <= x * x) by nra.
    assert (x * x / 2 == x * x * (1 # 2)) by field. apply Qle_shift_div_r; lra.
Qed.

Lemma posts_hide_low_engagement_witness :
  match analyze_profile RefLib.lib noon None lively_profile with
  | Ok r => has_indicator "Low Engagement" (indicators r) = false
  | Raise _ => False
  end.
Proof.
  assert (Hok : returns (analyze_profile RefLib.lib noon None lively_profile) = true).
  { vm_compute. reflexivity. }
  destruct (analyze_profile RefLib.lib noon None lively_profile) as [r|e] eqn:E;
    [|discriminate Hok].
  refine (posts_hide_low_engagement RefLib.lib noon None lively_profile r
            RefLib_exp_small _ _ E).
  - discriminate.
  - repeat constructor; vm_compute; discriminate.
Defined.

(** X7.  In the merged feature map the follower count and the
    follower-to-following ratio are the network analyzer's, read from
    [followers_count] alone.  The feature extractor falls back on a
    Facebook [friend_count] when [followers_count] is absent, but its
    entry is overwritten: the friend count never reaches the decision. *)
Theorem friend_count_is_overridden (L : PyLib) (clock : Clock) (profile : Profile.t)
    (combined : gmap string value) :
  combined_features L clock profile = Ok combined →
  (∃ features,
     FeatureExtractor.extract_features L (now_features clock) profile = Ok features
     ∧ features !! "followers_count"%string
       = Some (VNum (inject_Z match Profile.followers_count profile with
                              | Some n => n
                              | None => default 0%Z (Profile.friend_count profile)
                              end)))
  ∧ combined !! "followers_count"%string
    = Some (VNum (inject_Z (default 0%Z (Profile.followers_count profile))))
  ∧ combined !! "followers_to_following_ratio"%string
    = Some (VNum (NetworkAnalyzer._calculate_ratio
                    (default 0%Z (Profile.followers_count profile))
                    (default 0%Z (Profile.following_count profile)))).
Proof.
  intros Hc. split; [|split].
  - destruct (combined_lookup _ _ _ _ "followers_count"%string Hc) as (features & Hx & _).
    exists features. split; [exact Hx|].
    rewrite (FeatureExtractor_lookup _ _ _ _ Hx "followers_count"%string) by by_evaluation.
    unfold FeatureExtractor._extract_account_metrics. by simplify_map_eq.
  - destruct (combined_lookup _ _ _ _ "followers_count"%string Hc) as (features & _ & ->).
    unfold NetworkAnalyzer.analyze.
    destruct (NetworkAnalyzer.nonempty _ && NetworkAnalyzer.nonempty _); by simplify_map_eq.
  - destruct (combined_lookup _ _ _ _ "followers_to_following_ratio"%string Hc)
      as (features & _ & ->).
    unfold NetworkAnalyzer.analyze.
    destruct (NetworkAnalyzer.nonempty _ && NetworkAnalyzer.nonempty _); by simplify_map_eq.
Qed.

Lemma friend_count_is_overridden_witness :
  Profile.friend_count friends_profile = Some 250%Z
  ∧ entry (FeatureExtractor.extract_features RefLib.lib 0%Z friends_profile) "followers_count"
    = Ok (Some (VNum 250))
  ∧ entry (combined_features RefLib.lib noon friends_profile) "followers_count"
    = Ok (Some (VNum 0))
  ∧ entry (combined_features RefLib.lib noon friends_profile) "followers_to_following_ratio"
    = Ok (Some (VNum 1)).
Proof.
  assert (Hok : returns (combined_features RefLib.lib noon friends_profile) = true).
  { vm_compute. reflexivity. }
  split; [reflexivity|]. split; [vm_compute; reflexivity|].
  destruct (combined_features RefLib.lib noon friends_profile) as [combined|e] eqn:E;
    [|discriminate Hok].
  destruct (friend_count_is_overridden RefLib.lib noon friends_profile combined E)
    as (_ & Hf & Hr).
  simpl. rewrite Hf, Hr. split; reflexivity.
Defined.

Lemma undated_entry L now profile :
  undated L profile →
  FeatureExtractor.account_age_entry L now (Profile.creation_date profile)
    !! "account_age_days"%string = Some (VNum 365)
  ∨ FeatureExtractor.account_age_entry L now (Profile.creation_date profile)
      !! "account_age_days"%string = None.
Proof.
  intros Hun. unfold FeatureExtractor.account_age_entry.
  destruct (Profile.creation_date profile) as [v|] eqn:Hv; [|by left].
  destruct (scalar_truthy v); [|by left].
  destruct (strptime_first L v creation_date_formats) as [[d|]|e] eqn:Hp.
  - by destruct (Hun v d Hv).
  - by right.
  - by left.
Qed.

Lemma undated_age L now profile :
  undated L profile →
  ActivityAnalyzer.account_age L now (Profile.creation_date profile) = 365%Z.
Proof.
  intros Hun. unfold ActivityAnalyzer.account_age.
  destruct (Profile.creation_date profile) as [v|] eqn:Hv; [|done].
  destruct (scalar_truthy v); [|done].
  destruct (strptime_first L v creation_date_formats) as [[d|]|e] eqn:Hp; [|done..].
  by destruct (Hun v d Hv).
Qed.

(** X8.  A profile whose creation date no format parses (missing, empty,
    not text, or text of another shape) is never reported as a new
    account: the age the decision reads is 365 days, the activity
    analyzer's default or the default of the lookup. *)
Theorem undated_never_new_account (L : PyLib) (clock : Clock) (model : option Classifier)
    (profile : Profile.t) (r : AnalysisResult) :
  undated L profile →
  analyze_profile L clock model profile = Ok r →
  has_indicator "New Account" (indicators r) = false.
Proof.
  intros Hun Hr.
  destruct (analyze_profile_parts _ _ _ _ _ Hr) as (combined & Hc & Hnum & Hd & Hi & _).
  assert (Hage : feature combined "account_age_days" 365 = 365).
  { destruct (combined_lookup _ _ _ _ "account_age_days"%string Hc)
      as (features & Hx & Hk).
    rewrite network_lookup_other, image_lookup_other in Hk by by_evaluation.
    unfold ActivityAnalyzer.analyze in Hk.
    destruct (Profile.posts profile) as [|p posts].
    - rewrite lookup_insert_ne, !lookup_insert_ne, lookup_singleton_ne in Hk by done.
      rewrite content_lookup_other in Hk by by_evaluation.
      rewrite (FeatureExtractor_lookup _ _ _ _ Hx "account_age_days"%string),
        account_metrics_age in Hk by by_evaluation.
      destruct (undated_entry L (now_features clock) profile Hun) as [He|He];
        rewrite He in Hk.
      + by apply feature_lookup.
      + by apply feature_missing.
    - rewrite (undated_age L _ _ Hun) in Hk.
      apply feature_lookup.
      destruct (post_timestamps L (p :: posts)); rewrite Hk; by simplify_map_eq. }
  apply (indicators_numeric combined (indicators r) Hnum Hi "new_account"%string);
    [by_evaluation|].
  unfold documented_flags. rewrite Hage. apply list_elem_of_here.
Qed.

Lemma undated_never_new_account_witness :
  match analyze_profile RefLib.lib noon None undated_profile with
  | Ok r => has_indicator "New Account" (indicators r) = false
  | Raise _ => False
  end.
Proof.
  assert (Hok : returns (analyze_profile RefLib.lib noon None undated_profile) = true).
  { vm_compute. reflexivity. }
  destruct (analyze_profile RefLib.lib noon None undated_profile) as [r|e] eqn:E;
    [|discriminate Hok].
  refine (undated_never_new_account RefLib.lib noon None undated_profile r _ E).
  intros v d [= <-]. vm_compute. discriminate.
Defined.

End Merged.

(** ** The simulated picture analysis *)

(** The entry of a map literal under a key that is spelled out. *)
Ltac literal_lookup := cbv beta iota zeta; reflexivity.

Section Picture.

Import ImageAnalyzer.

Lemma is_hex_substring (n : nat) : ∀ s, is_hex s = true → is_hex (String.substring 0 n s) = true.
Proof.
  unfold is_hex. induction n as [|n IH]; intros [|c s] H; try reflexivity.
  simpl in *. apply andb_true_iff in H as [Hc Hs]. rewrite Hc. by apply IH.
Qed.

Lemma known_hashes_not_hex h : h ∈ known_fake_image_hashes → is_hex h = false.
Proof.
  unfold known_fake_image_hashes. rewrite elem_of_list_to_set. intros H.
  repeat (apply elem_of_cons in H as [->|H]; [reflexivity|]).
  by apply elem_of_nil in H.
Qed.

Lemma analyze_image_never_stock L url :
  hex_digest L → (_analyze_image L url).1.1.2 = false.
Proof.
  intros Hhex. unfold _analyze_image. simpl. apply bool_decide_eq_false. intros Hin.
  apply known_hashes_not_hex in Hin. unfold _simulate_image_hash in Hin.
  by rewrite is_hex_substring in Hin.
Qed.

(** X9.  No picture is ever reported as a stock photo.  Each of the ten
    known fake hashes contains a letter beyond [f], and the simulated
    hash is a prefix of a hexadecimal digest, so the membership test
    cannot succeed. *)
Theorem never_stock_photo (L : PyLib) (profile : Profile.t) :
  hex_digest L →
  analyze L profile !! "is_stock_photo"%string = Some (VBool false).
Proof.
  intros Hhex. unfold analyze.
  destruct (Profile.profile_pic_url profile) as [url|];
    [destruct (Str.truthy url)|]; try by simplify_map_eq.
  destruct (negb _); [|by simplify_map_eq].
  pose proof (analyze_image_never_stock L url Hhex) as Hs.
  destruct (_analyze_image L url) as [[[h s] a] q]. simpl in Hs. subst s.
  by simplify_map_eq.
Qed.

Lemma hex_char_is_hex d : (0 ≤ d < 16)%Z → is_hex_digit (RefLib.hex_char d) = true.
Proof.
  intros Hd. rewrite <- (Z2Nat.id d) by lia.
  assert (H : (Z.to_nat d < 16)%nat) by lia.
  revert H. generalize (Z.to_nat d). intros k H.
  do 16 (destruct k as [|k]; [reflexivity|]). lia.
Qed.

Lemma hex_is_hex digits : ∀ n,
  forallb is_hex_digit (RefLib.hex digits n) = true.
Proof.
  induction digits as [|digits IH]; intros n; [reflexivity|].
  change (RefLib.hex (S digits) n)
    with (RefLib.hex digits (n / 16)%Z ++ [RefLib.hex_char (n mod 16)%Z]).
  rewrite forallb_app, IH.
  change (forallb is_hex_digit [RefLib.hex_char (n mod 16)%Z])
    with (is_hex_digit (RefLib.hex_char (n mod 16)%Z) && true).
  rewrite hex_char_is_hex; [reflexivity|]. apply Z.mod_pos_bound. lia.
Qed.

Lemma RefLib_hex_digest : hex_digest RefLib.lib.
Proof.
  intros s. unfold is_hex.
  change (md5_hexdigest RefLib.lib s) with (RefLib.md5_hexdigest s).
  unfold RefLib.md5_hexdigest.
  rewrite String.list_ascii_of_string_of_list_ascii. apply hex_is_hex.
Qed.

Lemma never_stock_photo_witness :
  analyze RefLib.lib (pictured_profile "https://example.com/images/me.jpg")
    !! "is_stock_photo"%string = Some (VBool false).
Proof.
  exact (never_stock_photo RefLib.lib (pictured_profile "https://example.com/images/me.jpg")
           RefLib_hex_digest).
Defined.

(** X10.  The two simulations draw the same number, so they are tied: a
    picture is called AI-generated exactly when its quality score is
    below 0.405. *)
Theorem generated_iff_low_quality (L : PyLib) (url : string) :
  _simulate_ai_detection L url = (_simulate_quality_score L url <? 0.405).
Proof.
  unfold _simulate_ai_detection, _simulate_quality_score.
  set (r := random_after_seed L (url_seed L url)).
  destruct (r <? 0.15) eqn:E1; destruct (0.3 + r * 0.7 <? 0.405) eqn:E2; try reflexivity.
  - apply ltb_true in E1. apply ltb_false in E2. lra.
  - apply ltb_false in E1. apply ltb_true in E2. lra.
Qed.

Lemma ltb_iff x y : (x <? y) = true ↔ x < y.
Proof.
  split; [apply ltb_true|]. intros H.
  destruct (x <? y) eqn:E; [reflexivity|]. apply ltb_false in E. lra.
Qed.

Lemma gtb_iff x y : (x >? y) = true ↔ y < x.
Proof. apply ltb_iff. Qed.

(** X11.  The picture score crosses the detector's threshold 0.7 exactly
    for pictures called AI-generated, and always lies between 0.3 and
    0.84: a missing picture scores 0.5, a default picture 0.6, any other
    at most 0.44 unless it is called AI-generated, and then more than
    0.81. *)
Theorem picture_score_follows_generator (L : PyLib) (profile : Profile.t) :
  PyLibLaws L → hex_digest L →
  ∃ (score : Q) (is_ai_generated : bool),
    analyze L profile !! "profile_pic_score"%string = Some (VNum score)
    ∧ default (VBool false) (analyze L profile !! "is_ai_generated"%string)
      = VBool is_ai_generated
    ∧ (score >? 0.7) = is_ai_generated
    ∧ 0.3 <= score ∧ score <= 0.84
    ∧ (is_ai_generated = true → 0.81 < score)
    ∧ (is_ai_generated = false → score <= 0.6).
Proof.
  intros HL Hhex. unfold analyze.
  destruct (Profile.profile_pic_url profile) as [url|];
    [destruct (Str.truthy url)|].
  2,3: exists 0.5, false; split; [by simplify_map_eq|]; split; [by simplify_map_eq|];
       split; [reflexivity|]; repeat split; first [lra|discriminate].
  destruct (negb (_is_default_profile_picture L url)) eqn:Hdef.
  - pose proof (analyze_image_never_stock L url Hhex) as Hs.
    unfold _analyze_image in *. simpl in Hs. rewrite Hs.
    apply negb_true_iff in Hdef. rewrite Hdef. cbv beta iota zeta.
    remember (_simulate_ai_detection L url) as ai eqn:Hai.
    remember (_calculate_profile_pic_score false false ai _) as score eqn:Hscore.
    exists score, ai. split; [literal_lookup|]. split; [literal_lookup|].
    subst score ai.
    unfold _calculate_profile_pic_score, _simulate_ai_detection, _simulate_quality_score.
    destruct (random_range L HL (url_seed L url)) as [Hlo Hhi].
    set (r := random_after_seed L (url_seed L url)) in *.
    destruct (r <? 0.15) eqn:Hai.
    + apply ltb_true in Hai.
      destruct (min_cases 1 (0.3 + 0.4 + (1 - (0.3 + r * 0.7)) * 0.2)) as [[H1 ->]|[H1 ->]];
        [|lra].
      split; [apply gtb_iff; lra|]. repeat split; first [lra|discriminate].
    + apply ltb_false in Hai.
      destruct (min_cases 1 (0.3 + (1 - (0.3 + r * 0.7)) * 0.2)) as [[H1 ->]|[H1 ->]];
        [|lra].
      split; [destruct (_ >? 0.7) eqn:E; [apply gtb_iff in E; lra|reflexivity]|].
      repeat split; first [lra|discriminate].
  - apply negb_false_iff in Hdef. rewrite Hdef. cbv beta iota zeta.
    set (score := _calculate_profile_pic_score true false false 0.5).
    exists score, false. split; [literal_lookup|]. split; [literal_lookup|].
    subst score. split; [reflexivity|]. repeat split; first [by_evaluation|discriminate].
Qed.

Lemma picture_score_follows_generator_witness :
  ∃ (score : Q) (is_ai_generated : bool),
    analyze RefLib.lib (pictured_profile "https://example.com/images/me.jpg")
      !! "profile_pic_score"%string = Some (VNum score)
    ∧ (score >? 0.7) = is_ai_generated
    ∧ 0.3 <= score ∧ score <= 0.84.
Proof.
  destruct (picture_score_follows_generator RefLib.lib
              (pictured_profile "https://example.com/images/me.jpg")
              RefLib_laws RefLib_hex_digest)
    as (score & a & Hs & _ & Ha & Hlo & Hhi & _).
  exists score, a. split; [exact Hs|]. split; [exact Ha|]. split; [exact Hlo|exact Hhi].
Defined.

End Picture.

(** ** Tokens and the content scores *)

Section Content.

Import ContentAnalyzer.

Lemma filter_chars f s :
  String.list_ascii_of_string (Str.filter f s)
  = List.filter f (String.list_ascii_of_string s).
Proof.
  induction s as [|c s IH]; [reflexivity|]. simpl. destruct (f c); simpl; by rewrite IH.
Qed.

Lemma filter_keeps_all f s :
  forallb f (String.list_ascii_of_string s) = true → Str.filter f s = s.
Proof.
  induction s as [|c s IH]; [reflexivity|]. simpl. intros H.
  apply andb_true_iff in H as [Hc Hs]. by rewrite Hc, IH.
Qed.

Lemma string_of_chars_truthy (cs : list ascii) :
  cs ≠ [] → Str.truthy (String.string_of_list_ascii cs) = true.
Proof. by destruct cs. Qed.

Lemma forallb_reverse {A} (f : A → bool) xs : forallb f (rev xs) = forallb f xs.
Proof.
  induction xs as [|x xs IH]; [reflexivity|].
  simpl. rewrite forallb_app, IH. simpl. rewrite andb_true_r. apply andb_comm.
Qed.

Lemma flush_words word :
  forallb word_char word = true → Forall (fun w => is_word w = true) (Str.flush word).
Proof.
  intros H. destruct word as [|c word]; [constructor|].
  constructor; [|constructor]. unfold is_word.
  rewrite String.list_ascii_of_string_of_list_ascii, forallb_reverse, H, andb_true_r.
  apply string_of_chars_truthy. simpl. by destruct (rev word).
Qed.

Lemma split_go_words cs : ∀ word,
  forallb (fun c => negb (Str.ispunct c)) cs = true →
  forallb word_char word = true →
  Forall (fun w => is_word w = true) (Str.split_go word cs).
Proof.
  induction cs as [|c cs IH]; intros word Hcs Hword; simpl.
  - by apply flush_words.
  - simpl in Hcs. apply andb_true_iff in Hcs as [Hc Hcs].
    destruct (Str.isspace c) eqn:Hsp.
    + apply Forall_app. split; [by apply flush_words|]. by apply IH.
    + apply IH; [exact Hcs|]. simpl. unfold word_char at 1. by rewrite Hc, Hsp, Hword.
Qed.

Lemma split_go_one_word cs : ∀ word,
  forallb (fun c => negb (Str.isspace c)) cs = true →
  Str.split_go word cs = Str.flush (rev cs ++ word).
Proof.
  induction cs as [|c cs IH]; intros word H; [reflexivity|].
  simpl in *. apply andb_true_iff in H as [Hc Hcs]. apply negb_true_iff in Hc.
  rewrite Hc, IH by exact Hcs. by rewrite <- app_assoc.
Qed.

Lemma forallb_weaken {A} (f g : A → bool) xs :
  (∀ x, f x = true → g x = true) → forallb f xs = true → forallb g xs = true.
Proof.
  intros Hfg. induction xs as [|x xs IH]; [done|]. simpl. intros H.
  apply andb_true_iff in H as [Hx Hxs]. by rewrite (Hfg x Hx), IH.
Qed.

Lemma tokenize_word w : is_word w = true → _tokenize w = [w].
Proof.
  unfold is_word. intros H. apply andb_true_iff in H as [Hne Hall].
  unfold _tokenize. rewrite filter_keeps_all.
  - unfold Str.split. rewrite split_go_one_word, app_nil_r.
    + destruct w as [|c w]; [done|].
      assert (Hrev : rev (String.list_ascii_of_string (String c w)) ≠ []).
      { simpl. by destruct (rev _). }
      unfold Str.flush. destruct (rev _) as [|c' cs'] eqn:E; [done|]. rewrite <- E.
      by rewrite rev_involutive, String.string_of_list_ascii_of_string.
    + eapply forallb_weaken; [|exact Hall]. intros c Hc. unfold word_char in Hc.
      by apply andb_true_iff in Hc as [_ ->].
  - eapply forallb_weaken; [|exact Hall]. intros c Hc. unfold word_char in Hc.
    by apply andb_true_iff in Hc as [-> _].
Qed.

Lemma tokenize_words text : Forall (fun w => is_word w = true) (_tokenize text).
Proof.
  unfold _tokenize.
  assert (H : Forall (fun w => is_word w = true)
                (Str.split (Str.filter (fun c => negb (Str.ispunct c)) text))).
  { unfold Str.split. apply split_go_words; [|reflexivity].
    rewrite filter_chars. apply forallb_forall. intros c Hc.
    by apply filter_In in Hc as [_ Hc]. }
  rewrite Forall_forall in H |- *. intros w Hw. apply H.
  apply list_elem_of_In in Hw. apply filter_In in Hw as [Hw _]. by apply list_elem_of_In.
Qed.

(** X12.  Every token is a word: not empty, free of punctuation and of
    blanks.  Tokenizing is stable on its own output: a token tokenizes to
    itself. *)
Theorem tokens_are_words (text w : string) :
  w ∈ _tokenize text → is_word w = true ∧ _tokenize w = [w].
Proof.
  intros Hw. pose proof (tokenize_words text) as H. rewrite Forall_forall in H.
  split; [by apply H|]. by apply tokenize_word, H.
Qed.

Lemma tokens_are_words_witness :
  _tokenize "Hello, world!  It's me." = ["Hello"; "world"; "Its"; "me"]%string
  ∧ is_word "Its" = true ∧ _tokenize "Its" = ["Its"%string].
Proof.
  split; [reflexivity|].
  apply (tokens_are_words "Hello, world!  It's me." "Its"). by_evaluation.
Defined.

Lemma size_length_nodup (l : list string) :
  size (list_to_set l : gset string) = length l ↔ NoDup l.
Proof.
  split; [|apply size_list_to_set].
  induction l as [|x l IH]; intros H; [constructor|].
  assert (Hx : x ∉ l).
  { intros Hx. rewrite list_to_set_cons in H.
    assert (Heq : ({[x]} ∪ list_to_set l : gset string) = list_to_set l).
    { apply subseteq_union_1_L, singleton_subseteq_l, elem_of_list_to_set, Hx. }
    rewrite Heq in H. pose proof (size_list_to_set_le l). simpl in H. lia. }
  constructor; [exact Hx|]. apply IH.
  rewrite list_to_set_cons, size_union, size_singleton in H; [simpl in H; lia|].
  apply disjoint_singleton_l. by rewrite elem_of_list_to_set.
Qed.

(** X13.  When the texts hold at least one token, the diversity score is
    positive and at most [1 - 1/(2(1+n))] for [n] texts: never the 1.0
    of the docstring, and at most 0.75 for a single text.  It reaches
    that bound exactly when no token occurs twice. *)
Theorem diversity_below_one (texts : list string) :
  all_tokens texts ≠ [] →
  let bound := 1 - 0.5 * (1 / (1 + Num.of_nat (length texts))) in
  0 < _calculate_content_diversity texts
  ∧ _calculate_content_diversity texts <= bound
  ∧ bound < 1
  ∧ (_calculate_content_diversity texts == bound ↔ NoDup (all_tokens texts)).
Proof.
  intros Hne bound. unfold _calculate_content_diversity.
  destruct texts as [|t texts]; [done|].
  destruct (all_tokens (t :: texts)) as [|w ws]; [done|].
  change (length (w :: ws) =? 0)%nat with false. cbv iota.
  set (u := size _). set (n := length (w :: ws)). set (m := length (t :: texts)) in *.
  change (1 - 0.5 * (1 / (1 + Num.of_nat m))) with bound.
  assert (Hu : (u ≤ n)%nat) by apply size_list_to_set_le.
  assert (Hu1 : (1 ≤ u)%nat).
  { subst u. rewrite list_to_set_cons.
    pose proof (union_subseteq_l ({[w]} : gset string) (list_to_set ws)) as Hsub.
    apply subseteq_size in Hsub. rewrite size_singleton in Hsub. exact Hsub. }
  assert (Hn : 0 < Num.of_nat n) by (apply of_nat_pos; subst n; simpl; lia).
  assert (Hm : 0 <= Num.of_nat m) by apply of_nat_nonneg.
  assert (Hb : (3 # 4) <= bound ∧ bound < 1).
  { subst bound.
    assert (Hinv : 0 < 1 / (1 + Num.of_nat m) ∧ 1 / (1 + Num.of_nat m) <= 1 # 2).
    { assert (H1 : 1 <= Num.of_nat m).
      { change 1 with (Num.of_nat 1). apply of_nat_le. subst m. simpl. lia. }
      split; [apply Qlt_shift_div_l; lra|apply Qle_shift_div_r; lra]. }
    lra. }
  clearbody bound.
  set (ttr := Num.of_nat u / Num.of_nat n).
  assert (Httr : 0 < ttr ∧ ttr <= 1).
  { subst ttr. split.
    - apply Qlt_shift_div_l; [exact Hn|]. rewrite Qmult_0_l. by apply of_nat_pos.
    - apply Qle_shift_div_r; [exact Hn|]. rewrite Qmult_1_l. by apply of_nat_le. }
  destruct Hb as [Hb0 Hb1], Httr as [Ht0 Ht1].
  split; [nra|]. split; [nra|]. split; [exact Hb1|].
  rewrite <- size_length_nodup. fold u n.
  assert (Hnz : ¬ Num.of_nat n == 0).
  { intros Hz. rewrite Hz in Hn. by apply Qlt_irrefl in Hn. }
  assert (Hmul : Num.of_nat u == ttr * Num.of_nat n) by (subst ttr; by field).
  split.
  - intros Heq. assert (H1 : ttr == 1).
    { apply (Qmult_inj_r _ _ bound); [intros Hz; rewrite Hz in Hb0; lra|].
      rewrite Heq. ring. }
    rewrite H1, Qmult_1_l in Hmul.
    unfold Num.of_nat in Hmul. apply (proj1 (inject_Z_injective _ _)) in Hmul.
    exact (Nat2Z.inj _ _ Hmul).
  - intros Heq. rewrite Heq in Hmul.
    assert (H1 : ttr == 1).
    { apply (Qmult_inj_r _ _ (Num.of_nat n) Hnz). rewrite <- Hmul. ring. }
    rewrite H1. ring.
Qed.

Lemma diversity_below_one_witness :
  all_tokens ["to be or not to be"%string] ≠ []
  ∧ _calculate_content_diversity ["to be or not to be"%string] <= 0.75
  ∧ ¬ NoDup (all_tokens ["to be or not to be"%string]).
Proof.
  assert (Hne : all_tokens ["to be or not to be"%string] ≠ []) by discriminate.
  destruct (diversity_below_one ["to be or not to be"%string] Hne) as (_ & Hle & _ & Hiff).
  split; [exact Hne|]. split.
  - eapply Qle_trans; [exact Hle|]. by_evaluation.
  - by_evaluation.
Defined.

Lemma lower_char_class c :
  Str.ispunct (Str.lower_char c) = Str.ispunct c
  ∧ Str.isspace (Str.lower_char c) = Str.isspace c.
Proof.
  destruct c as [b0 b1 b2 b3 b4 b5 b6 b7].
  destruct b0, b1, b2, b3, b4, b5, b6, b7; split; reflexivity.
Qed.

Lemma lower_chars s :
  String.list_ascii_of_string (Str.lower s)
  = List.map Str.lower_char (String.list_ascii_of_string s).
Proof. induction s as [|c s IH]; [reflexivity|]. simpl. by rewrite <- IH. Qed.

Lemma lower_of_chars cs :
  Str.lower (String.string_of_list_ascii cs)
  = String.string_of_list_ascii (List.map Str.lower_char cs).
Proof. induction cs as [|c cs IH]; [reflexivity|]. simpl. by rewrite <- IH. Qed.

Lemma lower_filter_punct s :
  Str.filter (fun c => negb (Str.ispunct c)) (Str.lower s)
  = Str.lower (Str.filter (fun c => negb (Str.ispunct c)) s).
Proof.
  unfold Str.lower. induction s as [|c s IH]; [reflexivity|]. simpl.
  rewrite (proj1 (lower_char_class c)). destruct (Str.ispunct c); simpl; by rewrite IH.
Qed.

Lemma lower_flush word :
  Str.flush (List.map Str.lower_char word) = List.map Str.lower (Str.flush word).
Proof.
  destruct word as [|c word]; [reflexivity|].
  unfold Str.flush. cbn [List.map]. by rewrite lower_of_chars, map_rev.
Qed.

Lemma lower_split_go cs : ∀ word,
  Str.split_go (List.map Str.lower_char word) (List.map Str.lower_char cs)
  = List.map Str.lower (Str.split_go word cs).
Proof.
  induction cs as [|c cs IH]; intros word; simpl; [apply lower_flush|].
  rewrite (proj2 (lower_char_class c)). destruct (Str.isspace c).
  - rewrite map_app, lower_flush. f_equal. apply (IH []).
  - apply (IH (c :: word)).
Qed.

Lemma lower_truthy w : Str.truthy (Str.lower w) = Str.truthy w.
Proof. by destruct w. Qed.

Lemma filter_map_truthy ws :
  List.filter Str.truthy (List.map Str.lower ws)
  = List.map Str.lower (List.filter Str.truthy ws).
Proof.
  induction ws as [|w ws IH]; [reflexivity|]. simpl. rewrite lower_truthy.
  destruct (Str.truthy w); simpl; by rewrite IH.
Qed.

(** Tokenizing commutes with lowering the case. *)
Lemma tokenize_lower text :
  _tokenize (Str.lower text) = List.map Str.lower (_tokenize text).
Proof.
  unfold _tokenize, Str.split.
  rewrite lower_filter_punct, lower_chars, <- filter_map_truthy. f_equal.
  apply (lower_split_go _ []).
Qed.

Lemma sum_nat_le {A} (f g : A → nat) xs :
  (∀ x, (f x ≤ g x)%nat) → (sum_nat f xs ≤ sum_nat g xs)%nat.
Proof.
  intros Hfg. induction xs as [|x xs IH]; [reflexivity|].
  rewrite !sum_nat_cons. specialize (Hfg x). lia.
Qed.

Lemma keywords_le_words texts :
  (_count_suspicious_keywords texts
   ≤ sum_nat (fun text => length (_tokenize text)) texts)%nat.
Proof.
  unfold _count_suspicious_keywords. apply sum_nat_le. intros text.
  etransitivity; [apply count_if_le_length|].
  change (length (elements ?X)) with (size X).
  etransitivity; [apply size_list_to_set_le|].
  by rewrite tokenize_lower, length_map.
Qed.

(** X14.  The keyword ratio of the content analysis lies between 0 and 1:
    the keywords are counted among the distinct words of each text, and
    there are no more of those than tokens. *)
Theorem keyword_ratio_unit (L : PyLib) (profile : Profile.t) (ratio : Q) :
  analyze L profile !! "keyword_ratio"%string = Some (VNum ratio) →
  0 <= ratio ∧ ratio <= 1.
Proof.
  unfold analyze, neutral.
  destruct (Profile.posts profile) as [|p posts]; [done|].
  destruct (List.filter _ _) as [|t texts]; [done|].
  set (texts' := t :: texts).
  set (words := sum_nat _ texts'). set (keywords := _count_suspicious_keywords texts').
  set (score := _calculate_suspicious_score _ _ _ _ _).
  assert (Hlookup : ∀ a b c d e f g : value,
            ({[ "content_analysis_performed"%string := a; "sentiment_score"%string := b;
                "content_diversity"%string := c; "suspicious_content_score"%string := d;
                "spam_pattern_matches"%string := e;
                "suspicious_keywords_count"%string := f;
                "keyword_ratio"%string := g ]} : gmap string value)
            !! "keyword_ratio"%string = Some g) by reflexivity.
  rewrite Hlookup. intros [= <-].
  pose proof (keywords_le_words texts') as Hle. fold keywords words in Hle.
  destruct (0 <? words)%nat eqn:E; [|lra].
  apply Nat.ltb_lt in E.
  apply (div_unit (Num.of_nat keywords) (Num.of_nat words));
    [by apply of_nat_pos | apply of_nat_nonneg | by apply of_nat_le].
Qed.

Lemma keyword_ratio_unit_witness :
  ∃ ratio, analyze RefLib.lib lively_profile !! "keyword_ratio"%string = Some (VNum ratio)
           ∧ 0 < ratio ∧ ratio <= 1.
Proof.
  assert (H : analyze RefLib.lib lively_profile !! "keyword_ratio"%string
              = Some (VNum (Qmake 4 10))).
  { vm_compute. reflexivity. }
  exists (Qmake 4 10). split; [exact H|]. split; [reflexivity|].
  exact (proj2 (keyword_ratio_unit RefLib.lib lively_profile _ H)).
Defined.

Lemma min1_monotone a b : a <= b → Num.min 1 a <= Num.min 1 b.
Proof.
  intros Hab.
  destruct (min_cases 1 a) as [[Ha ->]|[Ha ->]], (min_cases 1 b) as [[Hb ->]|[Hb ->]]; lra.
Qed.

(** X15.  The suspicious-content score is monotone in its evidence: for
    the same sentiment and number of texts, more spam pattern matches, a
    higher keyword ratio and a lower diversity never lower the score; and
    it is 0 for neutral sentiment, full diversity, no match and no
    keyword. *)
Theorem suspicious_score_monotone (sentiment d1 d2 k1 k2 : Q) (m1 m2 n : nat) :
  d2 <= d1 → (m1 ≤ m2)%nat → k1 <= k2 →
  _calculate_suspicious_score sentiment d1 m1 k1 n
  <= _calculate_suspicious_score sentiment d2 m2 k2 n
  ∧ _calculate_suspicious_score 0.5 1 0 0 n == 0.
Proof.
  intros Hd Hm Hk. split.
  - unfold _calculate_suspicious_score.
    assert (Hspam : (if (0 <? n)%nat then Num.min 1 (Num.of_nat m1 / Num.of_nat n) else 0)
                    <= (if (0 <? n)%nat then Num.min 1 (Num.of_nat m2 / Num.of_nat n) else 0)).
    { destruct (0 <? n)%nat eqn:E; [|lra]. apply Nat.ltb_lt in E.
      apply min1_monotone. apply Qmult_le_compat_r; [by apply of_nat_le|].
      apply Qinv_le_0_compat, of_nat_nonneg. }
    assert (Hkw : Num.min 1 (k1 * 10) <= Num.min 1 (k2 * 10)) by (apply min1_monotone; lra).
    lra.
  - unfold _calculate_suspicious_score. destruct (0 <? n)%nat eqn:E.
    + apply Nat.ltb_lt in E.
      assert (H0 : Num.of_nat 0 / Num.of_nat n == 0).
      { unfold Qdiv. change (Num.of_nat 0) with 0. ring. }
      assert (H1 : Num.min 1 (Num.of_nat 0 / Num.of_nat n) == 0).
      { destruct (min_cases 1 (Num.of_nat 0 / Num.of_nat n)) as [[_ ->]|[Hc _]]; [exact H0|].
        rewrite H0 in Hc. lra. }
      rewrite H1. reflexivity.
    + reflexivity.
Qed.

Lemma suspicious_score_monotone_witness :
  _calculate_suspicious_score 0.5 0.8 1 0.1 4
  <= _calculate_suspicious_score 0.5 0.4 3 0.2 4.
Proof.
  refine (proj1 (suspicious_score_monotone 0.5 0.8 0.4 0.1 0.2 1 3 4 _ _ _)).
  - by_evaluation.
  - lia.
  - by_evaluation.
Defined.


End Content.

(** ** The activity patterns *)

Section Activity.

Import ActivityAnalyzer.

#[local] Instance Zle_antisymm : AntiSymm (=) Z.le.
Proof. intros x y ? ?. lia. Qed.

Lemma sorted_permutation ts1 ts2 : ts1 ≡ₚ ts2 → sorted ts1 = sorted ts2.
Proof.
  intros Hp. apply (StronglySorted_unique Z.le); [apply sorted_strongly..|].
  unfold sorted. by rewrite !merge_sort_Permutation.
Qed.

Lemma count_if_permutation {A} (p : A → bool) xs ys :
  xs ≡ₚ ys → count_if p xs = count_if p ys.
Proof.
  unfold count_if. induction 1 as [|x xs ys _ IH|x y xs|xs ys zs _ IH1 _ IH2]; simpl.
  - reflexivity.
  - destruct (p x); simpl; by rewrite IH.
  - by destruct (p x), (p y).
  - by rewrite IH1.
Qed.

Lemma sum_nat_ext {A} (f g : A → nat) xs :
  (∀ x, f x = g x) → sum_nat f xs = sum_nat g xs.
Proof.
  intros Hfg. induction xs as [|x xs IH]; [reflexivity|].
  by rewrite !sum_nat_cons, Hfg, IH.
Qed.

Lemma max_window_posts_ext hours1 hours2 :
  (∀ h, hour_count hours1 h = hour_count hours2 h) →
  max_window_posts hours1 = max_window_posts hours2.
Proof.
  intros Hc. unfold max_window_posts.
  assert (Hw : ∀ s, posts_in_window hours1 s = posts_in_window hours2 s).
  { intros s. unfold posts_in_window. by apply sum_nat_ext. }
  assert (Hfold : ∀ ss acc,
            fold_left (fun acc s => Nat.max acc (posts_in_window hours1 s)) ss acc
            = fold_left (fun acc s => Nat.max acc (posts_in_window hours2 s)) ss acc).
  { induction ss as [|s ss IH]; intros acc; [reflexivity|]. simpl. by rewrite Hw, IH. }
  apply Hfold.
Qed.

(** X17.  The three pattern scores depend on the time stamps only, not on
    the order in which the posts are listed: reordering the posts
    changes neither the regularity, nor the time-zone consistency, nor
    the number of bursts. *)
Theorem activity_order_independent (L : PyLib) (timestamps1 timestamps2 : list datetime) :
  timestamps1 ≡ₚ timestamps2 →
  _analyze_posting_regularity L timestamps1 = _analyze_posting_regularity L timestamps2
  ∧ _analyze_time_zone_consistency timestamps1 = _analyze_time_zone_consistency timestamps2
  ∧ _detect_posting_bursts timestamps1 = _detect_posting_bursts timestamps2.
Proof.
  intros Hp. pose proof (Permutation_length Hp) as Hlen.
  pose proof (sorted_permutation _ _ Hp) as Hs.
  split; [|split].
  - unfold _analyze_posting_regularity. by rewrite Hlen, Hs.
  - unfold _analyze_time_zone_consistency. rewrite Hlen, !length_map, Hlen.
    rewrite (max_window_posts_ext (List.map Time.hour timestamps1)
               (List.map Time.hour timestamps2)); [reflexivity|].
    intros h. apply count_if_permutation. by apply Permutation_map.
  - unfold _detect_posting_bursts. by rewrite Hlen, Hs.
Qed.

Lemma activity_order_independent_witness :
  _detect_posting_bursts (List.map Time.minutes [40; 5; 0; 2]%Z)
  = _detect_posting_bursts four_posts.
Proof.
  refine (proj2 (proj2 (activity_order_independent RefLib.lib
                          (List.map Time.minutes [40; 5; 0; 2]%Z) four_posts _))).
  apply Permutation_map.
  change [40; 5; 0; 2]%Z with ([40; 5]%Z ++ [0; 2]%Z).
  change [0; 2; 5; 40]%Z with ([0; 2]%Z ++ [5; 40]%Z).
  rewrite Permutation_app_comm. apply Permutation_app_head, perm_swap.
Defined.

Lemma greedy_scan_bound ts : ∀ skip,
  (3 * greedy_scan skip ts ≤ length ts - skip)%nat.
Proof.
  induction ts as [|t rest IH]; intros skip; [simpl; lia|].
  destruct skip as [|k].
  - rewrite greedy_scan_cons.
    pose proof (within_le_length (t + burst_window)%Z (t :: rest)) as Hn.
    destruct (3 <=? within (t + burst_window)%Z (t :: rest))%nat eqn:E.
    + apply Nat.leb_le in E.
      specialize (IH (within (t + burst_window)%Z (t :: rest) - 1)%nat).
      simpl length in *. lia.
    + specialize (IH 0%nat). simpl length. lia.
  - specialize (IH k). simpl. lia.
Qed.

(** X18.  Every burst uses up at least three posts: three times the
    number of detected bursts never exceeds the number of time stamps. *)
Theorem bursts_need_three_posts (timestamps : list datetime) :
  (3 * _detect_posting_bursts timestamps ≤ length timestamps)%nat.
Proof.
  rewrite detect_posting_bursts_spec. unfold greedy_bursts.
  pose proof (greedy_scan_bound (sorted timestamps) 0) as H.
  rewrite sorted_length in H. lia.
Qed.

Lemma Nat2Z_inj_mul_Q (n m : nat) : Num.of_nat (n * m) == Num.of_nat n * Num.of_nat m.
Proof. unfold Num.of_nat. by rewrite Nat2Z.inj_mul, inject_Z_mult. Qed.

Lemma fold_max_bounds (f : nat → nat) ss : ∀ acc,
  (acc ≤ fold_left (fun acc s => Nat.max acc (f s)) ss acc)%nat
  ∧ ∀ s, s ∈ ss → (f s ≤ fold_left (fun acc s => Nat.max acc (f s)) ss acc)%nat.
Proof.
  induction ss as [|s0 ss IH]; intros acc; simpl.
  - split; [lia|]. intros s Hs. by apply elem_of_nil in Hs.
  - destruct (IH (Nat.max acc (f s0))) as [Hacc Hall]. split; [lia|].
    intros s Hs. apply elem_of_cons in Hs as [->|Hs]; [lia|by apply Hall].
Qed.

Lemma hour_count_cons x hours h :
  hour_count (x :: hours) h = ((if (x =? h)%nat then 1 else 0) + hour_count hours h)%nat.
Proof. unfold hour_count, count_if. simpl. by destruct (x =? h)%nat. Qed.

Lemma sum_nat_add {A} (f g : A → nat) xs :
  sum_nat (fun x => (f x + g x)%nat) xs = (sum_nat f xs + sum_nat g xs)%nat.
Proof.
  induction xs as [|x xs IH]; [reflexivity|]. rewrite !sum_nat_cons, IH. lia.
Qed.

Lemma sum_nat_app {A} (f : A → nat) xs ys :
  sum_nat f (xs ++ ys) = (sum_nat f xs + sum_nat f ys)%nat.
Proof. unfold sum_nat at 1. by rewrite fold_left_app, sum_nat_acc. Qed.

Lemma one_hit_per_day x :
  (x < 24)%nat → sum_nat (fun h => if (x =? h)%nat then 1 else 0)%nat (seq 0 24) = 1%nat.
Proof.
  intros Hx. do 24 (destruct x as [|x]; [reflexivity|]). lia.
Qed.

(** All posts of a day fall in one of its 24 hours. *)
Lemma hour_counts_total hours :
  Forall (fun h => (h < 24)%nat) hours →
  sum_nat (hour_count hours) (seq 0 24) = length hours.
Proof.
  induction 1 as [|x hours Hx _ IH]; [reflexivity|].
  rewrite (sum_nat_ext _ _ _ (hour_count_cons x hours)), sum_nat_add, IH,
    (one_hit_per_day x Hx). reflexivity.
Qed.

(** The windows from 0, 8 and 16 o'clock share the posts among them. *)
Lemma three_windows hours :
  Forall (fun h => (h < 24)%nat) hours →
  (posts_in_window hours 0 + posts_in_window hours 8 + posts_in_window hours 16
   = length hours)%nat.
Proof.
  intros Hh. rewrite <- (hour_counts_total hours Hh).
  change (seq 0 24) with (seq 0 8 ++ seq 8 8 ++ seq 16 8).
  rewrite !sum_nat_app. unfold posts_in_window.
  rewrite !(sum_nat_map (hour_count hours) (fun h => h mod 24)%nat).
  change (List.map (fun h => h mod 24)%nat (seq 0 8)) with (seq 0 8).
  change (List.map (fun h => h mod 24)%nat (seq 8 8)) with (seq 8 8).
  change (List.map (fun h => h mod 24)%nat (seq 16 8)) with (seq 16 8).
  lia.
Qed.

(** X19.  The time-zone consistency is never below one third: the windows
    of eight hours from 0, 8 and 16 o'clock share all posts among them,
    so the best window holds at least a third of the posts. *)
Theorem time_zone_consistency_floor (timestamps : list datetime) :
  (1 # 3) <= _analyze_time_zone_consistency timestamps
  ∧ _analyze_time_zone_consistency timestamps <= 1.
Proof.
  split; [|apply time_zone_consistency_unit].
  unfold _analyze_time_zone_consistency.
  destruct (length timestamps <? 5)%nat eqn:E; [by_evaluation|].
  apply Nat.ltb_ge in E. rewrite length_map.
  pose proof (three_windows _ (hours_lt_24 timestamps)) as Hsum.
  rewrite length_map in Hsum.
  set (hours := List.map Time.hour timestamps) in *.
  destruct (fold_max_bounds (posts_in_window hours) (seq 0 24) 0) as [_ Hmax].
  fold (max_window_posts hours) in Hmax.
  pose proof (Hmax 0%nat ltac:(by_evaluation)) as H0.
  pose proof (Hmax 8%nat ltac:(by_evaluation)) as H8.
  pose proof (Hmax 16%nat ltac:(by_evaluation)) as H16.
  assert (H3 : (length timestamps ≤ 3 * max_window_posts hours)%nat) by lia.
  apply Qle_shift_div_l; [apply of_nat_pos; lia|].
  apply of_nat_le in H3. rewrite Nat2Z_inj_mul_Q in H3.
  change (Num.of_nat 3) with 3 in H3. lra.
Qed.

(** X20.  The activity analyzer does fall back on an age of 365 days when
    no format parses the creation date (the feature extractor, on the
    same input, writes no age at all): with posts it reports
    [account_age_days] 365 and the frequency posts/365; without posts its
    result has no [account_age_days] entry. *)
Theorem activity_age_default (L : PyLib) (now : datetime) (profile : Profile.t) :
  undated L profile →
  analyze L now profile !! "account_age_days"%string
  = match Profile.posts profile with
    | [] => None
    | _ :: _ => Some (VNum 365)
    end
  ∧ analyze L now profile !! "posts_per_day"%string
    = Some (VNum match Profile.posts profile with
                 | [] => 0
                 | _ :: _ => Num.of_nat (length (Profile.posts profile)) / 365
                 end).
Proof.
  intros Hun. unfold analyze. rewrite (undated_age L now profile Hun).
  destruct (Profile.posts profile) as [|p posts]; [split; literal_lookup|].
  destruct (post_timestamps L (p :: posts)); split; literal_lookup.
Qed.

Lemma activity_age_default_witness :
  analyze RefLib.lib 0%Z undated_poster !! "account_age_days"%string = Some (VNum 365)
  ∧ analyze RefLib.lib 0%Z undated_poster !! "posts_per_day"%string
    = Some (VNum (1 / 365)).
Proof.
  refine (activity_age_default RefLib.lib 0%Z undated_poster _).
  intros v d [= <-]. vm_compute. discriminate.
Defined.











End Activity.

(** ** The network scores *)

Section Network.

Import NetworkAnalyzer.

(** X22.  The clustering estimate stays within the range the source
    names: between 0.05 and 0.8 (the neutral 0.5 when no user id is
    known).  The three overlaps together never exceed the three sets. *)
Theorem clustering_range (followers following interactions : list User.t) :
  0.05 <= _estimate_clustering followers following interactions
  ∧ _estimate_clustering followers following interactions <= 0.8.
Proof.
  unfold _estimate_clustering.
  set (A := id_set followers). set (B := id_set following). set (C := id_set interactions).
  destruct (size A + size B + size C =? 0)%nat eqn:E; [split; by_evaluation|].
  apply Nat.eqb_neq in E.
  pose proof (size_inter_l A B) as Hab. pose proof (size_inter_r A C) as Hac.
  pose proof (size_inter_l B C) as Hbc.
  set (overlap := (size (A ∩ B) + size (A ∩ C) + size (B ∩ C))%nat) in *.
  set (total := (size A + size B + size C)%nat) in *.
  assert (Hraw : Num.in_unit (Num.of_nat overlap / Num.of_nat total)).
  { apply div_unit; [apply of_nat_pos; lia | apply of_nat_nonneg | apply of_nat_le; lia]. }
  destruct Hraw as [Hlo Hhi]. split; lra.
Qed.

(** X23.  The isolation estimated from the counts never grows with the
    number of followers and never falls with the number of accounts
    followed, and it lies between 0.15 and 0.75. *)
Theorem isolation_estimate_monotone (followers1 followers2 following1 following2 : Z) :
  (followers1 ≤ followers2)%Z → (following2 ≤ following1)%Z →
  _estimate_isolation_from_counts followers2 following2
  <= _estimate_isolation_from_counts followers1 following1
  ∧ 0.15 <= _estimate_isolation_from_counts followers2 following2
  ∧ _estimate_isolation_from_counts followers1 following1 <= 0.75.
Proof.
  intros Hf Hg. unfold _estimate_isolation_from_counts.
  rewrite !Z.gtb_ltb.
  repeat match goal with
         | |- context [(?a <? ?b)%Z] => destruct (Z.ltb_spec a b)
         end; simpl; try lia; repeat split; by_evaluation.
Qed.

Lemma isolation_estimate_monotone_witness :
  _estimate_isolation_from_counts 200 300 <= _estimate_isolation_from_counts 5 2000.
Proof.
  refine (proj1 (isolation_estimate_monotone 5 200 2000 300 _ _)); lia.
Defined.

Lemma ratio_zero (a d : nat) :
  (a ≤ d)%nat →
  (if (0 <? d)%nat then Num.of_nat a / Num.of_nat d else 0) == 0 ↔ a = 0%nat.
Proof.
  intros Had. destruct (0 <? d)%nat eqn:E.
  - apply Nat.ltb_lt in E. pose proof (of_nat_pos d E) as Hd.
    assert (Hdz : ¬ Num.of_nat d == 0).
    { intros Hz. rewrite Hz in Hd. by apply Qlt_irrefl in Hd. }
    split.
    + intros H0. assert (Ha : Num.of_nat a == 0).
      { rewrite <- (Qmult_div_r (Num.of_nat a) (Num.of_nat d) Hdz), H0. ring. }
      unfold Num.of_nat in Ha. change 0 with (inject_Z 0) in Ha.
      apply (proj1 (inject_Z_injective _ _)) in Ha. lia.
    + intros ->. change (Num.of_nat 0) with 0. unfold Qdiv. ring.
  - apply Nat.ltb_ge in E. split; [lia|reflexivity].
Qed.

(** X24.  A profile is fully isolated (score 1) exactly when no follower
    is followed back and no follower has been interacted with; any shared
    id lowers the score. *)
Theorem isolation_is_one_iff_disjoint (followers following interactions : list User.t)
    (followers_count following_count : Z) :
  _calculate_network_isolation followers following interactions
    followers_count following_count == 1
  ↔ size (id_set followers ∩ id_set following) = 0%nat
    ∧ size (id_set followers ∩ id_set interactions) = 0%nat.
Proof.
  unfold _calculate_network_isolation.
  set (A := id_set followers). set (B := id_set following). set (C := id_set interactions).
  pose proof (ratio_zero (size (A ∩ B)) (size B) (size_inter_r A B)) as Hm.
  pose proof (ratio_zero (size (A ∩ C)) (size A) (size_inter_l A C)) as Hi.
  pose proof (ratio_unit (size (A ∩ B)) (size B) (size_inter_r A B)) as [Hm0 _].
  pose proof (ratio_unit (size (A ∩ C)) (size A) (size_inter_l A C)) as [Hi0 _].
  set (mutual_ratio := if (0 <? size B)%nat then _ else _) in *.
  set (interaction_ratio := if (0 <? size A)%nat then _ else _) in *.
  rewrite <- Hm, <- Hi. split.
  - intros H1. split; lra.
  - intros [-> ->]. reflexivity.
Qed.

(** X25.  The feature extractor and the network analyzer compute the
    follower-to-following ratio by the same rule as long as the number
    of accounts followed is not negative: followers over following, 1
    when both are zero, 100 when only following is zero. *)
Theorem ratio_rules_agree (L : PyLib) (now : datetime) (profile : Profile.t) :
  (0 ≤ default 0 (Profile.following_count profile))%Z →
  FeatureExtractor._extract_account_metrics L now profile
    !! "followers_to_following_ratio"%string
  = Some (VNum (_calculate_ratio
                  match Profile.followers_count profile with
                  | Some n => n
                  | None => default 0%Z (Profile.friend_count profile)
                  end
                  (default 0%Z (Profile.following_count profile)))).
Proof.
  intros Hge. unfold FeatureExtractor._extract_account_metrics, _calculate_ratio.
  rewrite lookup_insert_ne, lookup_insert_eq by discriminate.
  set (gc := default 0%Z (Profile.following_count profile)) in *.
  rewrite Z.gtb_ltb.
  destruct (Z.ltb_spec 0 gc), (Z.eqb_spec gc 0); try reflexivity; lia.
Qed.

Lemma ratio_rules_agree_witness :
  FeatureExtractor._extract_account_metrics RefLib.lib 0%Z friends_profile
    !! "followers_to_following_ratio"%string = Some (VNum 100).
Proof.
  refine (ratio_rules_agree RefLib.lib 0%Z friends_profile _). by_evaluation.
Defined.

End Network.

(** ** The feature extractor *)

Section Features.

Import FeatureExtractor.

(** X26.  Whenever the feature extractor returns, its activity features
    are constants: engagement rate 0, median gap 24 hours, entropy 0 and
    time consistency 0.5, whatever the posts and their likes.  (It
    returns only when no time stamp parses, and reads the follower count
    from its own empty dictionary.) *)
Theorem activity_features_are_constants (L : PyLib) (now : datetime) (profile : Profile.t)
    (features : gmap string value) :
  extract_features L now profile = Ok features →
  features !! "engagement_rate"%string = Some (VNum 0)
  ∧ features !! "median_hours_between_posts"%string = Some (VNum 24)
  ∧ features !! "posting_time_entropy"%string = Some (VNum 0)
  ∧ features !! "time_consistency"%string = Some (VNum 0.5).
Proof.
  intros Hx. pose proof (FeatureExtractor_lookup L now profile features Hx) as Hk.
  repeat split; rewrite Hk by by_evaluation; reflexivity.
Qed.

Lemma activity_features_are_constants_witness :
  entry (extract_features RefLib.lib 0%Z lively_profile) "followers_count"
  = Ok (Some (VNum 5))
  ∧ entry (extract_features RefLib.lib 0%Z lively_profile) "engagement_rate"
    = Ok (Some (VNum 0)).
Proof.
  split; [vm_compute; reflexivity|].
  assert (Hok : returns (extract_features RefLib.lib 0%Z lively_profile) = true).
  { vm_compute. reflexivity. }
  destruct (extract_features RefLib.lib 0%Z lively_profile) as [features|e] eqn:E;
    [|discriminate Hok].
  simpl. f_equal.
  exact (proj1 (activity_features_are_constants RefLib.lib 0%Z lively_profile features E)).
Defined.

Lemma consecutive_digits_bounds cs : ∀ max_consecutive current,
  (max_consecutive ≤ consecutive_digits cs max_consecutive current)%nat
  ∧ (consecutive_digits cs max_consecutive current
     ≤ Nat.max max_consecutive (current + count_if Str.isdigit cs))%nat.
Proof.
  induction cs as [|c cs IH]; intros m k; simpl.
  - change (count_if Str.isdigit []) with 0%nat. lia.
  - rewrite count_if_cons. destruct (Str.isdigit c); simpl.
    + destruct (IH (Nat.max m (S k)) (S k)). lia.
    + destruct (IH m 0%nat). lia.
Qed.

Lemma consecutive_digits_positive cs : ∀ max_consecutive current,
  (0 < count_if Str.isdigit cs)%nat →
  (0 < consecutive_digits cs max_consecutive current)%nat.
Proof.
  induction cs as [|c cs IH]; intros m k; [by vm_compute; lia|].
  rewrite count_if_cons. simpl. destruct (Str.isdigit c); simpl; intros H.
  - destruct (consecutive_digits_bounds cs (Nat.max m (S k)) (S k)). lia.
  - by apply IH.
Qed.

(** X27.  The digit features of a user name are consistent: the longest
    run of digits is at most the number of digits, which is at most the
    length; the digit ratio lies between 0 and 1; and the longest run is
    0 exactly when the name holds no digit. *)
Theorem username_digit_features (profile : Profile.t) (username : string) :
  Profile.username profile = Some username → Str.truthy username = true →
  ∃ run digits : nat,
    _extract_profile_features profile !! "username_max_consecutive_digits"%string
    = Some (VNum (Num.of_nat run))
    ∧ _extract_profile_features profile !! "username_digit_ratio"%string
      = Some (VNum (Num.of_nat digits / Num.of_nat (Str.len username)))
    ∧ _extract_profile_features profile !! "username_length"%string
      = Some (VNum (Num.of_nat (Str.len username)))
    ∧ (run ≤ digits ≤ Str.len username)%nat
    ∧ (run = 0%nat ↔ digits = 0%nat).
Proof.
  intros Hu Ht. unfold _extract_profile_features. rewrite Hu. simpl default. rewrite Ht.
  set (cs := String.list_ascii_of_string username).
  exists (consecutive_digits cs 0 0), (count_if Str.isdigit cs).
  assert (Hlen : (0 <? Str.len username)%nat = true) by (by destruct username).
  rewrite Hlen.
  split; [literal_lookup|]. split; [literal_lookup|]. split; [literal_lookup|].
  destruct (consecutive_digits_bounds cs 0 0) as [_ Hrun]. simpl in Hrun.
  pose proof (count_if_le_length Str.isdigit cs) as Hd.
  assert (Hcs : length cs = Str.len username).
  { subst cs. unfold Str.len. clear. induction username; simpl; congruence. }
  split; [lia|]. split; [|lia].
  intros Hz. destruct (count_if Str.isdigit cs) as [|d] eqn:E; [reflexivity|].
  pose proof (consecutive_digits_positive cs 0 0) as Hpos. rewrite E in Hpos.
  specialize (Hpos ltac:(lia)). lia.
Qed.

Lemma username_digit_features_witness :
  ∃ run digits : nat,
    _extract_profile_features (named_profile "user_2024x7")
      !! "username_max_consecutive_digits"%string = Some (VNum (Num.of_nat run))
    ∧ (run ≤ digits ≤ 11)%nat.
Proof.
  destruct (username_digit_features (named_profile "user_2024x7") "user_2024x7"
              eq_refl eq_refl) as (run & digits & Hrun & _ & _ & Hle & _).
  exists run, digits. split; [exact Hrun|exact Hle].
Defined.

Lemma account_metrics_other L now profile k :
  k ∉ ["account_age_days"; "followers_count"; "following_count";
       "followers_to_following_ratio"; "post_count"]%string →
  _extract_account_metrics L now profile !! k = None.
Proof.
  intros Hk. rewrite !not_elem_of_cons in Hk. destruct Hk as (Hage&?&?&?&?&_).
  unfold _extract_account_metrics. rewrite !lookup_insert_ne by done.
  unfold account_age_entry.
  repeat case_match; first [apply lookup_empty | by apply lookup_singleton_ne].
Qed.

Lemma profile_features_other profile k :
  k ∉ ["is_verified"; "is_private"; "username_length"; "username_digit_ratio";
       "username_underscore_count"; "username_max_consecutive_digits";
       "profile_completeness"]%string →
  _extract_profile_features profile !! k = None.
Proof.
  intros Hk. rewrite !not_elem_of_cons in Hk. destruct Hk as (?&?&?&?&?&?&?&_).
  unfold _extract_profile_features.
  destruct (Str.truthy _); rewrite lookup_insert_ne, lookup_update by done;
    by simplify_map_eq.
Qed.

(** The features every platform gets hold none of the platform keys. *)
Lemma common_features_other L now profile k :
  k ∈ ["retweet_ratio"; "has_igtv"; "page_likes_count"]%string →
  update (update (update (update ∅ (_extract_account_metrics L now profile))
                    activity_defaults)
            (_extract_content_features profile))
    (_extract_profile_features profile) !! k = None.
Proof.
  intros Hk. rewrite !lookup_update.
  rewrite profile_features_other, content_features_other, account_metrics_other.
  - repeat (apply elem_of_cons in Hk as [->|Hk]; [reflexivity|]).
    by apply elem_of_nil in Hk.
  - repeat (apply elem_of_cons in Hk as [->|Hk]; [by_evaluation|]).
    by apply elem_of_nil in Hk.
  - repeat (apply elem_of_cons in Hk as [->|Hk]; [by_evaluation|]).
    by apply elem_of_nil in Hk.
  - repeat (apply elem_of_cons in Hk as [->|Hk]; [by_evaluation|]).
    by apply elem_of_nil in Hk.
Qed.

(** X28.  The platform features follow the platform, compared without
    regard to case: the Twitter features are present exactly for
    "twitter" and "x", the Instagram features exactly for "instagram",
    the Facebook features exactly for "facebook"; any other platform adds
    nothing. *)
Theorem platform_features_by_platform (L : PyLib) (now : datetime) (profile : Profile.t)
    (features : gmap string value) :
  extract_features L now profile = Ok features →
  (is_Some (features !! "retweet_ratio"%string)
   ↔ platform_of profile = "twitter"%string ∨ platform_of profile = "x"%string)
  ∧ (is_Some (features !! "has_igtv"%string) ↔ platform_of profile = "instagram"%string)
  ∧ (is_Some (features !! "page_likes_count"%string)
     ↔ platform_of profile = "facebook"%string).
Proof.
  unfold extract_features.
  destruct (activity_features_cases L profile) as [[_ ->]|[_ ->]]; [|done].
  simpl. fold (platform_of profile). intros [= <-].
  pose proof (common_features_other L now profile) as Hbase.
  set (base := update _ (_extract_profile_features profile)) in *.
  assert (H1 := Hbase "retweet_ratio"%string ltac:(by_evaluation)).
  assert (H2 := Hbase "has_igtv"%string ltac:(by_evaluation)).
  assert (H3 := Hbase "page_likes_count"%string ltac:(by_evaluation)).
  destruct (String.eqb_spec (platform_of profile) "twitter") as [->|Ht];
    [|destruct (String.eqb_spec (platform_of profile) "x") as [->|Hx];
      [|destruct (String.eqb_spec (platform_of profile) "instagram") as [->|Hi];
        [|destruct (String.eqb_spec (platform_of profile) "facebook") as [->|Hf]]]];
    simpl; rewrite ?lookup_update, ?H1, ?H2, ?H3;
    unfold _extract_twitter_features, _extract_instagram_features,
      _extract_facebook_features;
    repeat split;
    first [ by intros [v Hv]
          | by intros [?|?]
          | done
          | (intros _; eexists; literal_lookup)
          | (intros _; by left)
          | (intros _; by right) ].
Qed.

Lemma platform_features_by_platform_witness :
  platform_of lively_profile = "twitter"%string
  ∧ match extract_features RefLib.lib 0%Z lively_profile with
    | Ok features =>
        is_Some (features !! "retweet_ratio"%string)
        ∧ features !! "has_igtv"%string = None
    | Raise _ => False
    end.
Proof.
  split; [reflexivity|].
  assert (Hok : returns (extract_features RefLib.lib 0%Z lively_profile) = true).
  { vm_compute. reflexivity. }
  destruct (extract_features RefLib.lib 0%Z lively_profile) as [features|e] eqn:E;
    [|discriminate Hok].
  destruct (platform_features_by_platform RefLib.lib 0%Z lively_profile features E)
    as (Ht & Hi & _).
  split.
  - apply Ht. by left.
  - destruct (features !! "has_igtv"%string) as [v|] eqn:Ev; [|reflexivity].
    assert (Hs : is_Some (Some v)) by (by eexists).
    apply Hi in Hs. discriminate Hs.
Defined.

End Features.

(** ** From a URL or a user name to the profile *)

Section Urls.

Import DataProcessor.

Lemma chars_reverse s : String.list_ascii_of_string (Str.reverse s) = rev (String.list_ascii_of_string s).
Proof. unfold Str.reverse. apply String.list_ascii_of_string_of_list_ascii. Qed.

Lemma reverse_involutive s : Str.reverse (Str.reverse s) = s.
Proof.
  unfold Str.reverse at 1. rewrite chars_reverse, rev_involutive.
  apply String.string_of_list_ascii_of_string.
Qed.

(** A match leaves at most the last character outside the class. *)
Lemma match_all_inner class s i c :
  match_all class s = true →
  String.list_ascii_of_string s !! i = Some c →
  (S i < length (String.list_ascii_of_string s))%nat →
  class c = true.
Proof.
  unfold match_all. generalize (String.list_ascii_of_string s). intros cs Hm Hi Hlen.
  assert (Hbody : ∀ body, (match body with [] => false | _ :: _ => forallb class body end) = true
                          → forallb class body = true).
  { intros [|? ?]; [done|auto]. }
  assert (Hcs : cs = rev (rev cs)) by (by rewrite rev_involutive).
  destruct (rev cs) as [|l rest]; simpl in Hcs.
  - subst cs. done.
  - destruct (Ascii.eqb l newline).
    + apply Hbody in Hm. subst cs.
      rewrite length_app in Hlen. simpl in Hlen.
      rewrite lookup_app_l in Hi by lia.
      rewrite forallb_forall in Hm. apply Hm.
      apply list_elem_of_In. by eapply list_elem_of_lookup_2.
    + apply Hbody in Hm. rewrite forallb_forall in Hm. apply Hm.
      apply list_elem_of_In. by eapply list_elem_of_lookup_2.
Qed.

(** A text with a colon in sixth place, and more after it, is no name. *)
Lemma url_is_no_name class (a b c d e : ascii) (rest : string) :
  class ":"%char = false → rest ≠ EmptyString →
  match_all class (String a (String b (String c (String d (String e (String ":" rest))))))
  = false.
Proof.
  intros Hc Hrest. destruct (match_all class _) eqn:E; [|reflexivity].
  rewrite <- Hc. symmetry.
  apply (match_all_inner class _ 5 ":"%char E); [reflexivity|].
  destruct rest; [done|]. simpl. lia.
Qed.

Lemma lstrip_char_keeps c s :
  forallb (fun c' => negb (Ascii.eqb c' c)) (String.list_ascii_of_string s) = true →
  lstrip_char c s = s.
Proof.
  destruct s as [|c' s]; [reflexivity|]. simpl. intros H.
  apply andb_true_iff in H as [H _]. apply negb_true_iff in H. by rewrite H.
Qed.

Lemma strip_char_keeps c s :
  forallb (fun c' => negb (Ascii.eqb c' c)) (String.list_ascii_of_string s) = true →
  strip_char c s = s.
Proof.
  intros H. unfold strip_char. rewrite (lstrip_char_keeps c s H).
  rewrite lstrip_char_keeps; [apply reverse_involutive|].
  by rewrite chars_reverse, forallb_reverse.
Qed.

Lemma split_go_one_piece sep cs : ∀ word,
  forallb (fun c => negb (Ascii.eqb c sep)) cs = true →
  split_go sep word cs = [String.string_of_list_ascii (rev word ++ cs)].
Proof.
  induction cs as [|c cs IH]; intros word H; simpl.
  - by rewrite app_nil_r.
  - simpl in H. apply andb_true_iff in H as [Hc Hcs]. apply negb_true_iff in Hc.
    rewrite Hc, IH by exact Hcs. simpl. by rewrite <- app_assoc.
Qed.

Lemma split_one_piece sep s :
  forallb (fun c => negb (Ascii.eqb c sep)) (String.list_ascii_of_string s) = true →
  split sep s = [s].
Proof.
  intros H. unfold split. rewrite split_go_one_piece by exact H. simpl.
  by rewrite String.string_of_list_ascii_of_string.
Qed.

Lemma plain_name_chars username (other : ascii → bool) :
  plain_name username = true →
  (∀ c, name_char c = true → other c = true) →
  forallb other (String.list_ascii_of_string username) = true.
Proof.
  unfold plain_name. intros H Hother. apply andb_true_iff in H as [_ H].
  by eapply forallb_weaken.
Qed.

Lemma name_char_not c (x : ascii) :
  name_char x = false → name_char c = true → negb (Ascii.eqb c x) = true.
Proof.
  intros Hx Hc. apply negb_true_iff. destruct (Ascii.eqb_spec c x) as [->|]; congruence.
Qed.

Lemma prefix_chars p : ∀ s,
  String.prefix p s = true →
  ∃ rest, String.list_ascii_of_string s = String.list_ascii_of_string p ++ rest.
Proof.
  induction p as [|a p IH]; intros s H; [by eexists|].
  destruct s as [|b s]; [done|]. simpl in H.
  destruct (ascii_dec a b) as [->|]; [|done].
  destruct (IH s H) as [rest Hrest]. exists rest. simpl. by rewrite Hrest.
Qed.

Lemma plain_name_no_prefix username :
  plain_name username = true → String.prefix "profile.php" username = false.
Proof.
  intros Hp. destruct (String.prefix "profile.php" username) eqn:E; [|reflexivity].
  apply prefix_chars in E as [rest Hrest].
  unfold plain_name in Hp. apply andb_true_iff in Hp as [_ Hp].
  rewrite Hrest in Hp. simpl in Hp. discriminate Hp.
Qed.

Lemma path_of_name username :
  plain_name username = true →
  first_segment (strip_char "/" ("/" +:+ username)) = Some username.
Proof.
  intros Hp.
  assert (Hslash : forallb (fun c => negb (Ascii.eqb c "/"))
                     (String.list_ascii_of_string username) = true).
  { apply (plain_name_chars username _ Hp). intros c. by apply name_char_not. }
  assert (Hs : strip_char "/" ("/" +:+ username) = username).
  { unfold strip_char. change (lstrip_char "/" ("/" +:+ username))
      with (lstrip_char "/" username).
    by apply strip_char_keeps. }
  rewrite Hs. unfold first_segment.
  assert (Ht : Str.truthy username = true).
  { unfold plain_name in Hp. by apply andb_true_iff in Hp as [-> _]. }
  by rewrite Ht, split_one_piece.
Qed.

(** X29.  The URL that [generate_profile_url] builds for a plain user name
    (letters, digits, underscores) on a supported platform leads back to
    that name: [extract_username_from_input] answers the name, through
    the path of the URL, or through the [id] of the query for a numeric
    Facebook name. *)
Theorem username_round_trip (urlparse : string → option ParseResult)
    (username platform : string) :
  platform ∈ supported_platforms →
  plain_name username = true →
  urlparse (generate_profile_url username platform)
  = Some (generated_parts username platform) →
  extract_username_from_input urlparse (generate_profile_url username platform) platform
  = Some username.
Proof.
  intros Hplat Hp Hparse.
  assert (Ht : Str.truthy username = true).
  { unfold plain_name in Hp. by apply andb_true_iff in Hp as [-> _]. }
  assert (Hne : ∀ s, s +:+ username ≠ EmptyString).
  { intros s. destruct s; [|done]. simpl. by destruct username. }
  assert (Hurl : ∀ host : string,
            match_all name_char ("https://" +:+ host +:+ username) = false).
  { intros host.
    exact (url_is_no_name name_char "h" "t" "t" "p" "s" ("//" +:+ host +:+ username)
             eq_refl (Hne ("//" +:+ host)%string)). }
  assert (Hstrip : strip_char "/" ("/" +:+ username) = username).
  { unfold strip_char.
    change (lstrip_char "/" ("/" +:+ username)) with (lstrip_char "/" username).
    apply strip_char_keeps, (plain_name_chars username _ Hp).
    intros c. by apply name_char_not. }
  unfold extract_username_from_input, username_from_url.
  rewrite Hparse. clear Hparse.
  unfold supported_platforms in Hplat.
  repeat (apply elem_of_cons in Hplat as [->|Hplat]); [..|by apply elem_of_nil in Hplat].
  - change (generate_profile_url username "twitter")
      with ("https://" +:+ "twitter.com/" +:+ username).
    rewrite Hurl. cbn [mbind option_bind generated_parts String.eqb Ascii.eqb Bool.eqb orb
                         scheme netloc path query Str.truthy].
    change (is_host twitter_hosts "twitter.com") with true. cbv iota.
    by rewrite path_of_name.
  - change (generate_profile_url username "x")
      with ("https://" +:+ "twitter.com/" +:+ username).
    rewrite Hurl. cbn [mbind option_bind generated_parts String.eqb Ascii.eqb Bool.eqb orb
                         scheme netloc path query Str.truthy].
    change (is_host twitter_hosts "twitter.com") with true. cbv iota.
    by rewrite path_of_name.
  - change (generate_profile_url username "instagram")
      with ("https://" +:+ "instagram.com/" +:+ username).
    rewrite Hurl. cbn [mbind option_bind generated_parts String.eqb Ascii.eqb Bool.eqb orb
                         scheme netloc path query Str.truthy].
    change (is_host instagram_hosts "instagram.com") with true. cbv iota.
    by rewrite path_of_name.
  - unfold generate_profile_url, generated_parts.
    cbn [String.eqb Ascii.eqb Bool.eqb orb].
    destruct (isdigit username) eqn:Hd.
    + change ("https://facebook.com/profile.php?id=" +:+ username)
        with ("https://" +:+ "facebook.com/profile.php?id=" +:+ username).
      rewrite Hurl. cbn [mbind option_bind scheme netloc path query Str.truthy].
      change (is_host facebook_hosts "facebook.com") with true. cbv iota.
      change (strip_char "/" "/profile.php") with "profile.php"%string.
      change (String.prefix "profile.php" "profile.php") with true. cbv iota.
      change (Str.truthy ("id=" +:+ username)) with true. cbv iota.
      unfold query_params.
      assert (Hamp : split "&" ("id=" +:+ username) = ["id=" +:+ username]%string).
      { apply split_one_piece.
        change (String.list_ascii_of_string ("id=" +:+ username))
          with ("i"%char :: "d"%char :: "="%char :: String.list_ascii_of_string username).
        cbn [forallb]. change (negb (Ascii.eqb "i" "&")) with true.
        change (negb (Ascii.eqb "d" "&")) with true.
        change (negb (Ascii.eqb "=" "&")) with true. cbn [andb].
        apply (plain_name_chars username _ Hp). intros c. by apply name_char_not. }
      assert (Heq : split "=" ("id=" +:+ username) = ["id"%string; username]).
      { unfold split.
        change (String.list_ascii_of_string ("id=" +:+ username))
          with ("i"%char :: "d"%char :: "="%char :: String.list_ascii_of_string username).
        change (split_go "=" [] ("i"%char :: "d"%char :: "="%char
                                  :: String.list_ascii_of_string username))
          with ("id"%string :: split_go "=" [] (String.list_ascii_of_string username)).
        f_equal. rewrite split_go_one_piece.
        - cbn [rev app]. by rewrite String.string_of_list_ascii_of_string.
        - apply (plain_name_chars username _ Hp). intros c. by apply name_char_not. }
      rewrite Hamp. cbn [dict_of_params]. rewrite Heq.
      cbn [dict_of_params mbind option_bind]. by rewrite lookup_insert_eq.
    + change ("https://facebook.com/" +:+ username)
        with ("https://" +:+ "facebook.com/" +:+ username).
      rewrite Hurl. cbn [mbind option_bind scheme netloc path query Str.truthy].
      change (is_host facebook_hosts "facebook.com") with true. cbv iota.
      by rewrite (path_of_name username Hp), Hstrip, (plain_name_no_prefix username Hp).
Qed.

Lemma username_round_trip_witness :
  generate_profile_url "1234567" "facebook" = "https://facebook.com/profile.php?id=1234567"%string
  ∧ extract_username_from_input RefUrl.urlparse
      "https://facebook.com/profile.php?id=1234567" "facebook" = Some "1234567"%string
  ∧ extract_username_from_input RefUrl.urlparse
      (generate_profile_url "alice_01" "x") "x" = Some "alice_01"%string.
Proof.
  split; [reflexivity|]. split.
  - exact (username_round_trip RefUrl.urlparse "1234567" "facebook"
             ltac:(by_evaluation) eq_refl eq_refl).
  - exact (username_round_trip RefUrl.urlparse "alice_01" "x"
             ltac:(by_evaluation) eq_refl eq_refl).
Defined.



End Urls.
